(** * google-chat-mcp: request mediation, error classification and rendering

    A shallow embedding of the TypeScript sources
      - [services/formatters.ts]  (module [Formatters])
      - [services/api-client.ts]  (module [ApiClient])
      - [tools/*.ts]              (module [Tools])
      - [constants.ts], [types.ts], [schemas/index.ts]
    followed by the properties established about them.

    JavaScript strings are modelled by [string]; one [ascii] stands for one
    UTF-16 code unit, so that [String.length] is the JavaScript [.length].
    JavaScript numbers that the code handles (status codes, counts, lengths,
    page sizes) are integers and are modelled by [Z]. *)

From Stdlib Require Import String Ascii List ZArith Lia Bool DecimalString.
Import ListNotations.
Open Scope Z_scope.
Open Scope list_scope.
Open Scope string_scope.

(* ================================================================== *)
(** * The JavaScript runtime pieces the sources rely on *)
(* ================================================================== *)

Module JS.

(** [String.prototype.substring(start, end)]: both indices are clamped to
    [0 .. length], and swapped when [start > end]. *)
Definition substring (s : string) (start stop : Z) : string :=
  let len := Z.of_nat (String.length s) in
  let a := Z.min (Z.max start 0) len in
  let b := Z.min (Z.max stop 0) len in
  let lo := Z.min a b in
  let hi := Z.max a b in
  String.substring (Z.to_nat lo) (Z.to_nat (hi - lo)) s.

(** [s.length] *)
Definition length (s : string) : Z := Z.of_nat (String.length s).

(** [Array.prototype.join(sep)] on an array of strings. *)
Definition join (sep : string) (xs : list string) : string :=
  String.concat sep xs.

(** [Array.prototype.push]: append at the end. *)
Definition push {A} (xs : list A) (x : A) : list A := (xs ++ [x])%list.

(** The decimal digits of an integer: number-to-string conversion, as in a
    template literal, of a count or a length. *)
Definition Number_toString (z : Z) : string :=
  NilZero.string_of_int (Z.to_int z).

(** Truthiness of an optional string: [undefined] and [""] are falsy. *)
Definition truthy (o : option string) : bool :=
  match o with
  | Some s => negb (s =? "")
  | None => false
  end.

(** [a || d] where [a] is an optional string and [d] a string. *)
Definition or_else (o : option string) (d : string) : string :=
  match o with
  | Some s => if s =? "" then d else s
  | None => d
  end.

(** The string held by a truthy optional string. *)
Definition nonEmpty (o : option string) : option string :=
  match o with
  | Some s => if s =? "" then None else Some s
  | None => None
  end.

(** [a || b] where both sides are optional strings. *)
Definition or_opt (o p : option string) : option string :=
  if truthy o then o else p.

(** Untyped values: decoded JSON bodies, request bodies, thrown values.
    Numbers are the integers; an object is the list of its own properties,
    with one entry per key. *)
#[warnings="-register-all"]
Inductive Value : Type :=
  | VUndefined
  | VNull
  | VBool (b : bool)
  | VNum (z : Z)
  | VStr (s : string)
  | VArr (xs : list Value)
  | VObj (fields : list (string * Value)).

Fixpoint lookup (k : string) (fields : list (string * Value)) : Value :=
  match fields with
  | [] => VUndefined
  | (k', v) :: rest => if k' =? k then v else lookup k rest
  end.

(** Optional chaining [v?.k] for a property name [k] that is not a
    built-in of strings or arrays ([error] and [message] are the only
    names the sources read this way). *)
Definition prop (v : Value) (k : string) : Value :=
  match v with
  | VObj fields => lookup k fields
  | _ => VUndefined
  end.

Definition truthyV (v : Value) : bool :=
  match v with
  | VUndefined | VNull => false
  | VBool b => b
  | VNum z => negb (z =? 0)%Z
  | VStr s => negb (s =? "")
  | VArr _ | VObj _ => true
  end.

(** [a || b] on values. *)
Definition orV (a b : Value) : Value := if truthyV a then a else b.

(** [Object.prototype.hasOwnProperty] on a decoded object. *)
Definition hasOwn (fields : list (string * Value)) (k : string) : bool :=
  existsb (fun field => fst field =? k) fields.

(** All the strings, or nothing when one is missing. *)
Fixpoint allOf (xs : list (option string)) : option (list string) :=
  match xs with
  | [] => Some []
  | Some x :: rest =>
    match allOf rest with
    | Some ys => Some (x :: ys)
    | None => None
    end
  | None :: _ => None
  end.

(** The integers that [Number::toString] writes in plain decimal digits;
    from [10^21] on it switches to exponent notation. *)
Definition plainDecimal (z : Z) : bool := (Z.abs z <? 10 ^ 21)%Z.

(** The [ToString] conversion ([String(v)], template literals) of plain
    data, that is, of values as [JSON.parse] builds them.  [None] stands
    for the [TypeError] that the conversion throws: a plain object is
    converted by the [toString] it inherits unless it has an own property
    of that name, which, being data, is not callable; [valueOf] then
    yields the object itself and the conversion gives up.  An array is
    converted by joining the conversions of its elements.  [exponent]
    writes the integers that are not written in plain decimal. *)
Section ToString.
Variable exponent : Z -> string.

(** [Number::toString] on an integer. *)
Definition numberText (z : Z) : string :=
  if plainDecimal z then Number_toString z else exponent z.

Fixpoint toString (v : Value) : option string :=
  match v with
  | VUndefined => Some "undefined"
  | VNull => Some "null"
  | VBool true => Some "true"
  | VBool false => Some "false"
  | VNum z => Some (numberText z)
  | VStr s => Some s
  | VArr xs =>
      option_map (String.concat ",")
        (allOf (List.map (fun x => match x with
                                   | VUndefined | VNull => Some ""
                                   | _ => toString x
                                   end) xs))
  | VObj fields =>
      if hasOwn fields "toString" then None else Some "[object Object]"
  end.

End ToString.

(** An optional string as a value of an object literal. *)
Definition ofOption (o : option string) : Value :=
  match o with
  | Some s => VStr s
  | None => VUndefined
  end.

(** Insertion-ordered [Map<string, V>]. *)
Section MapModel.
Context {V : Type}.

Definition Map := list (string * V).

Fixpoint Map_has (m : Map) (k : string) : bool :=
  match m with
  | [] => false
  | (k', _) :: rest => if k' =? k then true else Map_has rest k
  end.

Fixpoint Map_get (m : Map) (k : string) : option V :=
  match m with
  | [] => None
  | (k', v) :: rest => if k' =? k then Some v else Map_get rest k
  end.

(** [set] keeps the position of an existing key and appends a new one. *)
Fixpoint Map_set (m : Map) (k : string) (v : V) : Map :=
  match m with
  | [] => [(k, v)]
  | (k', v') :: rest =>
      if k' =? k then (k', v) :: rest else (k', v') :: Map_set rest k v
  end.

(** In-place mutation of the object stored under [k]
    ([m.get(k)!.field.push(..)]). *)
Fixpoint Map_mutate (m : Map) (k : string) (f : V -> V) : Map :=
  match m with
  | [] => []
  | (k', v') :: rest =>
      if k' =? k then (k', f v') :: rest
      else (k', v') :: Map_mutate rest k f
  end.
End MapModel.
Arguments Map : clear implicits.

End JS.

(* ================================================================== *)
(** * constants.ts *)
(* ================================================================== *)

Definition API_BASE_URL : string := "https://chat.googleapis.com/v1".
Definition CHARACTER_LIMIT : Z := 25000.
Definition DEFAULT_PAGE_SIZE : Z := 25.
Definition MAX_PAGE_SIZE : Z := 100.

Inductive ResponseFormat : Type := MARKDOWN | JSON.

Inductive SpaceType : Type := SPACE | GROUP_CHAT | DIRECT_MESSAGE.

Inductive MembershipRole : Type := ROLE_UNSPECIFIED | ROLE_MEMBER | ROLE_MANAGER.

(* ================================================================== *)
(** * types.ts *)
(* ================================================================== *)

(** The interfaces of [types.ts], with the fields that the renderer and the
    tool handlers read.  Optional fields ([f?: T]) are [option]s.  The other
    declared fields and the open index signature are relayed untouched and
    are only ever seen by [JSON.stringify]. *)

Module SpaceDetails.
Record t : Type := mk { description : option string; guidelines : option string }.
End SpaceDetails.

Module MembershipCount.
Record t : Type :=
  mk { joinedDirectHumanUserCount : option Z; joinedGroupCount : option Z }.
End MembershipCount.

Module Space.
Record t : Type := mk {
  name : string;
  type : option string;
  spaceType : option string;
  threaded : option bool;
  displayName : option string;
  externalUserAllowed : option bool;
  spaceDetails : option SpaceDetails.t;
  createTime : option string;
  membershipCount : option MembershipCount.t
}.
End Space.

Module User.
Record t : Type := mk {
  name : string;
  displayName : option string;
  type : option string
}.
End User.

Module Member.
Record t : Type := mk {
  name : string;
  state : option string;
  role : option string;
  member : option User.t;
  createTime : option string
}.
End Member.

Module Thread.
Record t : Type := mk { name : string; threadKey : option string }.
End Thread.

Module CustomEmoji.
Record t : Type := mk { uid : option string }.
End CustomEmoji.

Module Emoji.
Record t : Type := mk { unicode : option string; customEmoji : option CustomEmoji.t }.
End Emoji.

Module EmojiReactionSummary.
Record t : Type := mk { emoji : option Emoji.t; reactionCount : option Z }.
End EmojiReactionSummary.

Module Message.
Record t : Type := mk {
  name : string;
  sender : option User.t;
  createTime : option string;
  text : option string;
  thread : option Thread.t;
  emojiReactionSummaries : option (list EmojiReactionSummary.t)
}.
End Message.

Module Reaction.
Record t : Type := mk {
  name : string;
  user : option User.t;
  emoji : option Emoji.t
}.
End Reaction.

Module AttachmentDataRef.
Record t : Type :=
  mk { resourceName : option string; attachmentUploadToken : option string }.
End AttachmentDataRef.

Module Attachment.
Record t : Type := mk {
  name : string;
  contentName : option string;
  contentType : option string;
  attachmentDataRef : option AttachmentDataRef.t;
  downloadUri : option string;
  source : option string
}.
End Attachment.

(** API response types. *)

Module ListSpacesResponse.
Record t : Type := mk { spaces : option (list Space.t); nextPageToken : option string }.
End ListSpacesResponse.

Module SearchSpacesResponse.
Record t : Type := mk {
  spaces : option (list Space.t);
  nextPageToken : option string;
  totalSize : option Z
}.
End SearchSpacesResponse.

Module ListMembersResponse.
Record t : Type := mk { memberships : option (list Member.t); nextPageToken : option string }.
End ListMembersResponse.

Module ListMessagesResponse.
Record t : Type := mk { messages : option (list Message.t); nextPageToken : option string }.
End ListMessagesResponse.

Module ListReactionsResponse.
Record t : Type := mk { reactions : option (list Reaction.t); nextPageToken : option string }.
End ListReactionsResponse.

Module UploadResponse.
Record t : Type := mk { attachmentDataRef : option AttachmentDataRef.t }.
End UploadResponse.

(** The object literals that the sources hand to [JSON.stringify] and return
    as [structuredContent]. *)
Inductive Structured : Type :=
| OfSpace (space : Space.t)
| OfMessage (message : Message.t)
| OfMember (member : Member.t)
| OfReaction (reaction : Reaction.t)
| OfAttachment (attachment : Attachment.t)
| SpacesPage (count : Z) (spaces : list Space.t)
    (hasMore : bool) (nextPageToken : option string)
| SearchPage (count : Z) (totalSize : option Z) (spaces : list Space.t)
    (hasMore : bool) (nextPageToken : option string)
| MessagesPage (count : Z) (messages : list Message.t)
    (hasMore : bool) (nextPageToken : option string)
| MembersPage (count : Z) (memberships : list Member.t)
    (hasMore : bool) (nextPageToken : option string)
| ReactionsPage (count : Z) (reactions : list Reaction.t)
    (hasMore : bool) (nextPageToken : option string)
| Deleted (key : string) (resource : string).

(* ================================================================== *)
(** * Built-ins of the host platform *)
(* ================================================================== *)

(** The library functions that the sources call and that are not part of the
    repository: date parsing and locale formatting, the JSON codec and the
    base64 decoder.  [Date_parse s = None] stands for the [Invalid Date]
    that [new Date(s)] yields on a string it cannot parse, and
    [JSON_parse s = None] for the [SyntaxError] that [JSON.parse] throws.
    [Number_toExponent] is [Number::toString] on the integers of magnitude
    [10^21] and more, which it writes in exponent notation. *)
Class Platform : Type := {
  Instant : Type;
  Date_parse : string -> option Instant;
  format_enUS_short : Instant -> string;
  JSON_parse : string -> option JS.Value;
  JSON_stringify : Structured -> string;
  base64_byteLength : string -> Z;
  Number_toExponent : Z -> string
}.

(** What a [throw] can carry.  [AxiosError] is the error class of the HTTP
    library: [response] is present when the server answered with a
    non-2xx status, [code] is the transport error code otherwise. *)
Inductive Thrown : Type :=
| AxiosError (message : string) (code : option string)
    (response : option (Z * JS.Value))
| Error (message : string)
| NonError (v : JS.Value).

(** Outcome of an evaluation that may throw. *)
Definition Completion (A : Type) : Type := (Thrown + A)%type.

(** The [TypeError] of a failed [ToString] conversion, with the message
    that Node.js gives it. *)
Definition ToPrimitive_TypeError : Thrown :=
  Error "Cannot convert object to primitive value".

(** [`${n}`] for a number [n] that is an integer. *)
Definition Number_text {platform : Platform} (n : Z) : string :=
  JS.numberText Number_toExponent n.

(** [String(v)] and [`${v}`] as evaluations that may throw. *)
Definition ToString {platform : Platform} (v : JS.Value) : Completion string :=
  match JS.toString Number_toExponent v with
  | Some s => inr s
  | None => inl ToPrimitive_TypeError
  end.

(** The line feed of the ["\n"] escapes. *)
Definition LF : string := String "010"%char EmptyString.

(* ================================================================== *)
(** * services/formatters.ts *)
(* ================================================================== *)

Module Formatters.

(** The values of the [grouped] map of [formatReactionsList]. *)
Module EmojiGroup.
Record t : Type := mk { emoji : string; users : list string }.
End EmojiGroup.

Section WithPlatform.
Context {platform : Platform}.

(** [date.toLocaleString("en-US", {year: "numeric", month: "short",
    day: "numeric", hour: "2-digit", minute: "2-digit"})] on the result of
    [new Date(timestamp)].  Neither the constructor nor the method throws
    on a string input: an invalid date formats as ["Invalid Date"]. *)
Definition Date_toLocaleString (date : option Instant) : Completion string :=
  match date with
  | Some i => inr (format_enUS_short i)
  | None => inr "Invalid Date"
  end.

Definition formatTimestamp (timestamp : string) : string :=
  let date := Date_parse timestamp in
  match Date_toLocaleString date with
  | inr s => s
  | inl _ => timestamp
  end.

Definition truncateResponse (text : string) : string :=
  if (JS.length text <=? CHARACTER_LIMIT)%Z then text
  else
    let truncated := JS.substring text 0 (CHARACTER_LIMIT - 100) in
    truncated ++ LF ++ LF ++ "---" ++ LF ++
      "*Response truncated due to size limit. Use pagination to see more results.*".

Definition yesNo (b : bool) : string := if b then "Yes" else "No".

Definition formatSpace (space : Space.t) (format : ResponseFormat) : string :=
  match format with
  | JSON => JSON_stringify (OfSpace space)
  | MARKDOWN =>
    let lines : list string := [] in
    let lines := JS.push lines
      ("## " ++ JS.or_else (Space.displayName space) "Unnamed Space") in
    let lines := JS.push lines ("- **Name**: " ++ Space.name space) in
    let lines := JS.push lines
      ("- **Type**: " ++
       JS.or_else (JS.or_opt (Space.spaceType space) (Space.type space)) "Unknown") in
    let lines :=
      match Space.spaceDetails space with
      | Some details =>
        match SpaceDetails.description details with
        | Some description =>
          if negb (description =? "")
          then JS.push lines ("- **Description**: " ++ description)
          else lines
        | None => lines
        end
      | None => lines
      end in
    let lines :=
      match Space.membershipCount space with
      | Some mc =>
        let count :=
          match MembershipCount.joinedDirectHumanUserCount mc with
          | Some n => n
          | None => 0
          end in
        JS.push lines ("- **Members**: " ++ Number_text count)
      | None => lines
      end in
    let lines :=
      match Space.createTime space with
      | Some createTime =>
        if negb (createTime =? "")
        then JS.push lines ("- **Created**: " ++ formatTimestamp createTime)
        else lines
      | None => lines
      end in
    let lines :=
      match Space.threaded space with
      | Some threaded => JS.push lines ("- **Threaded**: " ++ yesNo threaded)
      | None => lines
      end in
    let lines :=
      match Space.externalUserAllowed space with
      | Some allowed =>
        JS.push lines ("- **External Users Allowed**: " ++ yesNo allowed)
      | None => lines
      end in
    JS.join LF lines
  end.

(** Body of the [for (const space of spaces)] loop of [formatSpacesList]. *)
Definition formatSpacesList_step (lines : list string) (space : Space.t)
  : list string :=
  let lines := JS.push lines
    ("## " ++ JS.or_else (Space.displayName space) "Unnamed Space") in
  let lines := JS.push lines ("- **ID**: `" ++ Space.name space ++ "`") in
  let lines := JS.push lines
    ("- **Type**: " ++
     JS.or_else (JS.or_opt (Space.spaceType space) (Space.type space)) "Unknown") in
  let lines :=
    match Space.spaceDetails space with
    | Some details =>
      match SpaceDetails.description details with
      | Some description =>
        if negb (description =? "")
        then JS.push lines
          ("- **Description**: " ++ JS.substring description 0 100 ++
           (if (JS.length description >? 100)%Z then "..." else ""))
        else lines
      | None => lines
      end
    | None => lines
    end in
  JS.push lines "".

(** The lines assembled by [formatSpacesList] in markdown mode for a
    non-empty array, before they are joined. *)
Definition formatSpacesList_lines (spaces : list Space.t) (hasMore : bool)
    (nextPageToken : option string) : list string :=
  let lines : list string := [] in
  let lines := JS.push lines
    ("# Spaces (" ++ JS.Number_toString (Z.of_nat (List.length spaces)) ++ " results)") in
  let lines := JS.push lines "" in
  let lines := fold_left formatSpacesList_step spaces lines in
  match nextPageToken with
  | Some token =>
    if hasMore && negb (token =? "")
    then
      let lines := JS.push lines "---" in
      JS.push lines ("*More results available. Use pageToken: `" ++ token ++ "`*")
    else lines
  | None => lines
  end.

Definition formatSpacesList (spaces : list Space.t) (format : ResponseFormat)
    (hasMore : bool) (nextPageToken : option string) : string :=
  match format with
  | JSON =>
    JSON_stringify
      (SpacesPage (Z.of_nat (List.length spaces)) spaces hasMore nextPageToken)
  | MARKDOWN =>
    if (Z.of_nat (List.length spaces) =? 0)%Z then "No spaces found."
    else truncateResponse (JS.join LF (formatSpacesList_lines spaces hasMore nextPageToken))
  end.

Definition formatMessage (message : Message.t) (format : ResponseFormat) : string :=
  match format with
  | JSON => JSON_stringify (OfMessage message)
  | MARKDOWN =>
    let lines : list string := [] in
    let lines := JS.push lines "## Message" in
    let lines := JS.push lines ("- **ID**: `" ++ Message.name message ++ "`") in
    let lines :=
      match Message.sender message with
      | Some sender =>
        JS.push lines
          ("- **From**: " ++ JS.or_else (User.displayName sender) (User.name sender))
      | None => lines
      end in
    let lines :=
      match Message.createTime message with
      | Some createTime =>
        if negb (createTime =? "")
        then JS.push lines ("- **Time**: " ++ formatTimestamp createTime)
        else lines
      | None => lines
      end in
    let lines :=
      match Message.text message with
      | Some text =>
        if negb (text =? "")
        then
          let lines := JS.push lines "" in
          let lines := JS.push lines "### Content" in
          JS.push lines text
        else lines
      | None => lines
      end in
    let lines :=
      match Message.thread message with
      | Some thread =>
        if negb (Thread.name thread =? "")
        then
          let lines := JS.push lines "" in
          JS.push lines ("- **Thread**: `" ++ Thread.name thread ++ "`")
        else lines
      | None => lines
      end in
    let lines :=
      match Message.emojiReactionSummaries message with
      | Some summaries =>
        if (Z.of_nat (List.length summaries) >? 0)%Z
        then
          let reactions :=
            JS.join " "
              (List.map
                 (fun r =>
                    JS.or_else
                      (match EmojiReactionSummary.emoji r with
                       | Some e => Emoji.unicode e
                       | None => None
                       end) "?" ++
                    " (" ++
                    match EmojiReactionSummary.reactionCount r with
                    | Some n => Number_text n
                    | None => "undefined"
                    end ++ ")")
                 summaries) in
          JS.push lines ("- **Reactions**: " ++ reactions)
        else lines
      | None => lines
      end in
    JS.join LF lines
  end.

(** [x?.displayName || x?.name || "Unknown"] for an optional [User]. *)
Definition userLabel (u : option User.t) : string :=
  JS.or_else
    (JS.or_opt
       (match u with Some x => User.displayName x | None => None end)
       (match u with Some x => Some (User.name x) | None => None end))
    "Unknown".

(** Body of the [for (const message of messages)] loop. *)
Definition formatMessagesList_step (lines : list string) (message : Message.t)
  : list string :=
  let sender := userLabel (Message.sender message) in
  let time :=
    match Message.createTime message with
    | Some createTime =>
      if negb (createTime =? "") then formatTimestamp createTime else ""
    | None => ""
    end in
  let preview :=
    match Message.text message with
    | Some text =>
      if negb (text =? "")
      then JS.substring text 0 100 ++
           (if (JS.length text >? 100)%Z then "..." else "")
      else "[No text content]"
    | None => "[No text content]"
    end in
  let lines := JS.push lines ("### " ++ sender ++ " - " ++ time) in
  let lines := JS.push lines ("- **ID**: `" ++ Message.name message ++ "`") in
  let lines := JS.push lines ("- **Content**: " ++ preview) in
  JS.push lines "".

Definition formatMessagesList_lines (messages : list Message.t) (hasMore : bool)
    (nextPageToken : option string) : list string :=
  let lines : list string := [] in
  let lines := JS.push lines
    ("# Messages (" ++ JS.Number_toString (Z.of_nat (List.length messages)) ++ " results)") in
  let lines := JS.push lines "" in
  let lines := fold_left formatMessagesList_step messages lines in
  match nextPageToken with
  | Some token =>
    if hasMore && negb (token =? "")
    then
      let lines := JS.push lines "---" in
      JS.push lines ("*More results available. Use pageToken: `" ++ token ++ "`*")
    else lines
  | None => lines
  end.

Definition formatMessagesList (messages : list Message.t) (format : ResponseFormat)
    (hasMore : bool) (nextPageToken : option string) : string :=
  match format with
  | JSON =>
    JSON_stringify
      (MessagesPage (Z.of_nat (List.length messages)) messages hasMore nextPageToken)
  | MARKDOWN =>
    if (Z.of_nat (List.length messages) =? 0)%Z then "No messages found."
    else truncateResponse
           (JS.join LF (formatMessagesList_lines messages hasMore nextPageToken))
  end.

Definition formatMember (member : Member.t) (format : ResponseFormat) : string :=
  match format with
  | JSON => JSON_stringify (OfMember member)
  | MARKDOWN =>
    let lines : list string := [] in
    let displayName := userLabel (Member.member member) in
    let lines := JS.push lines ("## " ++ displayName) in
    let lines := JS.push lines ("- **Membership ID**: `" ++ Member.name member ++ "`") in
    let lines := JS.push lines
      ("- **State**: " ++ JS.or_else (Member.state member) "Unknown") in
    let lines := JS.push lines
      ("- **Role**: " ++ JS.or_else (Member.role member) "Unknown") in
    let lines :=
      match Member.member member with
      | Some u =>
        match User.type u with
        | Some type =>
          if negb (type =? "") then JS.push lines ("- **Type**: " ++ type) else lines
        | None => lines
        end
      | None => lines
      end in
    let lines :=
      match Member.createTime member with
      | Some createTime =>
        if negb (createTime =? "")
        then JS.push lines ("- **Joined**: " ++ formatTimestamp createTime)
        else lines
      | None => lines
      end in
    JS.join LF lines
  end.

(** Body of the [for (const member of members)] loop. *)
Definition formatMembersList_step (lines : list string) (member : Member.t)
  : list string :=
  let displayName := userLabel (Member.member member) in
  let lines := JS.push lines ("## " ++ displayName) in
  let lines := JS.push lines ("- **ID**: `" ++ Member.name member ++ "`") in
  let lines := JS.push lines
    ("- **Role**: " ++ JS.or_else (Member.role member) "Unknown") in
  let lines := JS.push lines
    ("- **State**: " ++ JS.or_else (Member.state member) "Unknown") in
  JS.push lines "".

Definition formatMembersList_lines (members : list Member.t) (hasMore : bool)
    (nextPageToken : option string) : list string :=
  let lines : list string := [] in
  let lines := JS.push lines
    ("# Members (" ++ JS.Number_toString (Z.of_nat (List.length members)) ++ " results)") in
  let lines := JS.push lines "" in
  let lines := fold_left formatMembersList_step members lines in
  match nextPageToken with
  | Some token =>
    if hasMore && negb (token =? "")
    then
      let lines := JS.push lines "---" in
      JS.push lines ("*More results available. Use pageToken: `" ++ token ++ "`*")
    else lines
  | None => lines
  end.

Definition formatMembersList (members : list Member.t) (format : ResponseFormat)
    (hasMore : bool) (nextPageToken : option string) : string :=
  match format with
  | JSON =>
    JSON_stringify
      (MembersPage (Z.of_nat (List.length members)) members hasMore nextPageToken)
  | MARKDOWN =>
    if (Z.of_nat (List.length members) =? 0)%Z then "No members found."
    else truncateResponse
           (JS.join LF (formatMembersList_lines members hasMore nextPageToken))
  end.

(** [reaction.emoji?.unicode || reaction.emoji?.customEmoji?.uid || "?"] *)
Definition reactionEmoji (reaction : Reaction.t) : string :=
  JS.or_else
    (JS.or_opt
       (match Reaction.emoji reaction with
        | Some e => Emoji.unicode e
        | None => None
        end)
       (match Reaction.emoji reaction with
        | Some e =>
          match Emoji.customEmoji e with
          | Some c => CustomEmoji.uid c
          | None => None
          end
        | None => None
        end))
    "?".

(** [reaction.user?.displayName || reaction.user?.name || "Unknown"] *)
Definition reactionUser (reaction : Reaction.t) : string :=
  userLabel (Reaction.user reaction).

Definition formatReaction (reaction : Reaction.t) (format : ResponseFormat) : string :=
  match format with
  | JSON => JSON_stringify (OfReaction reaction)
  | MARKDOWN =>
    let emoji := reactionEmoji reaction in
    let user := reactionUser reaction in
    emoji ++ " by " ++ user ++ " (`" ++ Reaction.name reaction ++ "`)"
  end.

(** Body of the grouping loop [for (const reaction of reactions)]. *)
Definition groupReactions_step (grouped : JS.Map EmojiGroup.t) (reaction : Reaction.t)
  : JS.Map EmojiGroup.t :=
  let emoji := reactionEmoji reaction in
  let user := reactionUser reaction in
  let grouped :=
    if negb (JS.Map_has grouped emoji)
    then JS.Map_set grouped emoji (EmojiGroup.mk emoji [])
    else grouped in
  JS.Map_mutate grouped emoji
    (fun g => EmojiGroup.mk (EmojiGroup.emoji g) (JS.push (EmojiGroup.users g) user)).

Definition groupReactions (reactions : list Reaction.t) : JS.Map EmojiGroup.t :=
  fold_left groupReactions_step reactions [].

(** Body of the loop [for (const [emoji, data] of grouped)]. *)
Definition formatReactionsList_step (lines : list string)
    (entry : string * EmojiGroup.t) : list string :=
  let '(emoji, data) := entry in
  JS.push lines
    ("- " ++ emoji ++ " (" ++
     JS.Number_toString (Z.of_nat (List.length (EmojiGroup.users data))) ++ "): " ++
     JS.join ", " (EmojiGroup.users data)).

Definition formatReactionsList_lines (reactions : list Reaction.t) (hasMore : bool)
    (nextPageToken : option string) : list string :=
  let lines : list string := [] in
  let lines := JS.push lines
    ("# Reactions (" ++ JS.Number_toString (Z.of_nat (List.length reactions)) ++ " results)") in
  let lines := JS.push lines "" in
  let grouped := groupReactions reactions in
  let lines := fold_left formatReactionsList_step grouped lines in
  match nextPageToken with
  | Some token =>
    if hasMore && negb (token =? "")
    then
      let lines := JS.push lines "" in
      JS.push lines ("*More results available. Use pageToken: `" ++ token ++ "`*")
    else lines
  | None => lines
  end.

Definition formatReactionsList (reactions : list Reaction.t) (format : ResponseFormat)
    (hasMore : bool) (nextPageToken : option string) : string :=
  match format with
  | JSON =>
    JSON_stringify
      (ReactionsPage (Z.of_nat (List.length reactions)) reactions hasMore nextPageToken)
  | MARKDOWN =>
    if (Z.of_nat (List.length reactions) =? 0)%Z then "No reactions found."
    else JS.join LF (formatReactionsList_lines reactions hasMore nextPageToken)
  end.

Definition formatAttachment (attachment : Attachment.t) (format : ResponseFormat)
  : string :=
  match format with
  | JSON => JSON_stringify (OfAttachment attachment)
  | MARKDOWN =>
    let lines : list string := [] in
    let lines := JS.push lines "## Attachment" in
    let lines := JS.push lines ("- **Name**: `" ++ Attachment.name attachment ++ "`") in
    let lines :=
      match JS.nonEmpty (Attachment.contentName attachment) with
      | Some contentName => JS.push lines ("- **Filename**: " ++ contentName)
      | None => lines
      end in
    let lines :=
      match JS.nonEmpty (Attachment.contentType attachment) with
      | Some contentType => JS.push lines ("- **Type**: " ++ contentType)
      | None => lines
      end in
    let lines :=
      match JS.nonEmpty (Attachment.downloadUri attachment) with
      | Some downloadUri => JS.push lines ("- **Download URL**: " ++ downloadUri)
      | None => lines
      end in
    let lines :=
      match JS.nonEmpty (Attachment.source attachment) with
      | Some source => JS.push lines ("- **Source**: " ++ source)
      | None => lines
      end in
    JS.join LF lines
  end.

End WithPlatform.
End Formatters.

(* ================================================================== *)
(** * services/api-client.ts *)
(* ================================================================== *)

Module ApiClient.

Definition CHAT_SCOPES : list string :=
  [ "https://www.googleapis.com/auth/chat.spaces";
    "https://www.googleapis.com/auth/chat.spaces.readonly";
    "https://www.googleapis.com/auth/chat.messages";
    "https://www.googleapis.com/auth/chat.messages.readonly";
    "https://www.googleapis.com/auth/chat.memberships";
    "https://www.googleapis.com/auth/chat.memberships.readonly";
    "https://www.googleapis.com/auth/chat.spaces.create";
    "https://www.googleapis.com/auth/chat.delete";
    "https://www.googleapis.com/auth/chat.import" ].

(** [authOptions: { scopes: string[]; credentials?: object }] *)
Record AuthOptions : Type :=
  mkAuthOptions { scopes : list string; credentials : option JS.Value }.

(** [authClient: GoogleAuth | OAuth2Client]; an [OAuth2Client] is
    represented by its [credentials.access_token]. *)
Inductive AuthClient : Type :=
| GoogleAuth (options : AuthOptions)
| OAuth2Client (access_token : option string).

(** The configuration given to [axios.create]. *)
Record AxiosInstance : Type := mkAxios {
  baseURL : string;
  timeout : Z;
  headers : list (string * string)
}.

Inductive Method : Type := GET | POST | PUT | PATCH | DELETE.

(** A request as it leaves the process: the arguments of [makeApiRequest]
    and the [Authorization] header set by the request interceptor. *)
Record WireRequest : Type := mkWire {
  method : Method;
  url : string;
  data : JS.Value;
  params : option (list (string * JS.Value));
  Authorization : string
}.

(** [process.env] *)
Record Env : Type := mkEnv {
  GOOGLE_APPLICATION_CREDENTIALS : option string;
  GOOGLE_SERVICE_ACCOUNT_JSON : option string;
  GOOGLE_OAUTH_TOKEN : option string
}.

(** What surrounds the module: the environment and the identity provider.
    [exchange options] is the outcome of
    [(await authClient.getClient()).getAccessToken()] for a [GoogleAuth]
    built from [options]: it throws, or yields [tokenResponse.token]. *)
Record Host : Type := mkHost {
  env : Env;
  exchange : AuthOptions -> Completion (option string)
}.

(** The module-level variables [apiClient] and [authClient], together with
    the log of the HTTP requests issued so far. *)
Record State : Type := mkState {
  apiClient : option AxiosInstance;
  authClient : option AuthClient;
  outbound : list WireRequest
}.

(** Computations that read and write the module state and may throw. *)
Definition M (A : Type) : Type := State -> Completion A * State.

Definition ret {A} (a : A) : M A := fun st => (inr a, st).

Definition throw {A} (e : Thrown) : M A := fun st => (inl e, st).

(** An evaluation that does not touch the module state. *)
Definition complete {A} (c : Completion A) : M A := fun st => (c, st).

Definition bind {A B} (c : M A) (k : A -> M B) : M B :=
  fun st =>
    match c st with
    | (inr a, st') => k a st'
    | (inl e, st') => (inl e, st')
    end.

(** [try { c } catch (error) { handler(error) }] *)
Definition try_catch {A} (c : M A) (handler : Thrown -> M A) : M A :=
  fun st =>
    match c st with
    | (inr a, st') => (inr a, st')
    | (inl e, st') => handler e st'
    end.

Definition get : M State := fun st => (inr st, st).

Definition put (st : State) : M unit := fun _ => (inr tt, st).

Declare Scope api_scope.
Delimit Scope api_scope with api.
Notation "x <- c ;; k" := (bind c (fun x => k))
  (at level 61, c at next level, right associativity) : api_scope.
Notation "c ;; k" := (bind c (fun _ => k))
  (at level 61, right associativity) : api_scope.
Local Open Scope api_scope.

Section WithHost.
Context {platform : Platform} (host : Host).

Definition initializeApiClient : M unit :=
  let serviceAccountPath := GOOGLE_APPLICATION_CREDENTIALS (env host) in
  let serviceAccountJson := GOOGLE_SERVICE_ACCOUNT_JSON (env host) in
  let oauthToken := GOOGLE_OAUTH_TOKEN (env host) in
  (if JS.truthy serviceAccountPath || JS.truthy serviceAccountJson
   then
     authOptions <-
       match JS.nonEmpty serviceAccountJson with
       | Some json =>
         match JSON_parse json with
         | Some parsed => ret (mkAuthOptions CHAT_SCOPES (Some parsed))
         | None => throw (Error "Invalid GOOGLE_SERVICE_ACCOUNT_JSON: must be valid JSON")
         end
       | None => ret (mkAuthOptions CHAT_SCOPES None)
       end ;;
     st <- get ;;
     put (mkState (apiClient st) (Some (GoogleAuth authOptions)) (outbound st))
   else if JS.truthy oauthToken
   then
     st <- get ;;
     put (mkState (apiClient st) (Some (OAuth2Client oauthToken)) (outbound st))
   else
     throw (Error
       ("Authentication required. Set one of:" ++ LF ++
        "  - GOOGLE_APPLICATION_CREDENTIALS: Path to service account JSON file" ++ LF ++
        "  - GOOGLE_SERVICE_ACCOUNT_JSON: Service account JSON as a string" ++ LF ++
        "  - GOOGLE_OAUTH_TOKEN: OAuth2 access token"))) ;;
  st <- get ;;
  put (mkState
         (Some (mkAxios API_BASE_URL 30000
                  [("Content-Type", "application/json");
                   ("Accept", "application/json")]))
         (authClient st) (outbound st)).

Definition getAccessToken : M string :=
  st <- get ;;
  match authClient st with
  | None => throw (Error "API client not initialized. Call initializeApiClient() first.")
  | Some (OAuth2Client access_token) =>
    match JS.nonEmpty access_token with
    | Some token => ret token
    | None => throw (Error "OAuth2 token expired or invalid")
    end
  | Some (GoogleAuth options) =>
    match exchange host options with
    | inl e => throw e
    | inr tokenResponse =>
      match JS.nonEmpty tokenResponse with
      | None => throw (Error "Failed to obtain access token")
      | Some token => ret token
      end
    end
  end.

(** The HTTP exchange proper: the request is logged as issued and the
    remote end answers with decoded data or makes axios throw. *)
Definition send {T} (http : WireRequest -> Completion T) (req : WireRequest) : M T :=
  fun st =>
    (http req, mkState (apiClient st) (authClient st) (JS.push (outbound st) req)).

Definition makeApiRequest {T} (http : WireRequest -> Completion T)
    (endpoint : string) (method : Method) (data : JS.Value)
    (params : option (list (string * JS.Value))) : M T :=
  st <- get ;;
  (match apiClient st with
   | None => initializeApiClient
   | Some _ => ret tt
   end) ;;
  (* apiClient!({ method, url, data, params }): the request interceptor
     runs first, then the request is sent *)
  token <- getAccessToken ;;
  send http (mkWire method endpoint data params ("Bearer " ++ token)).

End WithHost.

(** [data?.error?.message || data?.message || "Unknown error"] *)
Definition upstreamMessage (data : JS.Value) : JS.Value :=
  JS.orV (JS.prop (JS.prop data "error") "message")
    (JS.orV (JS.prop data "message") (JS.VStr "Unknown error")).

Section WithPlatform.
Context {platform : Platform}.

(** A template literal with one placeholder, filled with [v]. *)
Definition template (before : string) (v : JS.Value) (after : string)
  : Completion string :=
  match ToString v with
  | inr s => inr (before ++ s ++ after)
  | inl e => inl e
  end.

Definition handleApiError (error : Thrown) : Completion string :=
  let unexpected :=
    match error with
    | AxiosError message _ _ => inr ("Error: Unexpected error - " ++ message)
    | Error message => inr ("Error: Unexpected error - " ++ message)
    | NonError v => template "Error: Unexpected error - " v ""
    end in
  match error with
  | AxiosError _ code response =>
    match response with
    | Some (status, data) =>
      let message := upstreamMessage data in
      if (status =? 400)%Z then
        template "Error: Bad request - " message ". Check your parameters and try again."
      else if (status =? 401)%Z then
        inr "Error: Authentication failed. Please check your credentials and ensure they have the required permissions."
      else if (status =? 403)%Z then
        template "Error: Permission denied - " message
          ". Ensure the app has the required Chat API scopes."
      else if (status =? 404)%Z then
        template "Error: Resource not found - " message
          ". Check that the space/message/member ID is correct."
      else if (status =? 409)%Z then
        template "Error: Conflict - " message
          ". The resource may already exist or be in an invalid state."
      else if (status =? 429)%Z then
        inr "Error: Rate limit exceeded. Please wait before making more requests."
      else if (status =? 500)%Z then
        inr "Error: Google Chat API server error. Please try again later."
      else if (status =? 503)%Z then
        inr "Error: Google Chat API is temporarily unavailable. Please try again later."
      else
        template ("Error: API request failed (" ++ Number_text status ++ ") - ")
          message ""
    | None =>
      match code with
      | Some c =>
        if c =? "ECONNABORTED" then
          inr "Error: Request timed out. Please try again."
        else if (c =? "ENOTFOUND") || (c =? "ECONNREFUSED") then
          inr "Error: Unable to connect to Google Chat API. Check your network connection."
        else unexpected
      | None => unexpected
      end
    end
  | _ => unexpected
  end.

End WithPlatform.

Definition isClientInitialized (st : State) : bool :=
  match apiClient st with Some _ => true | None => false end.

End ApiClient.

(* ================================================================== *)
(** * schemas/index.ts: the validated inputs of the tools *)
(* ================================================================== *)

(** The inferred input types, after the schema defaults have been applied
    ([pageSize], [response_format] and the boolean flags are always set). *)

Module ListSpacesInput.
Record t : Type := mk {
  pageSize : Z;
  pageToken : option string;
  filter : option string;
  response_format : ResponseFormat
}.
End ListSpacesInput.

Module GetSpaceInput.
Record t : Type := mk { spaceName : string; response_format : ResponseFormat }.
End GetSpaceInput.

Module CreateSpaceInput.
Record t : Type := mk {
  displayName : string;
  spaceType : SpaceType;
  externalUserAllowed : bool;
  description : option string;
  guidelines : option string;
  response_format : ResponseFormat
}.
End CreateSpaceInput.

Module UpdateSpaceInput.
Record t : Type := mk {
  spaceName : string;
  displayName : option string;
  description : option string;
  guidelines : option string;
  response_format : ResponseFormat
}.
End UpdateSpaceInput.

Module DeleteSpaceInput.
Record t : Type := mk { spaceName : string }.
End DeleteSpaceInput.

Module SearchSpacesInput.
Record t : Type := mk {
  query : string;
  pageSize : Z;
  pageToken : option string;
  response_format : ResponseFormat
}.
End SearchSpacesInput.

Module FindDirectMessageInput.
Record t : Type := mk { userId : string; response_format : ResponseFormat }.
End FindDirectMessageInput.

Module ListMessagesInput.
Record t : Type := mk {
  spaceName : string;
  pageSize : Z;
  pageToken : option string;
  filter : option string;
  orderBy : option string;
  showDeleted : bool;
  response_format : ResponseFormat
}.
End ListMessagesInput.

Module GetMessageInput.
Record t : Type := mk { messageName : string; response_format : ResponseFormat }.
End GetMessageInput.

Module CreateMessageInput.
Record t : Type := mk {
  spaceName : string;
  text : string;
  threadKey : option string;
  threadName : option string;
  messageReplyOption : option string;
  messageId : option string;
  response_format : ResponseFormat
}.
End CreateMessageInput.

Module UpdateMessageInput.
Record t : Type := mk {
  messageName : string;
  text : string;
  response_format : ResponseFormat
}.
End UpdateMessageInput.

Module DeleteMessageInput.
Record t : Type := mk { messageName : string; force : bool }.
End DeleteMessageInput.

Module ListMembersInput.
Record t : Type := mk {
  spaceName : string;
  pageSize : Z;
  pageToken : option string;
  filter : option string;
  showGroups : bool;
  showInvited : bool;
  response_format : ResponseFormat
}.
End ListMembersInput.

Module GetMemberInput.
Record t : Type := mk { memberName : string; response_format : ResponseFormat }.
End GetMemberInput.

Module CreateMemberInput.
Record t : Type := mk {
  spaceName : string;
  userId : string;
  role : MembershipRole;
  response_format : ResponseFormat
}.
End CreateMemberInput.

Module DeleteMemberInput.
Record t : Type := mk { memberName : string }.
End DeleteMemberInput.

Module ListReactionsInput.
Record t : Type := mk {
  messageName : string;
  pageSize : Z;
  pageToken : option string;
  filter : option string;
  response_format : ResponseFormat
}.
End ListReactionsInput.

Module CreateReactionInput.
Record t : Type := mk {
  messageName : string;
  emoji : string;
  response_format : ResponseFormat
}.
End CreateReactionInput.

Module DeleteReactionInput.
Record t : Type := mk { reactionName : string }.
End DeleteReactionInput.

Module GetAttachmentInput.
Record t : Type := mk { attachmentName : string; response_format : ResponseFormat }.
End GetAttachmentInput.

Module UploadAttachmentInput.
Record t : Type := mk {
  spaceName : string;
  filename : string;
  contentType : string;
  contentBase64 : string;
  response_format : ResponseFormat
}.
End UploadAttachmentInput.

(** The string value of the enums of [constants.ts]. *)
Definition SpaceType_value (t : SpaceType) : string :=
  match t with
  | SPACE => "SPACE"
  | GROUP_CHAT => "GROUP_CHAT"
  | DIRECT_MESSAGE => "DIRECT_MESSAGE"
  end.

Definition MembershipRole_value (r : MembershipRole) : string :=
  match r with
  | ROLE_UNSPECIFIED => "ROLE_UNSPECIFIED"
  | ROLE_MEMBER => "ROLE_MEMBER"
  | ROLE_MANAGER => "ROLE_MANAGER"
  end.

(* ================================================================== *)
(** * tools/*.ts: the registered tool handlers *)
(* ================================================================== *)

Module Tools.
Import ApiClient.
Local Open Scope api_scope.

(** [{ type: "text", text }] *)
Inductive Content : Type := TextContent (text : string).

(** The object a handler returns; an absent [isError] is [false] and an
    absent [structuredContent] is [None]. *)
Record ToolResult : Type := mkResult {
  isError : bool;
  content : list Content;
  structuredContent : option Structured
}.

(** [{ isError: true, content: [{ type: "text", text }] }] *)
Definition errorResult (text : string) : ToolResult :=
  mkResult true [TextContent text] None.

(** [{ content: [{ type: "text", text }], structuredContent }] *)
Definition okResult (text : string) (structured : Structured) : ToolResult :=
  mkResult false [TextContent text] (Some structured).

(** [if (value) obj[key] = value] for an optional string. *)
Definition assignIfString (obj : list (string * JS.Value)) (key : string)
    (value : option string) : list (string * JS.Value) :=
  match JS.nonEmpty value with
  | Some s => JS.push obj (key, JS.VStr s)
  | None => obj
  end.

(** [if (value) obj[key] = value] for a boolean. *)
Definition assignIfBool (obj : list (string * JS.Value)) (key : string)
    (value : bool) : list (string * JS.Value) :=
  if value then JS.push obj (key, JS.VBool value) else obj.

(** [Object.keys(obj).length > 0 ? obj : undefined] *)
Definition nonEmptyObject (obj : list (string * JS.Value))
  : option (list (string * JS.Value)) :=
  if (Z.of_nat (List.length obj) >? 0)%Z then Some obj else None.

Definition orEmpty {A} (xs : option (list A)) : list A :=
  match xs with Some l => l | None => [] end.

Section Handlers.
Context {platform : Platform} (host : Host).

(** ** tools/spaces.ts *)

Definition google_chat_list_spaces
    (http : WireRequest -> Completion ListSpacesResponse.t)
    (params : ListSpacesInput.t) : M ToolResult :=
  try_catch
    (let queryParams := [("pageSize", JS.VNum (ListSpacesInput.pageSize params))] in
     let queryParams :=
       assignIfString queryParams "pageToken" (ListSpacesInput.pageToken params) in
     let queryParams :=
       assignIfString queryParams "filter" (ListSpacesInput.filter params) in
     response <- makeApiRequest host http "spaces" GET JS.VUndefined (Some queryParams) ;;
     let spaces := orEmpty (ListSpacesResponse.spaces response) in
     let hasMore := JS.truthy (ListSpacesResponse.nextPageToken response) in
     let text :=
       Formatters.formatSpacesList spaces (ListSpacesInput.response_format params)
         hasMore (ListSpacesResponse.nextPageToken response) in
     ret (okResult text
            (SpacesPage (Z.of_nat (List.length spaces)) spaces hasMore
               (ListSpacesResponse.nextPageToken response))))
    (fun error => text <- complete (handleApiError error) ;; ret (errorResult text)).

Definition google_chat_get_space
    (http : WireRequest -> Completion Space.t)
    (params : GetSpaceInput.t) : M ToolResult :=
  try_catch
    (space <- makeApiRequest host http (GetSpaceInput.spaceName params) GET
                JS.VUndefined None ;;
     let text := Formatters.formatSpace space (GetSpaceInput.response_format params) in
     ret (okResult text (OfSpace space)))
    (fun error => text <- complete (handleApiError error) ;; ret (errorResult text)).

Definition google_chat_create_space
    (http : WireRequest -> Completion Space.t)
    (params : CreateSpaceInput.t) : M ToolResult :=
  try_catch
    (let spaceData :=
       [("displayName", JS.VStr (CreateSpaceInput.displayName params));
        ("spaceType", JS.VStr (SpaceType_value (CreateSpaceInput.spaceType params)));
        ("externalUserAllowed", JS.VBool (CreateSpaceInput.externalUserAllowed params))] in
     let spaceData :=
       if JS.truthy (CreateSpaceInput.description params)
          || JS.truthy (CreateSpaceInput.guidelines params)
       then JS.push spaceData
              ("spaceDetails",
               JS.VObj
                 [("description", JS.ofOption (CreateSpaceInput.description params));
                  ("guidelines", JS.ofOption (CreateSpaceInput.guidelines params))])
       else spaceData in
     space <- makeApiRequest host http "spaces" POST (JS.VObj spaceData) None ;;
     let text := Formatters.formatSpace space (CreateSpaceInput.response_format params) in
     ret (okResult ("Space created successfully!" ++ LF ++ LF ++ text) (OfSpace space)))
    (fun error => text <- complete (handleApiError error) ;; ret (errorResult text)).

(** The [updateMask] array computed by the update handler. *)
Definition updateSpace_mask (params : UpdateSpaceInput.t) : list string :=
  let updateMask : list string := [] in
  let updateMask :=
    if JS.truthy (UpdateSpaceInput.displayName params)
    then JS.push updateMask "displayName"
    else updateMask in
  let updateMask :=
    match UpdateSpaceInput.description params with
    | Some _ => JS.push updateMask "spaceDetails.description"
    | None => updateMask
    end in
  match UpdateSpaceInput.guidelines params with
  | Some _ => JS.push updateMask "spaceDetails.guidelines"
  | None => updateMask
  end.

(** The [spaceData] object computed by the update handler; the nested
    [spaceDetails] object is shown with the fields it ends up with. *)
Definition updateSpace_data (params : UpdateSpaceInput.t) : list (string * JS.Value) :=
  let spaceData : list (string * JS.Value) := [] in
  let spaceData :=
    assignIfString spaceData "displayName" (UpdateSpaceInput.displayName params) in
  match UpdateSpaceInput.description params, UpdateSpaceInput.guidelines params with
  | None, None => spaceData
  | description, guidelines =>
    let spaceDetails : list (string * JS.Value) := [] in
    let spaceDetails :=
      match description with
      | Some d => JS.push spaceDetails ("description", JS.VStr d)
      | None => spaceDetails
      end in
    let spaceDetails :=
      match guidelines with
      | Some g => JS.push spaceDetails ("guidelines", JS.VStr g)
      | None => spaceDetails
      end in
    JS.push spaceData ("spaceDetails", JS.VObj spaceDetails)
  end.

Definition google_chat_update_space
    (http : WireRequest -> Completion Space.t)
    (params : UpdateSpaceInput.t) : M ToolResult :=
  try_catch
    (let updateMask := updateSpace_mask params in
     let spaceData := updateSpace_data params in
     if (Z.of_nat (List.length updateMask) =? 0)%Z
     then ret (errorResult "Error: At least one field must be provided to update.")
     else
       space <- makeApiRequest host http (UpdateSpaceInput.spaceName params) PATCH
                  (JS.VObj spaceData)
                  (Some [("updateMask", JS.VStr (JS.join "," updateMask))]) ;;
       let text := Formatters.formatSpace space (UpdateSpaceInput.response_format params) in
       ret (okResult ("Space updated successfully!" ++ LF ++ LF ++ text) (OfSpace space)))
    (fun error => text <- complete (handleApiError error) ;; ret (errorResult text)).

Definition google_chat_delete_space
    (http : WireRequest -> Completion unit)
    (params : DeleteSpaceInput.t) : M ToolResult :=
  try_catch
    (makeApiRequest host http (DeleteSpaceInput.spaceName params) DELETE
       JS.VUndefined None ;;
     ret (okResult
            ("Space `" ++ DeleteSpaceInput.spaceName params ++ "` has been deleted.")
            (Deleted "spaceName" (DeleteSpaceInput.spaceName params))))
    (fun error => text <- complete (handleApiError error) ;; ret (errorResult text)).

Definition google_chat_search_spaces
    (http : WireRequest -> Completion SearchSpacesResponse.t)
    (params : SearchSpacesInput.t) : M ToolResult :=
  try_catch
    (let queryParams :=
       [("query", JS.VStr (SearchSpacesInput.query params));
        ("pageSize", JS.VNum (SearchSpacesInput.pageSize params))] in
     let queryParams :=
       assignIfString queryParams "pageToken" (SearchSpacesInput.pageToken params) in
     response <- makeApiRequest host http "spaces:search" GET JS.VUndefined
                   (Some queryParams) ;;
     let spaces := orEmpty (SearchSpacesResponse.spaces response) in
     let hasMore := JS.truthy (SearchSpacesResponse.nextPageToken response) in
     let text :=
       Formatters.formatSpacesList spaces (SearchSpacesInput.response_format params)
         hasMore (SearchSpacesResponse.nextPageToken response) in
     ret (okResult text
            (SearchPage (Z.of_nat (List.length spaces))
               (SearchSpacesResponse.totalSize response) spaces hasMore
               (SearchSpacesResponse.nextPageToken response))))
    (fun error => text <- complete (handleApiError error) ;; ret (errorResult text)).

Definition google_chat_find_direct_message
    (http : WireRequest -> Completion Space.t)
    (params : FindDirectMessageInput.t) : M ToolResult :=
  try_catch
    (space <- makeApiRequest host http "spaces:findDirectMessage" GET JS.VUndefined
                (Some [("name", JS.VStr (FindDirectMessageInput.userId params))]) ;;
     let text :=
       Formatters.formatSpace space (FindDirectMessageInput.response_format params) in
     ret (okResult text (OfSpace space)))
    (fun error => text <- complete (handleApiError error) ;; ret (errorResult text)).

(** ** tools/messages.ts *)

Definition google_chat_list_messages
    (http : WireRequest -> Completion ListMessagesResponse.t)
    (params : ListMessagesInput.t) : M ToolResult :=
  try_catch
    (let queryParams := [("pageSize", JS.VNum (ListMessagesInput.pageSize params))] in
     let queryParams :=
       assignIfString queryParams "pageToken" (ListMessagesInput.pageToken params) in
     let queryParams :=
       assignIfString queryParams "filter" (ListMessagesInput.filter params) in
     let queryParams :=
       assignIfString queryParams "orderBy" (ListMessagesInput.orderBy params) in
     let queryParams :=
       assignIfBool queryParams "showDeleted" (ListMessagesInput.showDeleted params) in
     response <- makeApiRequest host http
                   (ListMessagesInput.spaceName params ++ "/messages") GET
                   JS.VUndefined (Some queryParams) ;;
     let messages := orEmpty (ListMessagesResponse.messages response) in
     let hasMore := JS.truthy (ListMessagesResponse.nextPageToken response) in
     let text :=
       Formatters.formatMessagesList messages (ListMessagesInput.response_format params)
         hasMore (ListMessagesResponse.nextPageToken response) in
     ret (okResult text
            (MessagesPage (Z.of_nat (List.length messages)) messages hasMore
               (ListMessagesResponse.nextPageToken response))))
    (fun error => text <- complete (handleApiError error) ;; ret (errorResult text)).

Definition google_chat_get_message
    (http : WireRequest -> Completion Message.t)
    (params : GetMessageInput.t) : M ToolResult :=
  try_catch
    (message <- makeApiRequest host http (GetMessageInput.messageName params) GET
                  JS.VUndefined None ;;
     let text :=
       Formatters.formatMessage message (GetMessageInput.response_format params) in
     ret (okResult text (OfMessage message)))
    (fun error => text <- complete (handleApiError error) ;; ret (errorResult text)).

(** The [messageData] object of the create handler; the nested [thread]
    object is shown with the fields it ends up with. *)
Definition createMessage_data (params : CreateMessageInput.t)
  : list (string * JS.Value) :=
  let messageData := [("text", JS.VStr (CreateMessageInput.text params))] in
  if JS.truthy (CreateMessageInput.threadKey params)
     || JS.truthy (CreateMessageInput.threadName params)
  then
    let thread : list (string * JS.Value) := [] in
    let thread :=
      assignIfString thread "threadKey" (CreateMessageInput.threadKey params) in
    let thread :=
      assignIfString thread "name" (CreateMessageInput.threadName params) in
    JS.push messageData ("thread", JS.VObj thread)
  else messageData.

Definition google_chat_create_message
    (http : WireRequest -> Completion Message.t)
    (params : CreateMessageInput.t) : M ToolResult :=
  try_catch
    (let messageData := createMessage_data params in
     let queryParams : list (string * JS.Value) := [] in
     let queryParams :=
       assignIfString queryParams "messageReplyOption"
         (CreateMessageInput.messageReplyOption params) in
     let queryParams :=
       assignIfString queryParams "messageId" (CreateMessageInput.messageId params) in
     message <- makeApiRequest host http
                  (CreateMessageInput.spaceName params ++ "/messages") POST
                  (JS.VObj messageData) (nonEmptyObject queryParams) ;;
     let text :=
       Formatters.formatMessage message (CreateMessageInput.response_format params) in
     ret (okResult ("Message sent successfully!" ++ LF ++ LF ++ text)
            (OfMessage message)))
    (fun error => text <- complete (handleApiError error) ;; ret (errorResult text)).

Definition google_chat_update_message
    (http : WireRequest -> Completion Message.t)
    (params : UpdateMessageInput.t) : M ToolResult :=
  try_catch
    (let messageData := [("text", JS.VStr (UpdateMessageInput.text params))] in
     message <- makeApiRequest host http (UpdateMessageInput.messageName params) PATCH
                  (JS.VObj messageData) (Some [("updateMask", JS.VStr "text")]) ;;
     let text :=
       Formatters.formatMessage message (UpdateMessageInput.response_format params) in
     ret (okResult ("Message updated successfully!" ++ LF ++ LF ++ text)
            (OfMessage message)))
    (fun error => text <- complete (handleApiError error) ;; ret (errorResult text)).

Definition google_chat_delete_message
    (http : WireRequest -> Completion unit)
    (params : DeleteMessageInput.t) : M ToolResult :=
  try_catch
    (let queryParams : list (string * JS.Value) := [] in
     let queryParams :=
       assignIfBool queryParams "force" (DeleteMessageInput.force params) in
     makeApiRequest host http (DeleteMessageInput.messageName params) DELETE
       JS.VUndefined (nonEmptyObject queryParams) ;;
     ret (okResult
            ("Message `" ++ DeleteMessageInput.messageName params ++ "` has been deleted.")
            (Deleted "messageName" (DeleteMessageInput.messageName params))))
    (fun error => text <- complete (handleApiError error) ;; ret (errorResult text)).

(** ** tools/members.ts *)

Definition google_chat_list_members
    (http : WireRequest -> Completion ListMembersResponse.t)
    (params : ListMembersInput.t) : M ToolResult :=
  try_catch
    (let queryParams := [("pageSize", JS.VNum (ListMembersInput.pageSize params))] in
     let queryParams :=
       assignIfString queryParams "pageToken" (ListMembersInput.pageToken params) in
     let queryParams :=
       assignIfString queryParams "filter" (ListMembersInput.filter params) in
     let queryParams :=
       assignIfBool queryParams "showGroups" (ListMembersInput.showGroups params) in
     let queryParams :=
       assignIfBool queryParams "showInvited" (ListMembersInput.showInvited params) in
     response <- makeApiRequest host http
                   (ListMembersInput.spaceName params ++ "/members") GET
                   JS.VUndefined (Some queryParams) ;;
     let members := orEmpty (ListMembersResponse.memberships response) in
     let hasMore := JS.truthy (ListMembersResponse.nextPageToken response) in
     let text :=
       Formatters.formatMembersList members (ListMembersInput.response_format params)
         hasMore (ListMembersResponse.nextPageToken response) in
     ret (okResult text
            (MembersPage (Z.of_nat (List.length members)) members hasMore
               (ListMembersResponse.nextPageToken response))))
    (fun error => text <- complete (handleApiError error) ;; ret (errorResult text)).

Definition google_chat_get_member
    (http : WireRequest -> Completion Member.t)
    (params : GetMemberInput.t) : M ToolResult :=
  try_catch
    (member <- makeApiRequest host http (GetMemberInput.memberName params) GET
                 JS.VUndefined None ;;
     let text := Formatters.formatMember member (GetMemberInput.response_format params) in
     ret (okResult text (OfMember member)))
    (fun error => text <- complete (handleApiError error) ;; ret (errorResult text)).

Definition google_chat_create_member
    (http : WireRequest -> Completion Member.t)
    (params : CreateMemberInput.t) : M ToolResult :=
  try_catch
    (let memberData :=
       [("member",
         JS.VObj [("name", JS.VStr (CreateMemberInput.userId params));
                  ("type", JS.VStr "HUMAN")]);
        ("role", JS.VStr (MembershipRole_value (CreateMemberInput.role params)))] in
     member <- makeApiRequest host http
                 (CreateMemberInput.spaceName params ++ "/members") POST
                 (JS.VObj memberData) None ;;
     let text :=
       Formatters.formatMember member (CreateMemberInput.response_format params) in
     ret (okResult ("Member added successfully!" ++ LF ++ LF ++ text)
            (OfMember member)))
    (fun error => text <- complete (handleApiError error) ;; ret (errorResult text)).

Definition google_chat_delete_member
    (http : WireRequest -> Completion unit)
    (params : DeleteMemberInput.t) : M ToolResult :=
  try_catch
    (makeApiRequest host http (DeleteMemberInput.memberName params) DELETE
       JS.VUndefined None ;;
     ret (okResult
            ("Member `" ++ DeleteMemberInput.memberName params ++
             "` has been removed from the space.")
            (Deleted "memberName" (DeleteMemberInput.memberName params))))
    (fun error => text <- complete (handleApiError error) ;; ret (errorResult text)).

(** ** tools/reactions.ts *)

Definition google_chat_list_reactions
    (http : WireRequest -> Completion ListReactionsResponse.t)
    (params : ListReactionsInput.t) : M ToolResult :=
  try_catch
    (let queryParams := [("pageSize", JS.VNum (ListReactionsInput.pageSize params))] in
     let queryParams :=
       assignIfString queryParams "pageToken" (ListReactionsInput.pageToken params) in
     let queryParams :=
       assignIfString queryParams "filter" (ListReactionsInput.filter params) in
     response <- makeApiRequest host http
                   (ListReactionsInput.messageName params ++ "/reactions") GET
                   JS.VUndefined (Some queryParams) ;;
     let reactions := orEmpty (ListReactionsResponse.reactions response) in
     let hasMore := JS.truthy (ListReactionsResponse.nextPageToken response) in
     let text :=
       Formatters.formatReactionsList reactions
         (ListReactionsInput.response_format params)
         hasMore (ListReactionsResponse.nextPageToken response) in
     ret (okResult text
            (ReactionsPage (Z.of_nat (List.length reactions)) reactions hasMore
               (ListReactionsResponse.nextPageToken response))))
    (fun error => text <- complete (handleApiError error) ;; ret (errorResult text)).

Definition google_chat_create_reaction
    (http : WireRequest -> Completion Reaction.t)
    (params : CreateReactionInput.t) : M ToolResult :=
  try_catch
    (let reactionData :=
       [("emoji", JS.VObj [("unicode", JS.VStr (CreateReactionInput.emoji params))])] in
     reaction <- makeApiRequest host http
                   (CreateReactionInput.messageName params ++ "/reactions") POST
                   (JS.VObj reactionData) None ;;
     let text :=
       Formatters.formatReaction reaction (CreateReactionInput.response_format params) in
     ret (okResult ("Reaction added successfully!" ++ LF ++ LF ++ text)
            (OfReaction reaction)))
    (fun error => text <- complete (handleApiError error) ;; ret (errorResult text)).

Definition google_chat_delete_reaction
    (http : WireRequest -> Completion unit)
    (params : DeleteReactionInput.t) : M ToolResult :=
  try_catch
    (makeApiRequest host http (DeleteReactionInput.reactionName params) DELETE
       JS.VUndefined None ;;
     ret (okResult
            ("Reaction `" ++ DeleteReactionInput.reactionName params ++
             "` has been removed.")
            (Deleted "reactionName" (DeleteReactionInput.reactionName params))))
    (fun error => text <- complete (handleApiError error) ;; ret (errorResult text)).

(** ** tools/attachments.ts *)

Definition google_chat_get_attachment
    (http : WireRequest -> Completion Attachment.t)
    (params : GetAttachmentInput.t) : M ToolResult :=
  try_catch
    (attachment <- makeApiRequest host http (GetAttachmentInput.attachmentName params)
                     GET JS.VUndefined None ;;
     let text :=
       Formatters.formatAttachment attachment
         (GetAttachmentInput.response_format params) in
     ret (okResult text (OfAttachment attachment)))
    (fun error => text <- complete (handleApiError error) ;; ret (errorResult text)).

Definition google_chat_upload_attachment
    (http : WireRequest -> Completion UploadResponse.t)
    (params : UploadAttachmentInput.t) : M ToolResult :=
  try_catch
    (let contentLength :=
       base64_byteLength (UploadAttachmentInput.contentBase64 params) in
     let uploadData :=
       [("filename", JS.VStr (UploadAttachmentInput.filename params));
        ("contentType", JS.VStr (UploadAttachmentInput.contentType params));
        ("contentLength", JS.VNum contentLength)] in
     response <- makeApiRequest host http
                   (UploadAttachmentInput.spaceName params ++ "/attachments:upload")
                   POST (JS.VObj uploadData) None ;;
     let attachment :=
       Attachment.mk
         (JS.or_else
            (match UploadResponse.attachmentDataRef response with
             | Some ref => AttachmentDataRef.resourceName ref
             | None => None
             end) "")
         (Some (UploadAttachmentInput.filename params))
         (Some (UploadAttachmentInput.contentType params))
         (UploadResponse.attachmentDataRef response)
         None None in
     let text :=
       Formatters.formatAttachment attachment
         (UploadAttachmentInput.response_format params) in
     ret (okResult ("Attachment uploaded successfully!" ++ LF ++ LF ++ text)
            (OfAttachment attachment)))
    (fun error => text <- complete (handleApiError error) ;; ret (errorResult text)).

(** ** tools/index.ts: the registry *)

(** One constructor per registered tool, carrying its validated input. *)
Inductive Call : Type :=
| list_spaces (p : ListSpacesInput.t)
| get_space (p : GetSpaceInput.t)
| create_space (p : CreateSpaceInput.t)
| update_space (p : UpdateSpaceInput.t)
| delete_space (p : DeleteSpaceInput.t)
| search_spaces (p : SearchSpacesInput.t)
| find_direct_message (p : FindDirectMessageInput.t)
| list_messages (p : ListMessagesInput.t)
| get_message (p : GetMessageInput.t)
| create_message (p : CreateMessageInput.t)
| update_message (p : UpdateMessageInput.t)
| delete_message (p : DeleteMessageInput.t)
| list_members (p : ListMembersInput.t)
| get_member (p : GetMemberInput.t)
| create_member (p : CreateMemberInput.t)
| delete_member (p : DeleteMemberInput.t)
| list_reactions (p : ListReactionsInput.t)
| create_reaction (p : CreateReactionInput.t)
| delete_reaction (p : DeleteReactionInput.t)
| get_attachment (p : GetAttachmentInput.t)
| upload_attachment (p : UploadAttachmentInput.t).

(** The type at which each handler instantiates [makeApiRequest<T>]. *)
Definition ResponseOf (c : Call) : Type :=
  match c with
  | list_spaces _ => ListSpacesResponse.t
  | get_space _ | create_space _ | update_space _ | find_direct_message _ => Space.t
  | delete_space _ | delete_message _ | delete_member _ | delete_reaction _ => unit
  | search_spaces _ => SearchSpacesResponse.t
  | list_messages _ => ListMessagesResponse.t
  | get_message _ | create_message _ | update_message _ => Message.t
  | list_members _ => ListMembersResponse.t
  | get_member _ | create_member _ => Member.t
  | list_reactions _ => ListReactionsResponse.t
  | create_reaction _ => Reaction.t
  | get_attachment _ => Attachment.t
  | upload_attachment _ => UploadResponse.t
  end.

(** Invocation of a registered tool against a remote end [http]. *)
Definition invoke (c : Call)
  : (WireRequest -> Completion (ResponseOf c)) -> M ToolResult :=
  match c with
  | list_spaces p => fun http => google_chat_list_spaces http p
  | get_space p => fun http => google_chat_get_space http p
  | create_space p => fun http => google_chat_create_space http p
  | update_space p => fun http => google_chat_update_space http p
  | delete_space p => fun http => google_chat_delete_space http p
  | search_spaces p => fun http => google_chat_search_spaces http p
  | find_direct_message p => fun http => google_chat_find_direct_message http p
  | list_messages p => fun http => google_chat_list_messages http p
  | get_message p => fun http => google_chat_get_message http p
  | create_message p => fun http => google_chat_create_message http p
  | update_message p => fun http => google_chat_update_message http p
  | delete_message p => fun http => google_chat_delete_message http p
  | list_members p => fun http => google_chat_list_members http p
  | get_member p => fun http => google_chat_get_member http p
  | create_member p => fun http => google_chat_create_member http p
  | delete_member p => fun http => google_chat_delete_member http p
  | list_reactions p => fun http => google_chat_list_reactions http p
  | create_reaction p => fun http => google_chat_create_reaction http p
  | delete_reaction p => fun http => google_chat_delete_reaction http p
  | get_attachment p => fun http => google_chat_get_attachment http p
  | upload_attachment p => fun http => google_chat_upload_attachment http p
  end.

End Handlers.
End Tools.

(* ================================================================== *)
(** * A reference platform *)
(* ================================================================== *)

(** An executable instance of [Platform], used to run the embedding on
    concrete inputs.  Dates are read in the fixed-width UTC form
    [YYYY-MM-DDTHH:MM:SSZ] and shown as the [en-US] locale does in the UTC
    time zone; any other string is an invalid date.  The JSON reader knows
    the literals and the empty containers, the JSON writer only names the
    kind of value it is given, the base64 decoder counts three bytes for
    every four significant characters, and large integers are written in
    exponent notation with all their significant digits. *)
Module Reference.

Record Civil : Type := mkCivil {
  year : Z; month : Z; day : Z; hour : Z; minute : Z
}.

Definition digit (c : ascii) : option Z :=
  let n := Z.of_nat (nat_of_ascii c) in
  if (48 <=? n)%Z && (n <=? 57)%Z then Some (n - 48) else None.

Definition number2 (a b : ascii) : option Z :=
  match digit a, digit b with
  | Some x, Some y => Some (10 * x + y)
  | _, _ => None
  end.

Definition leap (y : Z) : bool :=
  ((y mod 4 =? 0)%Z && negb (y mod 100 =? 0)%Z) || (y mod 400 =? 0)%Z.

Definition daysIn (y m : Z) : Z :=
  if (m =? 2)%Z then (if leap y then 29 else 28)
  else if (m =? 4)%Z || (m =? 6)%Z || (m =? 9)%Z || (m =? 11)%Z then 30
  else 31.

Definition parseDate (s : string) : option Civil :=
  match list_ascii_of_string s with
  | [y1; y2; y3; y4; "-"; m1; m2; "-"; d1; d2; "T";
     h1; h2; ":"; n1; n2; ":"; s1; s2; "Z"]%char =>
    match number2 y1 y2, number2 y3 y4, number2 m1 m2, number2 d1 d2,
          number2 h1 h2, number2 n1 n2, number2 s1 s2 with
    | Some yh, Some yl, Some m, Some d, Some h, Some n, Some sec =>
      let y := 100 * yh + yl in
      if (1 <=? m)%Z && (m <=? 12)%Z && (1 <=? d)%Z && (d <=? daysIn y m)%Z
         && (h <=? 23)%Z && (n <=? 59)%Z && (sec <=? 59)%Z
      then Some (mkCivil y m d h n)
      else None
    | _, _, _, _, _, _, _ => None
    end
  | _ => None
  end.

Definition monthName (m : Z) : string :=
  nth (Z.to_nat (m - 1))
    ["Jan"; "Feb"; "Mar"; "Apr"; "May"; "Jun";
     "Jul"; "Aug"; "Sep"; "Oct"; "Nov"; "Dec"] "".

Definition twoDigits (n : Z) : string :=
  (if (n <? 10)%Z then "0" else "") ++ JS.Number_toString n.

Definition formatCivil (c : Civil) : string :=
  let h12 := if (hour c mod 12 =? 0)%Z then 12 else hour c mod 12 in
  monthName (month c) ++ " " ++ JS.Number_toString (day c) ++ ", " ++
  JS.Number_toString (year c) ++ ", " ++
  twoDigits h12 ++ ":" ++ twoDigits (minute c) ++
  (if (hour c <? 12)%Z then " AM" else " PM").

Definition parseJson (s : string) : option JS.Value :=
  if s =? "{}" then Some (JS.VObj [])
  else if s =? "[]" then Some (JS.VArr [])
  else if s =? "null" then Some JS.VNull
  else if s =? "true" then Some (JS.VBool true)
  else if s =? "false" then Some (JS.VBool false)
  else None.

Definition stringifyKind (v : Structured) : string :=
  match v with
  | OfSpace _ => "{space}"
  | OfMessage _ => "{message}"
  | OfMember _ => "{member}"
  | OfReaction _ => "{reaction}"
  | OfAttachment _ => "{attachment}"
  | SpacesPage _ _ _ _ | SearchPage _ _ _ _ _ => "{spaces}"
  | MessagesPage _ _ _ _ => "{messages}"
  | MembersPage _ _ _ _ => "{memberships}"
  | ReactionsPage _ _ _ _ => "{reactions}"
  | Deleted _ _ => "{deleted}"
  end.

Definition byteLength (s : string) : Z :=
  let significant :=
    List.filter (fun c => negb (Ascii.eqb c "="%char)) (list_ascii_of_string s) in
  (Z.of_nat (List.length significant) * 3) / 4.

(** Exponent notation with every significant digit of the integer. *)
Fixpoint stripZeros (s : string) : string :=
  match s with
  | EmptyString => EmptyString
  | String c rest =>
    match stripZeros rest with
    | EmptyString => if Ascii.eqb c "0"%char then EmptyString else String c EmptyString
    | kept => String c kept
    end
  end.

Definition exponentForm (z : Z) : string :=
  let digits := JS.Number_toString (Z.abs z) in
  (if (z <? 0)%Z then "-" else "") ++
  match stripZeros digits with
  | EmptyString => "0"
  | String d EmptyString => String d EmptyString
  | String d rest => String d ("." ++ rest)
  end ++ "e+" ++ JS.Number_toString (Z.of_nat (String.length digits) - 1).

#[export] Instance platform : Platform := {|
  Instant := Civil;
  Date_parse := parseDate;
  format_enUS_short := formatCivil;
  JSON_parse := parseJson;
  JSON_stringify := stringifyKind;
  base64_byteLength := byteLength;
  Number_toExponent := exponentForm
|}.

(** [n] copies of the character [c]. *)
Fixpoint replicate (n : nat) (c : ascii) : string :=
  match n with
  | O => EmptyString
  | S k => String c (replicate k c)
  end.

End Reference.

(* ================================================================== *)
(** * Vocabulary of the properties *)
(* ================================================================== *)

(** The fixed truncation notice. *)
Definition truncation_notice : string :=
  LF ++ LF ++ "---" ++ LF ++
  "*Response truncated due to size limit. Use pagination to see more results.*".

(** The first [n] characters of [s]. *)
Fixpoint firstChars (n : nat) (s : string) : string :=
  match n, s with
  | S k, String c rest => String c (firstChars k rest)
  | _, _ => EmptyString
  end.

(** The global cut rule, as the design states it. *)
Definition cut_rule (text : string) : string :=
  if (Z.of_nat (String.length text) <=? 25000)%Z then text
  else firstChars (Z.to_nat (25000 - 100)) text ++ truncation_notice.

(** [s] occurs inside [t]. *)
Definition occursIn (s t : string) : Prop :=
  exists before after, t = before ++ s ++ after.

(** [t] ends with the line [line]: the line is preceded by a line feed and
    nothing follows it. *)
Definition endsWithLine (line t : string) : Prop :=
  exists before, t = before ++ LF ++ line.

(** ** The truncation policy *)

(** [out] is what the cut rule makes of the assembled [text]. *)
Definition obeys_cut_rule (text out : string) : Prop :=
  ((25000 < Z.of_nat (String.length text))%Z ->
     out = firstChars (Z.to_nat (25000 - 100)) text ++ truncation_notice /\
     String.length (firstChars (Z.to_nat (25000 - 100)) text) = Z.to_nat (25000 - 100) /\
     (Z.of_nat (String.length out) <= 25000)%Z) /\
  ((Z.of_nat (String.length text) <= 25000)%Z -> out = text).

(** ** Sample data *)

Module Sample.

(** A string of 25,000 characters. *)
Definition longText : string := Reference.replicate (Z.to_nat 25000) "a"%char.

(** A space whose display name alone reaches the ceiling. *)
Definition bigSpace : Space.t :=
  Space.mk "spaces/AAAA" None (Some "SPACE") None (Some longText) None None None None.

Definition bigMessage : Message.t :=
  Message.mk "spaces/AAAA/messages/BBBB" None None (Some longText) None None.

Definition alice : User.t := User.mk "users/1" (Some "Alice") (Some "HUMAN").
Definition bob : User.t := User.mk "users/2" (Some "Bob") (Some "HUMAN").
Definition carol : User.t := User.mk "users/3" None None.

Definition thumbsUp : Emoji.t := Emoji.mk (Some "+1") None.
Definition heart : Emoji.t := Emoji.mk (Some "<3") None.
Definition custom : Emoji.t := Emoji.mk None (Some (CustomEmoji.mk (Some "uid-7"))).

Definition reactions : list Reaction.t :=
  [ Reaction.mk "r/1" (Some alice) (Some thumbsUp);
    Reaction.mk "r/2" (Some bob) (Some heart);
    Reaction.mk "r/3" (Some carol) (Some thumbsUp);
    Reaction.mk "r/4" (Some bob) (Some custom);
    Reaction.mk "r/5" None None ].

(** A single reaction by a user whose display name reaches the ceiling. *)
Definition bigReaction : Reaction.t :=
  Reaction.mk "r/9" (Some (User.mk "users/9" (Some longText) None)) (Some thumbsUp).

End Sample.

(** ** The pagination footer *)

(** The footer line naming the continuation token. *)
Definition footer_line (token : string) : string :=
  "*More results available. Use pageToken: `" ++ token ++ "`*".

(** The lines of a collection rendering that precede any footer: the
    header, an empty line, and the rendering block of each element. *)
Definition spaces_body (spaces : list Space.t) : list string :=
  ("# Spaces (" ++ JS.Number_toString (Z.of_nat (List.length spaces)) ++ " results)")
  :: "" :: flat_map (Formatters.formatSpacesList_step []) spaces.

Definition messages_body {platform : Platform} (messages : list Message.t)
  : list string :=
  ("# Messages (" ++ JS.Number_toString (Z.of_nat (List.length messages)) ++ " results)")
  :: "" :: flat_map (Formatters.formatMessagesList_step []) messages.

Definition members_body (members : list Member.t) : list string :=
  ("# Members (" ++ JS.Number_toString (Z.of_nat (List.length members)) ++ " results)")
  :: "" :: flat_map (Formatters.formatMembersList_step []) members.

Definition reactions_body (reactions : list Reaction.t) : list string :=
  ("# Reactions (" ++ JS.Number_toString (Z.of_nat (List.length reactions)) ++ " results)")
  :: "" :: flat_map (Formatters.formatReactionsList_step [])
             (Formatters.groupReactions reactions).

(** How the assembled lines depend on the pagination data: without a
    usable token they are the body alone; with [hasMore] and a non-empty
    token the body is followed by a separator line and the footer line. *)
Definition footer_behaviour (lines : bool -> option string -> list string)
    (body : list string) (separator : string) : Prop :=
  (forall hasMore, lines hasMore None = body) /\
  (forall hasMore, lines hasMore (Some "") = body) /\
  (forall token, lines false (Some token) = body) /\
  (forall token, token <> "" ->
     lines true (Some token) = (body ++ [separator; footer_line token])%list).

(** A decision procedure for [occursIn]. *)
Fixpoint occursInb (s t : string) : bool :=
  String.prefix s t ||
  match t with
  | EmptyString => false
  | String _ rest => occursInb s rest
  end.

(** ** Clipping of space descriptions *)

(** [line] is one of the lines that were joined into [text]. *)
Definition hasLine (line text : string) : Prop :=
  exists before after : list string,
    text = JS.join LF (before ++ line :: after).

(** A description as the list view shows it. *)
Definition clipped (description : string) : string :=
  if (100 <? Z.of_nat (String.length description))%Z
  then firstChars 100 description ++ "..."
  else description.

Module SampleSpaces.

(** A description of 150 characters. *)
Definition description150 : string := Reference.replicate 150 "d"%char.

Definition described : Space.t :=
  Space.mk "spaces/BBBB" None (Some "SPACE") (Some true) (Some "Design")
    (Some false) (Some (SpaceDetails.mk (Some description150) None))
    (Some "2024-01-05T15:04:00Z") (Some (MembershipCount.mk (Some 7) None)).

Definition plain (name title : string) : Space.t :=
  Space.mk name None (Some "SPACE") None (Some title) None None None None.

Definition three : list Space.t :=
  [plain "spaces/AAAA" "General"; described; plain "spaces/CCCC" "Random"].

(** A space with a display name of 128 characters and a description of
    150. *)
Definition crowded : Space.t :=
  Space.mk "spaces/DDDD" None (Some "SPACE") None
    (Some (Reference.replicate 128 "n"%char)) None
    (Some (SpaceDetails.mk (Some (Reference.replicate 150 "x"%char)) None))
    None None.

(** A full page of 100 spaces, the last of which is [described]. *)
Definition fullPage : list Space.t := (List.repeat crowded 99 ++ [described])%list.

(** A space whose description is the empty string. *)
Definition blank : Space.t :=
  Space.mk "spaces/EEEE" None (Some "SPACE") None (Some "Blank") None
    (Some (SpaceDetails.mk (Some "") None)) None None.

End SampleSpaces.

(** ** Grouping of reactions *)

(** The distinct elements of a list, in the order of their first
    occurrence. *)
Fixpoint first_occurrences (l : list string) : list string :=
  match l with
  | [] => []
  | x :: rest => x :: List.filter (fun y => negb (y =? x)) (first_occurrences rest)
  end.

(** The users of the reactions carrying the emoji key [k], in input order. *)
Definition users_of (k : string) (reactions : list Reaction.t) : list string :=
  List.map Formatters.reactionUser
    (List.filter (fun r => Formatters.reactionEmoji r =? k) reactions).

(** One group per distinct emoji key, in order of first occurrence, holding
    the users of exactly the reactions with that key. *)
Definition expected_groups (reactions : list Reaction.t)
  : JS.Map Formatters.EmojiGroup.t :=
  List.map (fun k => (k, Formatters.EmojiGroup.mk k (users_of k reactions)))
    (first_occurrences (List.map Formatters.reactionEmoji reactions)).

(** Sum of the per-group user counts. *)
Definition total_users (groups : JS.Map Formatters.EmojiGroup.t) : nat :=
  list_sum (List.map (fun e => List.length (Formatters.EmojiGroup.users (snd e))) groups).

(** The rendered line of one group. *)
Definition group_line (entry : string * Formatters.EmojiGroup.t) : string :=
  "- " ++ fst entry ++ " (" ++
  JS.Number_toString (Z.of_nat (List.length (Formatters.EmojiGroup.users (snd entry))))
  ++ "): " ++ JS.join ", " (Formatters.EmojiGroup.users (snd entry)).

(** ** The error classifier *)

(** The decision table for HTTP responses: status code and upstream
    message to display string. *)
Definition http_error_table {platform : Platform} (status : Z) (message : string)
  : string :=
  match status with
  | 400 => "Error: Bad request - " ++ message ++
           ". Check your parameters and try again."
  | 401 => "Error: Authentication failed. Please check your credentials and ensure they have the required permissions."
  | 403 => "Error: Permission denied - " ++ message ++
           ". Ensure the app has the required Chat API scopes."
  | 404 => "Error: Resource not found - " ++ message ++
           ". Check that the space/message/member ID is correct."
  | 409 => "Error: Conflict - " ++ message ++
           ". The resource may already exist or be in an invalid state."
  | 429 => "Error: Rate limit exceeded. Please wait before making more requests."
  | 500 => "Error: Google Chat API server error. Please try again later."
  | 503 => "Error: Google Chat API is temporarily unavailable. Please try again later."
  | _ => "Error: API request failed (" ++ Number_text status ++ ") - " ++ message
  end%Z.

Definition timeout_message : string :=
  "Error: Request timed out. Please try again.".

Definition network_message : string :=
  "Error: Unable to connect to Google Chat API. Check your network connection.".

Definition unexpected_message (raw : string) : string :=
  "Error: Unexpected error - " ++ raw.

(** Statuses whose message class carries the upstream message. *)
Definition carries_upstream (status : Z) : bool :=
  negb ((status =? 401) || (status =? 429) || (status =? 500) || (status =? 503))%Z.

(** Transport codes that have a message class of their own. *)
Definition known_transport_code (code : option string) : bool :=
  match code with
  | Some c => (c =? "ECONNABORTED") || (c =? "ENOTFOUND") || (c =? "ECONNREFUSED")
  | None => false
  end.

(** A response body with an empty nested message and a top-level one. *)
Definition body_with_empty_nested_message : JS.Value :=
  JS.VObj [("error", JS.VObj [("message", JS.VStr "")]);
           ("message", JS.VStr "Quota exceeded")].

(** A response body whose nested message is an object with an own
    [toString] property. *)
Definition body_with_unprintable_message : JS.Value :=
  JS.VObj [("error", JS.VObj [("code", JS.VNum 400);
                              ("message", JS.VObj [("toString", JS.VStr "x")])])].

(** The value that the text for [error] takes in through a placeholder,
    if it has one. *)
Definition shown_value (error : Thrown) : option JS.Value :=
  match error with
  | AxiosError _ _ (Some (status, data)) =>
    if carries_upstream status then Some (ApiClient.upstreamMessage data) else None
  | NonError v => Some v
  | _ => None
  end.

(** ** Credential resolution *)

(** The credential strategies of the design. *)
Inductive CredentialStrategy : Type :=
| ServiceAccountPath
| ServiceAccountInlineJSON
| OAuthBearerToken.

(** The strategy an auth client stands for: a [GoogleAuth] built with
    explicit [credentials] authenticates with that inline payload, one
    built without them falls back on the credentials file named by the
    environment; an [OAuth2Client] carries the raw bearer token. *)
Definition strategy_of (client : ApiClient.AuthClient) : CredentialStrategy :=
  match client with
  | ApiClient.GoogleAuth options =>
    match ApiClient.credentials options with
    | Some _ => ServiceAccountInlineJSON
    | None => ServiceAccountPath
    end
  | ApiClient.OAuth2Client _ => OAuthBearerToken
  end.

(** The documented priority order: the first source that is present
    (set to a non-empty string), path before inline payload before token. *)
Definition documented_priority (e : ApiClient.Env) : option CredentialStrategy :=
  if JS.truthy (ApiClient.GOOGLE_APPLICATION_CREDENTIALS e) then Some ServiceAccountPath
  else if JS.truthy (ApiClient.GOOGLE_SERVICE_ACCOUNT_JSON e)
  then Some ServiceAccountInlineJSON
  else if JS.truthy (ApiClient.GOOGLE_OAUTH_TOKEN e) then Some OAuthBearerToken
  else None.

Definition missing_credentials_message : string :=
  "Authentication required. Set one of:" ++ LF ++
  "  - GOOGLE_APPLICATION_CREDENTIALS: Path to service account JSON file" ++ LF ++
  "  - GOOGLE_SERVICE_ACCOUNT_JSON: Service account JSON as a string" ++ LF ++
  "  - GOOGLE_OAUTH_TOKEN: OAuth2 access token".

Definition invalid_payload_message : string :=
  "Invalid GOOGLE_SERVICE_ACCOUNT_JSON: must be valid JSON".

(** The HTTP client that a successful initialization installs. *)
Definition installed_client : ApiClient.AxiosInstance :=
  ApiClient.mkAxios API_BASE_URL 30000
    [("Content-Type", "application/json"); ("Accept", "application/json")].

(** The state after a successful initialization that selected [client]. *)
Definition initialized (st : ApiClient.State) (client : ApiClient.AuthClient)
  : ApiClient.State :=
  ApiClient.mkState (Some installed_client) (Some client) (ApiClient.outbound st).

Module SampleHosts.
Import ApiClient.

(** An identity provider that always hands out a token. *)
Definition provider : AuthOptions -> Completion (option string) :=
  fun _ => inr (Some "ya29.sample").

Definition fresh : State := mkState None None [].

Definition pathAndPayload : Host :=
  mkHost (mkEnv (Some "/etc/chat/sa.json") (Some "{}") None) provider.

Definition pathAndBrokenPayload : Host :=
  mkHost (mkEnv (Some "/etc/chat/sa.json") (Some "not json") None) provider.

Definition pathOnly : Host :=
  mkHost (mkEnv (Some "/etc/chat/sa.json") None None) provider.

Definition tokenOnly : Host :=
  mkHost (mkEnv None None (Some "ya29.token")) provider.

Definition nothing : Host := mkHost (mkEnv None None None) provider.

(** An update-space input that supplies no field. *)
Definition emptyUpdate : UpdateSpaceInput.t :=
  UpdateSpaceInput.mk "spaces/AAAA" None None None MARKDOWN.

End SampleHosts.

(** ** Failures at the tool boundary *)

Definition no_field_message : string :=
  "Error: At least one field must be provided to update.".

(** What the [catch] block of a handler makes of a thrown [e]: the failure
    result that holds the classified text of [e] and nothing else, unless
    the classifier itself throws. *)
Definition failure_outcome {platform : Platform} (e : Thrown)
  : Completion Tools.ToolResult :=
  match ApiClient.handleApiError e with
  | inr text => inr (Tools.errorResult text)
  | inl thrown => inl thrown
  end.

(** The handler run [run] goes through the dispatcher once, with some
    request, and converts its outcome: a thrown [e] as the [catch] block
    does, a decoded response into a returned success result. *)
Definition boundary_converts {T} {platform : Platform} (host : ApiClient.Host)
    (http : ApiClient.WireRequest -> Completion T)
    (run : ApiClient.M Tools.ToolResult) (st : ApiClient.State) : Prop :=
  exists endpoint method data params,
    match ApiClient.makeApiRequest host http endpoint method data params st with
    | (inl e, st') => run st = (failure_outcome e, st')
    | (inr _, st') =>
      exists text structured, run st = (inr (Tools.okResult text structured), st')
    end.

(** A failure result carries a single text item and no structured data. *)
Definition text_only_failure (r : Tools.ToolResult) : Prop :=
  Tools.isError r = true ->
  Tools.structuredContent r = None /\
  exists text, Tools.content r = [Tools.TextContent text].

(** An HTTP end that answers every request with status 404. *)
Definition notFound {T} : ApiClient.WireRequest -> Completion T :=
  fun _ =>
    inl (AxiosError "Request failed with status code 404" (Some "ERR_BAD_REQUEST")
           (Some (404%Z,
                  JS.VObj [("error", JS.VObj [("message", JS.VStr "Space not found")])]))).

(** An HTTP end that answers every request with status 400 and a body
    whose nested message is an object with an own [toString] property. *)
Definition unprintable400 {T} : ApiClient.WireRequest -> Completion T :=
  fun _ =>
    inl (AxiosError "Request failed with status code 400" (Some "ERR_BAD_REQUEST")
           (Some (400%Z, body_with_unprintable_message))).

(* ================================================================== *)
(** * The tool registry and the entry point *)
(* ================================================================== *)

(** The [annotations] object that each [server.registerTool] call passes. *)
Module Registry.
Import Tools.

Record Annotations : Type := mkAnnotations {
  readOnlyHint : bool;
  destructiveHint : bool;
  idempotentHint : bool;
  openWorldHint : bool
}.

(** The name under which each tool is registered. *)
Definition name (c : Call) : string :=
  match c with
  | list_spaces _ => "google_chat_list_spaces"
  | get_space _ => "google_chat_get_space"
  | create_space _ => "google_chat_create_space"
  | update_space _ => "google_chat_update_space"
  | delete_space _ => "google_chat_delete_space"
  | search_spaces _ => "google_chat_search_spaces"
  | find_direct_message _ => "google_chat_find_direct_message"
  | list_messages _ => "google_chat_list_messages"
  | get_message _ => "google_chat_get_message"
  | create_message _ => "google_chat_create_message"
  | update_message _ => "google_chat_update_message"
  | delete_message _ => "google_chat_delete_message"
  | list_members _ => "google_chat_list_members"
  | get_member _ => "google_chat_get_member"
  | create_member _ => "google_chat_create_member"
  | delete_member _ => "google_chat_delete_member"
  | list_reactions _ => "google_chat_list_reactions"
  | create_reaction _ => "google_chat_create_reaction"
  | delete_reaction _ => "google_chat_delete_reaction"
  | get_attachment _ => "google_chat_get_attachment"
  | upload_attachment _ => "google_chat_upload_attachment"
  end.

Definition annotations (c : Call) : Annotations :=
  match c with
  | list_spaces _ | get_space _ | search_spaces _ | find_direct_message _
  | list_messages _ | get_message _ | list_members _ | get_member _
  | list_reactions _ | get_attachment _ =>
    mkAnnotations true false true true
  | create_space _ | create_message _ | create_member _ | create_reaction _
  | upload_attachment _ =>
    mkAnnotations false false false true
  | update_space _ | update_message _ =>
    mkAnnotations false false true true
  | delete_space _ | delete_message _ | delete_member _ | delete_reaction _ =>
    mkAnnotations false true true true
  end.

End Registry.

(** The constraints of [UpdateSpaceInputSchema] on an input of the inferred
    type: [spaceName] has at least one character, [displayName] between 1
    and 128 when given, [description] at most 500, [guidelines] at most
    5000. *)
Definition UpdateSpaceInput_conforms (p : UpdateSpaceInput.t) : bool :=
  (1 <=? JS.length (UpdateSpaceInput.spaceName p))%Z &&
  match UpdateSpaceInput.displayName p with
  | Some d => (1 <=? JS.length d)%Z && (JS.length d <=? 128)%Z
  | None => true
  end &&
  match UpdateSpaceInput.description p with
  | Some d => (JS.length d <=? 500)%Z
  | None => true
  end &&
  match UpdateSpaceInput.guidelines p with
  | Some g => (JS.length g <=? 5000)%Z
  | None => true
  end.

(** ** index.ts *)

Module Server.
Import ApiClient.

(** One argument of a [console.error] call: a string, or a caught value
    that the console prints in its own way. *)
Inductive LogArg : Type :=
| Text (s : string)
| Caught (e : Thrown).

(** How an [async] entry function ends: it returns, it throws, or it has
    called [process.exit]. *)
Inductive Outcome : Type :=
| Returned
| Threw (e : Thrown)
| Exited (code : Z).

(** The module state, what was written to the standard error stream (one
    entry per [console.error] call), and the outcome. *)
Record Run : Type := mkRun {
  state : State;
  stderr : list (list LogArg);
  outcome : Outcome
}.

(** [error instanceof Error ? error.message : String(error)] *)
Definition errorText {platform : Platform} (error : Thrown) : Completion string :=
  match error with
  | AxiosError message _ _ => inr message
  | Error message => inr message
  | NonError v => ToString v
  end.

Section WithHost.
Context {platform : Platform} (host : Host).

(** [runStdio]; [connect] is the outcome of
    [await server.connect(new StdioServerTransport())]. *)
Definition runStdio (connect : Completion unit) (st : State) : Run :=
  match initializeApiClient host st with
  | (inl error, st) =>
    let log : list (list LogArg) := [] in
    let log := JS.push log [Text "Failed to initialize Google Chat API client:"] in
    match errorText error with
    | inl thrown => mkRun st log (Threw thrown)
    | inr text =>
      let log := JS.push log [Text text] in
      let log := JS.push log [Text ""] in
      let log := JS.push log [Text "Please configure authentication by setting one of:"] in
      let log := JS.push log
        [Text "  - GOOGLE_APPLICATION_CREDENTIALS: Path to service account JSON file"] in
      let log := JS.push log
        [Text "  - GOOGLE_SERVICE_ACCOUNT_JSON: Service account JSON as a string"] in
      let log := JS.push log [Text "  - GOOGLE_OAUTH_TOKEN: OAuth2 access token"] in
      mkRun st log (Exited 1)
    end
  | (inr _, st) =>
    match connect with
    | inl error => mkRun st [] (Threw error)
    | inr _ =>
      mkRun st [[Text "Google Chat MCP server running via stdio"]] Returned
    end
  end.

(** The main entry point: [TRANSPORT] is [process.env.TRANSPORT], and
    [runHTTP] stands for the run of the HTTP variant, which sets up a web
    server and is not modelled.  A rejected promise of either variant is
    reported and ends the process with code 1. *)
Definition main (TRANSPORT : option string) (runHTTP : State -> Run)
    (connect : Completion unit) (st : State) : Run :=
  let transport := JS.or_else TRANSPORT "stdio" in
  let run := if transport =? "http" then runHTTP st else runStdio connect st in
  match outcome run with
  | Threw error =>
    mkRun (state run) (JS.push (stderr run) [Text "Server error:"; Caught error])
      (Exited 1)
  | _ => run
  end.

End WithHost.
End Server.

(** ** Vocabulary of the further properties *)

(** The request that a dispatcher call with the given arguments puts on the
    wire when the bearer token is [token]. *)
Definition wire_of (endpoint : string) (method : ApiClient.Method) (data : JS.Value)
    (params : option (list (string * JS.Value))) (token : string)
  : ApiClient.WireRequest :=
  ApiClient.mkWire method endpoint data params ("Bearer " ++ token).

(** An auth client from which a token can be asked: an OAuth client holds
    a non-empty token, a service-account client asks for the nine scopes. *)
Definition usable (client : ApiClient.AuthClient) : Prop :=
  match client with
  | ApiClient.OAuth2Client token => JS.truthy token = true
  | ApiClient.GoogleAuth options => ApiClient.scopes options = ApiClient.CHAT_SCOPES
  end.

(** The module state is coherent: an installed HTTP client comes with a
    usable auth client. *)
Definition coherent (st : ApiClient.State) : Prop :=
  match ApiClient.apiClient st with
  | None => True
  | Some _ =>
    match ApiClient.authClient st with
    | Some client => usable client
    | None => False
    end
  end.

(** Where an error thrown by the dispatcher can come from. *)
Definition dispatcher_error {T} (host : ApiClient.Host)
    (http : ApiClient.WireRequest -> Completion T) (e : Thrown) : Prop :=
  e = Error invalid_payload_message \/
  e = Error missing_credentials_message \/
  e = Error "Failed to obtain access token" \/
  (exists credentials,
     ApiClient.exchange host
       (ApiClient.mkAuthOptions ApiClient.CHAT_SCOPES credentials) = inl e) \/
  (exists request, http request = inl e).

(** The requests in the log of [st'] that were not yet in the log of [st]
    all satisfy [P]. *)
Definition issued_satisfy (st st' : ApiClient.State)
    (P : ApiClient.WireRequest -> Prop) : Prop :=
  forall request,
    In request (ApiClient.outbound st') ->
    In request (ApiClient.outbound st) \/ P request.

(** The paging inputs of the list tools. *)
Definition paging_of (c : Tools.Call) : option (Z * option string) :=
  match c with
  | Tools.list_spaces p =>
    Some (ListSpacesInput.pageSize p, ListSpacesInput.pageToken p)
  | Tools.search_spaces p =>
    Some (SearchSpacesInput.pageSize p, SearchSpacesInput.pageToken p)
  | Tools.list_messages p =>
    Some (ListMessagesInput.pageSize p, ListMessagesInput.pageToken p)
  | Tools.list_members p =>
    Some (ListMembersInput.pageSize p, ListMembersInput.pageToken p)
  | Tools.list_reactions p =>
    Some (ListReactionsInput.pageSize p, ListReactionsInput.pageToken p)
  | _ => None
  end.

(** The [response_format] input of a tool; the delete tools have none. *)
Definition format_of (c : Tools.Call) : option ResponseFormat :=
  match c with
  | Tools.list_spaces p => Some (ListSpacesInput.response_format p)
  | Tools.get_space p => Some (GetSpaceInput.response_format p)
  | Tools.create_space p => Some (CreateSpaceInput.response_format p)
  | Tools.update_space p => Some (UpdateSpaceInput.response_format p)
  | Tools.search_spaces p => Some (SearchSpacesInput.response_format p)
  | Tools.find_direct_message p => Some (FindDirectMessageInput.response_format p)
  | Tools.list_messages p => Some (ListMessagesInput.response_format p)
  | Tools.get_message p => Some (GetMessageInput.response_format p)
  | Tools.create_message p => Some (CreateMessageInput.response_format p)
  | Tools.update_message p => Some (UpdateMessageInput.response_format p)
  | Tools.list_members p => Some (ListMembersInput.response_format p)
  | Tools.get_member p => Some (GetMemberInput.response_format p)
  | Tools.create_member p => Some (CreateMemberInput.response_format p)
  | Tools.list_reactions p => Some (ListReactionsInput.response_format p)
  | Tools.create_reaction p => Some (CreateReactionInput.response_format p)
  | Tools.get_attachment p => Some (GetAttachmentInput.response_format p)
  | Tools.upload_attachment p => Some (UploadAttachmentInput.response_format p)
  | Tools.delete_space _ | Tools.delete_message _ | Tools.delete_member _
  | Tools.delete_reaction _ => None
  end.

(** What the writing tools put before the rendering in their success
    text: a sentence and an empty line. *)
Definition banner_of (c : Tools.Call) : string :=
  match c with
  | Tools.create_space _ => "Space created successfully!" ++ LF ++ LF
  | Tools.update_space _ => "Space updated successfully!" ++ LF ++ LF
  | Tools.create_message _ => "Message sent successfully!" ++ LF ++ LF
  | Tools.update_message _ => "Message updated successfully!" ++ LF ++ LF
  | Tools.create_member _ => "Member added successfully!" ++ LF ++ LF
  | Tools.create_reaction _ => "Reaction added successfully!" ++ LF ++ LF
  | Tools.upload_attachment _ => "Attachment uploaded successfully!" ++ LF ++ LF
  | _ => ""
  end.

(** The object that the JSON rendering serializes, given the structured
    content of the result: the same object, except that the page of the
    search tool goes through the space-list renderer, which has no
    [totalSize]. *)
Definition rendered_object (s : Structured) : Structured :=
  match s with
  | SearchPage count _ spaces hasMore nextPageToken =>
    SpacesPage count spaces hasMore nextPageToken
  | _ => s
  end.

(** Number of entries that the pagination data add to the [lines] array of
    a list rendering. *)
Definition footer_size (hasMore : bool) (nextPageToken : option string) : nat :=
  if hasMore && JS.truthy nextPageToken then 2 else 0.

(** The request that the upload tool issues for a file of the given name
    and type whose decoded content has [size] bytes. *)
Definition upload_request (spaceName filename contentType : string) (size : Z)
    (token : string) : ApiClient.WireRequest :=
  wire_of (spaceName ++ "/attachments:upload") ApiClient.POST
    (JS.VObj [("filename", JS.VStr filename);
              ("contentType", JS.VStr contentType);
              ("contentLength", JS.VNum size)])
    None token.

(** ** Further sample data *)

Module SampleCalls.

Definition getJson : GetSpaceInput.t := GetSpaceInput.mk "spaces/AAAA" JSON.

Definition upload : UploadAttachmentInput.t :=
  UploadAttachmentInput.mk "spaces/AAAA" "notes.txt" "text/plain" "aGVsbG8=" MARKDOWN.

(** The same upload with other content of the same decoded size. *)
Definition uploadOther : UploadAttachmentInput.t :=
  UploadAttachmentInput.mk "spaces/AAAA" "notes.txt" "text/plain" "d29ybGQ=" MARKDOWN.

Definition listPage2 : ListSpacesInput.t :=
  ListSpacesInput.mk 50 (Some "TOK123") None MARKDOWN.

Definition rename : UpdateSpaceInput.t :=
  UpdateSpaceInput.mk "spaces/AAAA" (Some "Design") None (Some "") MARKDOWN.

Definition reply : CreateMessageInput.t :=
  CreateMessageInput.mk "spaces/AAAA" "On it" (Some "k1")
    (Some "spaces/AAAA/threads/T1") None None MARKDOWN.

Definition longMessage : Message.t :=
  Message.mk "spaces/AAAA/messages/M1" (Some Sample.alice) None
    (Some (Reference.replicate 150 "m"%char)) None None.

(** The state after the client was initialized from a bearer token. *)
Definition oauthReady : ApiClient.State :=
  ApiClient.mkState (Some installed_client)
    (Some (ApiClient.OAuth2Client (Some "ya29.token"))) [].

(** A remote end that answers every request with the same space. *)
Definition serveSpace : ApiClient.WireRequest -> Completion Space.t :=
  fun _ => inr SampleSpaces.described.

(** The state after the client was initialized for a service account
    whose credentials come from the path in the environment. *)
Definition serviceReady : ApiClient.State :=
  ApiClient.mkState (Some installed_client)
    (Some (ApiClient.GoogleAuth
             (ApiClient.mkAuthOptions ApiClient.CHAT_SCOPES None))) [].

(** An identity provider that is out of order. *)
Definition brokenProvider : ApiClient.Host :=
  ApiClient.mkHost (ApiClient.mkEnv (Some "/etc/chat/sa.json") None None)
    (fun _ => inl (Error "invalid_grant")).

(** The HTTP variant of the entry point, as a stub that just returns. *)
Definition idleHTTP : ApiClient.State -> Server.Run :=
  fun st => Server.mkRun st [] Server.Returned.

End SampleCalls.

(* ================================================================== *)
(** * Properties *)
(* ================================================================== *)


Example reference_date :
  Formatters.formatTimestamp (platform := Reference.platform) "2024-01-05T15:04:00Z"
  = "Jan 5, 2024, 03:04 PM".
Proof. reflexivity. Qed.

(* ================================================================== *)
(** * Facts about strings *)
(* ================================================================== *)

Section StringFacts.

Lemma append_nil_r (s : string) : s ++ "" = s.
Proof. induction s as [|c s IH]; simpl; [reflexivity | now rewrite IH]. Qed.

Lemma append_assoc (a b c : string) : (a ++ b) ++ c = a ++ (b ++ c).
Proof. induction a as [|x a IH]; simpl; [reflexivity | now rewrite IH]. Qed.

Lemma length_append (a b : string) :
  String.length (a ++ b) = (String.length a + String.length b)%nat.
Proof. induction a as [|x a IH]; simpl; [reflexivity | now rewrite IH]. Qed.

Lemma substring_0_firstChars (n : nat) (s : string) :
  String.substring 0 n s = firstChars n s.
Proof.
  revert s; induction n as [|n IH]; intros [|c s]; simpl; try reflexivity.
  now rewrite IH.
Qed.

Lemma length_firstChars (n : nat) (s : string) :
  String.length (firstChars n s) = Nat.min n (String.length s).
Proof.
  revert s; induction n as [|n IH]; intros [|c s]; simpl; try reflexivity.
  now rewrite IH.
Qed.

Lemma firstChars_all (n : nat) (s : string) :
  (String.length s <= n)%nat -> firstChars n s = s.
Proof.
  revert s; induction n as [|n IH]; intros [|c s]; simpl; intros Hle;
    try reflexivity; try lia.
  rewrite IH; [reflexivity | lia].
Qed.

Lemma firstChars_min (n : nat) (s : string) :
  firstChars (Nat.min n (String.length s)) s = firstChars n s.
Proof.
  revert s; induction n as [|n IH]; intros [|c s]; simpl; try reflexivity.
  now rewrite IH.
Qed.

(** [substring(0, n)] keeps the first [n] characters. *)
Lemma JS_substring_prefix (s : string) (n : Z) :
  (0 <= n)%Z -> JS.substring s 0 n = firstChars (Z.to_nat n) s.
Proof.
  intros Hn. unfold JS.substring. cbv zeta.
  set (len := Z.of_nat (String.length s)).
  assert (Hlen : (0 <= len)%Z) by (subst len; lia).
  replace (Z.min (Z.max 0 0) len) with 0%Z by lia.
  replace (Z.max n 0) with n by lia.
  replace (Z.min 0 (Z.min n len)) with 0%Z by lia.
  replace (Z.max 0 (Z.min n len) - 0)%Z with (Z.min n len) by lia.
  change (Z.to_nat 0) with 0%nat.
  rewrite substring_0_firstChars.
  rewrite <- (firstChars_min (Z.to_nat n)).
  f_equal. subst len. lia.
Qed.

End StringFacts.

(* ================================================================== *)
(** * The truncation policy *)
(* ================================================================== *)

Section Truncation.
Context {platform : Platform}.
Import Formatters.

Lemma truncation_notice_length : String.length truncation_notice = 81%nat.
Proof. reflexivity. Qed.

Lemma truncateResponse_cut_rule (text : string) :
  truncateResponse text = cut_rule text.
Proof.
  unfold truncateResponse, cut_rule, JS.length, CHARACTER_LIMIT.
  destruct (Z.of_nat (String.length text) <=? 25000)%Z; [reflexivity|].
  rewrite JS_substring_prefix by lia. reflexivity.
Qed.

Lemma cut_rule_bound (text : string) :
  (Z.of_nat (String.length (cut_rule text)) <= 25000)%Z.
Proof.
  unfold cut_rule.
  destruct (Z.of_nat (String.length text) <=? 25000)%Z eqn:E.
  - apply Z.leb_le in E. exact E.
  - rewrite length_append, length_firstChars, truncation_notice_length.
    apply Z.leb_gt in E. lia.
Qed.

End Truncation.

Section TruncationPolicy.
Context {platform : Platform}.
Import Formatters.

Lemma truncateResponse_obeys (text : string) :
  obeys_cut_rule text (truncateResponse text).
Proof.
  pose proof (cut_rule_bound text) as Hbound.
  rewrite truncateResponse_cut_rule. unfold cut_rule in *. split.
  - intros Hlong.
    destruct (Z.of_nat (String.length text) <=? 25000)%Z eqn:E.
    + apply Z.leb_le in E. lia.
    + repeat split; [| exact Hbound].
      rewrite length_firstChars. lia.
  - intros Hshort.
    destruct (Z.of_nat (String.length text) <=? 25000)%Z eqn:E; [reflexivity|].
    apply Z.leb_gt in E. lia.
Qed.

Lemma nonempty_length_nonzero {A} (xs : list A) :
  xs <> [] -> (Z.of_nat (List.length xs) =? 0)%Z = false.
Proof.
  intros Hne. destruct xs as [|x xs]; [congruence|].
  apply Z.eqb_neq. simpl List.length. lia.
Qed.

Lemma formatSpacesList_markdown spaces hasMore token :
  spaces <> [] ->
  formatSpacesList spaces MARKDOWN hasMore token =
  truncateResponse (JS.join LF (formatSpacesList_lines spaces hasMore token)).
Proof.
  intros Hne. unfold formatSpacesList.
  now rewrite (nonempty_length_nonzero _ Hne).
Qed.

Lemma formatMessagesList_markdown messages hasMore token :
  messages <> [] ->
  formatMessagesList messages MARKDOWN hasMore token =
  truncateResponse (JS.join LF (formatMessagesList_lines messages hasMore token)).
Proof.
  intros Hne. unfold formatMessagesList.
  now rewrite (nonempty_length_nonzero _ Hne).
Qed.

Lemma formatMembersList_markdown members hasMore token :
  members <> [] ->
  formatMembersList members MARKDOWN hasMore token =
  truncateResponse (JS.join LF (formatMembersList_lines members hasMore token)).
Proof.
  intros Hne. unfold formatMembersList.
  now rewrite (nonempty_length_nonzero _ Hne).
Qed.

Lemma formatReactionsList_markdown reactions hasMore token :
  reactions <> [] ->
  formatReactionsList reactions MARKDOWN hasMore token =
  JS.join LF (formatReactionsList_lines reactions hasMore token).
Proof.
  intros Hne. unfold formatReactionsList.
  now rewrite (nonempty_length_nonzero _ Hne).
Qed.

(** C3.  The global truncation policy.  [truncateResponse] returns a text
    of at most 25,000 characters unchanged; a longer text is cut to its
    first 25,000 - 100 characters and the fixed truncation notice is
    appended, which keeps the result within 25,000 characters.  The
    renderings of space, message and member collections are exactly
    [truncateResponse] applied to the assembled text, and, being functions
    of the collection and the pagination data alone, two renderings of the
    same collection are identical. *)
Theorem truncation_policy :
  (forall text, obeys_cut_rule text (truncateResponse text)) /\
  (forall spaces hasMore token, spaces <> [] ->
     obeys_cut_rule
       (JS.join LF (formatSpacesList_lines spaces hasMore token))
       (formatSpacesList spaces MARKDOWN hasMore token)) /\
  (forall messages hasMore token, messages <> [] ->
     obeys_cut_rule
       (JS.join LF (formatMessagesList_lines messages hasMore token))
       (formatMessagesList messages MARKDOWN hasMore token)) /\
  (forall members hasMore token, members <> [] ->
     obeys_cut_rule
       (JS.join LF (formatMembersList_lines members hasMore token))
       (formatMembersList members MARKDOWN hasMore token)) /\
  (forall spaces spaces' hasMore token, spaces = spaces' ->
     formatSpacesList spaces MARKDOWN hasMore token =
     formatSpacesList spaces' MARKDOWN hasMore token) /\
  (forall messages messages' hasMore token, messages = messages' ->
     formatMessagesList messages MARKDOWN hasMore token =
     formatMessagesList messages' MARKDOWN hasMore token) /\
  (forall members members' hasMore token, members = members' ->
     formatMembersList members MARKDOWN hasMore token =
     formatMembersList members' MARKDOWN hasMore token).
Proof.
  refine (conj _ (conj _ (conj _ (conj _ (conj _ (conj _ _)))))).
  - apply truncateResponse_obeys.
  - intros. rewrite formatSpacesList_markdown by assumption.
    apply truncateResponse_obeys.
  - intros. rewrite formatMessagesList_markdown by assumption.
    apply truncateResponse_obeys.
  - intros. rewrite formatMembersList_markdown by assumption.
    apply truncateResponse_obeys.
  - intros; subst; reflexivity.
  - intros; subst; reflexivity.
  - intros; subst; reflexivity.
Qed.

End TruncationPolicy.

Section Timestamp.
Context {platform : Platform}.
Import Formatters.

(** C2.  What [formatTimestamp] does with a string that does not parse as
    a date: [new Date] yields an invalid date, [toLocaleString] formats it
    as the text ["Invalid Date"] without throwing, so the [catch] branch
    that would give back the input is not taken. The input is therefore
    not what is rendered (unless it is that very text). *)
Theorem formatTimestamp_unparseable (timestamp : string) :
  Date_parse timestamp = None ->
  Date_toLocaleString (Date_parse timestamp) = inr "Invalid Date" /\
  formatTimestamp timestamp = "Invalid Date" /\
  (timestamp <> "Invalid Date" -> formatTimestamp timestamp <> timestamp).
Proof.
  intros Hparse. unfold formatTimestamp, Date_toLocaleString.
  rewrite Hparse. refine (conj eq_refl (conj eq_refl _)).
  intros Hne Heq. apply Hne. now symmetry.
Qed.

End Timestamp.

Lemma formatTimestamp_unparseable_witness :
  Date_parse (Platform := Reference.platform) "not-a-date" = None /\
  Formatters.formatTimestamp (platform := Reference.platform) "not-a-date"
  = "Invalid Date".
Proof.
  split; [reflexivity|].
  apply (formatTimestamp_unparseable (platform := Reference.platform) "not-a-date").
  reflexivity.
Defined.

(** The input is not what gets rendered. *)
Example not_a_date_is_not_echoed :
  Formatters.formatTimestamp (platform := Reference.platform) "not-a-date"
  <> "not-a-date".
Proof. discriminate. Qed.

Lemma truncation_policy_witness :
  [Sample.bigSpace] <> [] /\
  (25000 < Z.of_nat (String.length
     (JS.join LF (Formatters.formatSpacesList_lines [Sample.bigSpace] false None))))%Z /\
  (Z.of_nat (String.length
     (Formatters.formatSpacesList (platform := Reference.platform)
        [Sample.bigSpace] MARKDOWN false None)) <= 25000)%Z.
Proof.
  assert (Hne : [Sample.bigSpace] <> []) by discriminate.
  assert (Hlong : (25000 < Z.of_nat (String.length
     (JS.join LF (Formatters.formatSpacesList_lines [Sample.bigSpace] false None))))%Z)
    by (vm_compute; reflexivity).
  split; [exact Hne|]. split; [exact Hlong|].
  destruct (truncation_policy (platform := Reference.platform))
    as (_ & Hspaces & _).
  destruct (Hspaces [Sample.bigSpace] false None Hne) as [Hcut _].
  exact (proj2 (proj2 (Hcut Hlong))).
Defined.

Section CutRuleCoverage.
Context {platform : Platform}.
Import Formatters.

Lemma truncateResponse_bound (text : string) :
  (Z.of_nat (String.length (truncateResponse text)) <= 25000)%Z.
Proof. rewrite truncateResponse_cut_rule. apply cut_rule_bound. Qed.

(** C4 (as amended).  The renderings of space, message and member
    collections in text mode are returned through the cut rule, so none of
    them is longer than 25,000 characters, whatever the collection and the
    pagination data; a single-entity rendering is returned as assembled
    and can be longer. *)
Theorem collection_renderings_bounded :
  (forall spaces hasMore token,
     (Z.of_nat (String.length (formatSpacesList spaces MARKDOWN hasMore token))
      <= 25000)%Z) /\
  (forall messages hasMore token,
     (Z.of_nat (String.length (formatMessagesList messages MARKDOWN hasMore token))
      <= 25000)%Z) /\
  (forall members hasMore token,
     (Z.of_nat (String.length (formatMembersList members MARKDOWN hasMore token))
      <= 25000)%Z) /\
  (exists message,
     (25000 < Z.of_nat (String.length (formatMessage message MARKDOWN)))%Z).
Proof.
  refine (conj _ (conj _ (conj _ _))).
  - intros [|s spaces] hasMore token; [vm_compute; discriminate|].
    rewrite formatSpacesList_markdown by discriminate.
    apply truncateResponse_bound.
  - intros [|m messages] hasMore token; [vm_compute; discriminate|].
    rewrite formatMessagesList_markdown by discriminate.
    apply truncateResponse_bound.
  - intros [|m members] hasMore token; [vm_compute; discriminate|].
    rewrite formatMembersList_markdown by discriminate.
    apply truncateResponse_bound.
  - exists Sample.bigMessage. vm_compute. reflexivity.
Qed.

End CutRuleCoverage.

(** C4 (as stated) fails: the reaction-list rendering and the
    single-message rendering are returned without the cut, and both exceed
    25,000 characters on these inputs. *)
Lemma uncut_renderings_exceed_ceiling :
  ~ (Z.of_nat (String.length
       (Formatters.formatReactionsList (platform := Reference.platform)
          [Sample.bigReaction] MARKDOWN false None)) <= 25000)%Z /\
  ~ (Z.of_nat (String.length
       (Formatters.formatMessage (platform := Reference.platform)
          Sample.bigMessage MARKDOWN)) <= 25000)%Z.
Proof.
  split; intros H; vm_compute in H; apply H; reflexivity.
Qed.

(* ================================================================== *)
(** * The pagination footer *)
(* ================================================================== *)

Section Footer.
Context {platform : Platform}.
Import Formatters.

Lemma fold_left_blocks {A} (step : list string -> A -> list string) :
  (forall acc x, step acc x = (acc ++ step [] x)%list) ->
  forall xs acc, fold_left step xs acc = (acc ++ flat_map (step []) xs)%list.
Proof.
  intros Hstep xs. induction xs as [|x xs IH]; intros acc; simpl.
  - now rewrite app_nil_r.
  - rewrite IH, Hstep, <- app_assoc. reflexivity.
Qed.

Lemma formatSpacesList_step_app acc space :
  formatSpacesList_step acc space = (acc ++ formatSpacesList_step [] space)%list.
Proof.
  unfold formatSpacesList_step, JS.push.
  destruct (Space.spaceDetails space) as [details|];
    [destruct (SpaceDetails.description details) as [d|];
     [destruct (negb (d =? ""))|]|];
    simpl; repeat rewrite <- app_assoc; reflexivity.
Qed.

Lemma formatMessagesList_step_app acc message :
  formatMessagesList_step acc message =
  (acc ++ formatMessagesList_step [] message)%list.
Proof.
  unfold formatMessagesList_step, JS.push.
  simpl; repeat rewrite <- app_assoc; reflexivity.
Qed.

Lemma formatMembersList_step_app acc member :
  formatMembersList_step acc member = (acc ++ formatMembersList_step [] member)%list.
Proof.
  unfold formatMembersList_step, JS.push.
  simpl; repeat rewrite <- app_assoc; reflexivity.
Qed.

Lemma formatReactionsList_step_app acc entry :
  formatReactionsList_step acc entry =
  (acc ++ formatReactionsList_step [] entry)%list.
Proof. destruct entry as [emoji data]. reflexivity. Qed.

Lemma token_test_false (token : string) : token <> "" -> (token =? "") = false.
Proof. intros H. now apply String.eqb_neq. Qed.

Lemma footer_behaviour_intro lines body separator :
  (forall hasMore token,
     lines hasMore token =
     match token with
     | Some t =>
       if hasMore && negb (t =? "")
       then JS.push (JS.push body separator) (footer_line t)
       else body
     | None => body
     end) ->
  footer_behaviour lines body separator.
Proof.
  intros Hlines. unfold footer_behaviour.
  refine (conj _ (conj _ (conj _ _))); intros; rewrite Hlines.
  - reflexivity.
  - rewrite String.eqb_refl, andb_false_r. reflexivity.
  - reflexivity.
  - rewrite token_test_false by assumption. unfold JS.push.
    now rewrite <- app_assoc.
Qed.

Lemma spaces_footer spaces :
  footer_behaviour (formatSpacesList_lines spaces) (spaces_body spaces) "---".
Proof.
  assert (Hbody : fold_left formatSpacesList_step spaces
            (JS.push (JS.push []
               ("# Spaces (" ++ JS.Number_toString (Z.of_nat (List.length spaces))
                ++ " results)")) "") = spaces_body spaces).
  { rewrite (fold_left_blocks _ formatSpacesList_step_app). reflexivity. }
  unfold formatSpacesList_lines. cbv zeta. rewrite Hbody.
  apply footer_behaviour_intro. intros hasMore token. reflexivity.
Qed.

Lemma messages_footer messages :
  footer_behaviour (formatMessagesList_lines messages) (messages_body messages) "---".
Proof.
  assert (Hbody : fold_left formatMessagesList_step messages
            (JS.push (JS.push []
               ("# Messages (" ++ JS.Number_toString (Z.of_nat (List.length messages))
                ++ " results)")) "") = messages_body messages).
  { rewrite (fold_left_blocks _ formatMessagesList_step_app). reflexivity. }
  unfold formatMessagesList_lines. cbv zeta. rewrite Hbody.
  apply footer_behaviour_intro. intros hasMore token. reflexivity.
Qed.

Lemma members_footer members :
  footer_behaviour (formatMembersList_lines members) (members_body members) "---".
Proof.
  assert (Hbody : fold_left formatMembersList_step members
            (JS.push (JS.push []
               ("# Members (" ++ JS.Number_toString (Z.of_nat (List.length members))
                ++ " results)")) "") = members_body members).
  { rewrite (fold_left_blocks _ formatMembersList_step_app). reflexivity. }
  unfold formatMembersList_lines. cbv zeta. rewrite Hbody.
  apply footer_behaviour_intro. intros hasMore token. reflexivity.
Qed.

Lemma reactions_footer reactions :
  footer_behaviour (formatReactionsList_lines reactions) (reactions_body reactions) "".
Proof.
  assert (Hbody : fold_left formatReactionsList_step (groupReactions reactions)
            (JS.push (JS.push []
               ("# Reactions (" ++ JS.Number_toString (Z.of_nat (List.length reactions))
                ++ " results)")) "") = reactions_body reactions).
  { rewrite (fold_left_blocks _ formatReactionsList_step_app). reflexivity. }
  unfold formatReactionsList_lines. cbv zeta. rewrite Hbody.
  apply footer_behaviour_intro. intros hasMore token. reflexivity.
Qed.

End Footer.

Section JoinFacts.

Lemma concat_snoc (sep line : string) (xs : list string) :
  xs <> [] ->
  String.concat sep (xs ++ [line]) = String.concat sep xs ++ sep ++ line.
Proof.
  induction xs as [|x xs IH]; intros Hne; [congruence|].
  destruct xs as [|y ys]; [reflexivity|].
  change (String.concat sep ((x :: y :: ys) ++ [line]))
    with (x ++ sep ++ String.concat sep ((y :: ys) ++ [line])).
  rewrite IH by discriminate.
  change (String.concat sep (x :: y :: ys))
    with (x ++ sep ++ String.concat sep (y :: ys)).
  now rewrite !append_assoc.
Qed.

End JoinFacts.

Section Occurrence.

Lemma prefix_append (s after : string) : String.prefix s (s ++ after) = true.
Proof.
  induction s as [|c s IH]; simpl.
  - now destruct after.
  - destruct (ascii_dec c c); [exact IH | congruence].
Qed.

Lemma occursInb_prefix (s t : string) :
  String.prefix s t = true -> occursInb s t = true.
Proof.
  intros H. destruct t as [|c t].
  - change (occursInb s "") with (String.prefix s "" || false).
    now rewrite H.
  - change (occursInb s (String c t))
      with (String.prefix s (String c t) || occursInb s t).
    now rewrite H.
Qed.

Lemma occursIn_occursInb (s t : string) : occursIn s t -> occursInb s t = true.
Proof.
  intros (before & after & ->).
  induction before as [|c before IH].
  - change ("" ++ s ++ after) with (s ++ after).
    apply occursInb_prefix, prefix_append.
  - change (String c before ++ s ++ after) with (String c (before ++ s ++ after)).
    change (occursInb s (String c (before ++ s ++ after)))
      with (String.prefix s (String c (before ++ s ++ after))
            || occursInb s (before ++ s ++ after)).
    rewrite IH. apply orb_true_r.
Qed.

Lemma occursIn_middle (a s b : string) : occursIn s (a ++ s ++ b).
Proof. now exists a, b. Qed.

End Occurrence.

Section FooterTheorem.
Context {platform : Platform}.
Import Formatters.

Lemma join_footer (body : list string) (separator token : string) :
  body <> [] ->
  endsWithLine (footer_line token)
    (JS.join LF (body ++ [separator; footer_line token])).
Proof.
  intros Hne. exists (JS.join LF (body ++ [separator])). unfold JS.join.
  change [separator; footer_line token] with ([separator] ++ [footer_line token])%list.
  rewrite app_assoc. apply concat_snoc.
  destruct body; discriminate.
Qed.

Lemma footer_absent lines body separator :
  footer_behaviour lines body separator ->
  forall hasMore token,
    hasMore && JS.truthy token = false -> lines hasMore token = body.
Proof.
  intros (Hnone & Hempty & Hfalse & Htrue) hasMore [token|] Hno.
  - destruct hasMore; [|apply Hfalse].
    simpl in Hno. apply negb_false_iff, String.eqb_eq in Hno. subst token.
    apply Hempty.
  - apply Hnone.
Qed.

Lemma assembled_footer lines body separator token :
  footer_behaviour lines body separator -> body <> [] -> token <> "" ->
  endsWithLine (footer_line token) (JS.join LF (lines true (Some token))).
Proof.
  intros (_ & _ & _ & Htrue) Hbody Htoken.
  rewrite (Htrue token Htoken). now apply join_footer.
Qed.

(** C6 (as amended).  For each of the four collection renderings the
    assembled lines are the body alone when there is no usable token
    (absent, empty, or [hasMore] false), and the body followed by a
    separator line and the footer line when [hasMore] holds and the token
    is non-empty.  The footer line contains the token.  For a non-empty
    collection the returned text then ends with that footer line, provided
    (for spaces, messages and members) the assembled text is within the
    ceiling; reaction lists are never cut.  Without a token the returned
    text is the rendering of the body alone.  With [hasMore] and a
    non-empty token the assembled text always ends with the footer line;
    without a usable token (absent, empty, or [hasMore] false) the
    returned text is the rendering of the body alone; and an empty
    collection renders the fixed text, whatever the pagination data. *)
Theorem pagination_footer :
  (forall token, occursIn token (footer_line token)) /\
  (forall spaces,
     footer_behaviour (formatSpacesList_lines spaces) (spaces_body spaces) "---") /\
  (forall messages,
     footer_behaviour (formatMessagesList_lines messages) (messages_body messages) "---") /\
  (forall members,
     footer_behaviour (formatMembersList_lines members) (members_body members) "---") /\
  (forall reactions,
     footer_behaviour (formatReactionsList_lines reactions) (reactions_body reactions) "") /\
  (forall spaces token, spaces <> [] -> token <> "" ->
     (Z.of_nat (String.length
        (JS.join LF (formatSpacesList_lines spaces true (Some token)))) <= 25000)%Z ->
     endsWithLine (footer_line token)
       (formatSpacesList spaces MARKDOWN true (Some token))) /\
  (forall messages token, messages <> [] -> token <> "" ->
     (Z.of_nat (String.length
        (JS.join LF (formatMessagesList_lines messages true (Some token)))) <= 25000)%Z ->
     endsWithLine (footer_line token)
       (formatMessagesList messages MARKDOWN true (Some token))) /\
  (forall members token, members <> [] -> token <> "" ->
     (Z.of_nat (String.length
        (JS.join LF (formatMembersList_lines members true (Some token)))) <= 25000)%Z ->
     endsWithLine (footer_line token)
       (formatMembersList members MARKDOWN true (Some token))) /\
  (forall reactions token, reactions <> [] -> token <> "" ->
     endsWithLine (footer_line token)
       (formatReactionsList reactions MARKDOWN true (Some token))) /\
  (forall spaces hasMore, spaces <> [] ->
     formatSpacesList spaces MARKDOWN hasMore None =
     truncateResponse (JS.join LF (spaces_body spaces))) /\
  (forall messages hasMore, messages <> [] ->
     formatMessagesList messages MARKDOWN hasMore None =
     truncateResponse (JS.join LF (messages_body messages))) /\
  (forall members hasMore, members <> [] ->
     formatMembersList members MARKDOWN hasMore None =
     truncateResponse (JS.join LF (members_body members))) /\
  (forall reactions hasMore, reactions <> [] ->
     formatReactionsList reactions MARKDOWN hasMore None =
     JS.join LF (reactions_body reactions)) /\
  (forall spaces token, token <> "" ->
     endsWithLine (footer_line token)
       (JS.join LF (formatSpacesList_lines spaces true (Some token)))) /\
  (forall messages token, token <> "" ->
     endsWithLine (footer_line token)
       (JS.join LF (formatMessagesList_lines messages true (Some token)))) /\
  (forall members token, token <> "" ->
     endsWithLine (footer_line token)
       (JS.join LF (formatMembersList_lines members true (Some token)))) /\
  (forall reactions token, token <> "" ->
     endsWithLine (footer_line token)
       (JS.join LF (formatReactionsList_lines reactions true (Some token)))) /\
  (forall spaces hasMore token, spaces <> [] ->
     hasMore && JS.truthy token = false ->
     formatSpacesList spaces MARKDOWN hasMore token =
     truncateResponse (JS.join LF (spaces_body spaces))) /\
  (forall messages hasMore token, messages <> [] ->
     hasMore && JS.truthy token = false ->
     formatMessagesList messages MARKDOWN hasMore token =
     truncateResponse (JS.join LF (messages_body messages))) /\
  (forall members hasMore token, members <> [] ->
     hasMore && JS.truthy token = false ->
     formatMembersList members MARKDOWN hasMore token =
     truncateResponse (JS.join LF (members_body members))) /\
  (forall reactions hasMore token, reactions <> [] ->
     hasMore && JS.truthy token = false ->
     formatReactionsList reactions MARKDOWN hasMore token =
     JS.join LF (reactions_body reactions)) /\
  (forall hasMore token,
     formatSpacesList [] MARKDOWN hasMore token = "No spaces found." /\
     formatMessagesList [] MARKDOWN hasMore token = "No messages found." /\
     formatMembersList [] MARKDOWN hasMore token = "No members found." /\
     formatReactionsList [] MARKDOWN hasMore token = "No reactions found.").
Proof.
  refine (conj _ (conj _ (conj _ (conj _ (conj _ (conj _ (conj _ (conj _
            (conj _ (conj _ (conj _ (conj _ (conj _ (conj _ (conj _ (conj _
            (conj _ (conj _ (conj _ (conj _ (conj _ _))))))))))))))))))))).
  - intros token. unfold footer_line. apply occursIn_middle.
  - apply spaces_footer.
  - apply messages_footer.
  - apply members_footer.
  - apply reactions_footer.
  - intros spaces token Hne Htok Hfit.
    rewrite formatSpacesList_markdown by assumption.
    rewrite (proj2 (truncateResponse_obeys _) Hfit).
    destruct (spaces_footer spaces) as (_ & _ & _ & Hfooter).
    rewrite (Hfooter token Htok). apply join_footer. discriminate.
  - intros messages token Hne Htok Hfit.
    rewrite formatMessagesList_markdown by assumption.
    rewrite (proj2 (truncateResponse_obeys _) Hfit).
    destruct (messages_footer messages) as (_ & _ & _ & Hfooter).
    rewrite (Hfooter token Htok). apply join_footer. discriminate.
  - intros members token Hne Htok Hfit.
    rewrite formatMembersList_markdown by assumption.
    rewrite (proj2 (truncateResponse_obeys _) Hfit).
    destruct (members_footer members) as (_ & _ & _ & Hfooter).
    rewrite (Hfooter token Htok). apply join_footer. discriminate.
  - intros reactions token Hne Htok.
    rewrite formatReactionsList_markdown by assumption.
    destruct (reactions_footer reactions) as (_ & _ & _ & Hfooter).
    rewrite (Hfooter token Htok). apply join_footer. discriminate.
  - intros spaces hasMore Hne.
    rewrite formatSpacesList_markdown by assumption.
    now rewrite (proj1 (spaces_footer spaces)).
  - intros messages hasMore Hne.
    rewrite formatMessagesList_markdown by assumption.
    now rewrite (proj1 (messages_footer messages)).
  - intros members hasMore Hne.
    rewrite formatMembersList_markdown by assumption.
    now rewrite (proj1 (members_footer members)).
  - intros reactions hasMore Hne.
    rewrite formatReactionsList_markdown by assumption.
    now rewrite (proj1 (reactions_footer reactions)).
  - intros spaces token Htoken.
    apply (assembled_footer _ _ _ _ (spaces_footer spaces)); [discriminate | exact Htoken].
  - intros messages token Htoken.
    apply (assembled_footer _ _ _ _ (messages_footer messages));
      [discriminate | exact Htoken].
  - intros members token Htoken.
    apply (assembled_footer _ _ _ _ (members_footer members));
      [discriminate | exact Htoken].
  - intros reactions token Htoken.
    apply (assembled_footer _ _ _ _ (reactions_footer reactions));
      [discriminate | exact Htoken].
  - intros spaces hasMore token Hne Hno.
    rewrite formatSpacesList_markdown by assumption.
    now rewrite (footer_absent _ _ _ (spaces_footer spaces) hasMore token Hno).
  - intros messages hasMore token Hne Hno.
    rewrite formatMessagesList_markdown by assumption.
    now rewrite (footer_absent _ _ _ (messages_footer messages) hasMore token Hno).
  - intros members hasMore token Hne Hno.
    rewrite formatMembersList_markdown by assumption.
    now rewrite (footer_absent _ _ _ (members_footer members) hasMore token Hno).
  - intros reactions hasMore token Hne Hno.
    rewrite formatReactionsList_markdown by assumption.
    now rewrite (footer_absent _ _ _ (reactions_footer reactions) hasMore token Hno).
  - intros hasMore token. now repeat split.
Qed.

End FooterTheorem.

Lemma pagination_footer_witness :
  [Sample.bigReaction] <> [] /\ "TOK123" <> "" /\
  endsWithLine (footer_line "TOK123")
    (Formatters.formatReactionsList (platform := Reference.platform)
       [Sample.bigReaction] MARKDOWN true (Some "TOK123")).
Proof.
  assert (Hne : [Sample.bigReaction] <> []) by discriminate.
  assert (Htok : "TOK123" <> "") by discriminate.
  refine (conj Hne (conj Htok _)).
  destruct (pagination_footer (platform := Reference.platform))
    as (_ & _ & _ & _ & _ & _ & _ & _ & Hreactions & _).
  exact (Hreactions [Sample.bigReaction] "TOK123" Hne Htok).
Defined.

(** C6 (as stated) fails: an empty collection that comes with a
    continuation token renders without any footer, and so does a
    collection whose assembled text is cut; in neither output does the
    token occur. *)
Lemma footer_missing_despite_token :
  ~ occursIn "TOK123"
      (Formatters.formatSpacesList (platform := Reference.platform)
         [] MARKDOWN true (Some "TOK123")) /\
  ~ occursIn "TOK123"
      (Formatters.formatSpacesList (platform := Reference.platform)
         [Sample.bigSpace] MARKDOWN true (Some "TOK123")).
Proof.
  split; intros H; apply occursIn_occursInb in H; vm_compute in H; discriminate.
Qed.

(* ================================================================== *)
(** * Clipping of space descriptions *)
(* ================================================================== *)

Section Clipping.
Context {platform : Platform}.
Import Formatters.

Lemma clipped_source (d : string) :
  JS.substring d 0 100 ++ (if (JS.length d >? 100)%Z then "..." else "") = clipped d.
Proof.
  rewrite JS_substring_prefix by lia. unfold clipped, JS.length.
  change (Z.to_nat 100) with 100%nat.
  rewrite Z.gtb_ltb.
  destruct (100 <? Z.of_nat (String.length d))%Z eqn:E; [reflexivity|].
  apply Z.ltb_ge in E.
  rewrite append_nil_r. apply firstChars_all. lia.
Qed.

Lemma description_in_block space details d :
  Space.spaceDetails space = Some details ->
  SpaceDetails.description details = Some d ->
  d <> "" ->
  In ("- **Description**: " ++ clipped d) (formatSpacesList_step [] space).
Proof.
  intros Hdetails Hdesc Hne. unfold formatSpacesList_step.
  rewrite Hdetails, Hdesc, (token_test_false d Hne). cbv zeta. simpl negb. cbv iota.
  rewrite clipped_source. unfold JS.push. simpl. tauto.
Qed.

Lemma lines_extend_body lines body separator :
  footer_behaviour lines body separator ->
  forall hasMore token, exists footer, lines hasMore token = (body ++ footer)%list.
Proof.
  intros (Hnone & Hempty & Hfalse & Htrue) hasMore [token|].
  - destruct hasMore.
    + destruct (String.eqb_spec token "") as [->|Hne].
      * exists []. now rewrite Hempty, app_nil_r.
      * eexists. apply Htrue. exact Hne.
    + exists []. now rewrite Hfalse, app_nil_r.
  - exists []. now rewrite Hnone, app_nil_r.
Qed.

Lemma hasLine_join (line : string) (lines : list string) :
  In line lines -> hasLine line (JS.join LF lines).
Proof.
  intros Hin. apply in_split in Hin as (before & after & ->).
  now exists before, after.
Qed.

Lemma formatSpace_description space details d :
  Space.spaceDetails space = Some details ->
  SpaceDetails.description details = Some d ->
  d <> "" ->
  hasLine ("- **Description**: " ++ d) (formatSpace space MARKDOWN).
Proof.
  intros Hdetails Hdesc Hne. unfold formatSpace.
  rewrite Hdetails, Hdesc, (token_test_false d Hne). cbv zeta. simpl negb. cbv iota.
  apply hasLine_join. unfold JS.push.
  destruct (Space.membershipCount space) as [mc|];
    destruct (Space.createTime space) as [created|];
    try destruct (negb (created =? ""));
    destruct (Space.threaded space) as [threaded|];
    destruct (Space.externalUserAllowed space) as [allowed|];
    rewrite ?in_app_iff; simpl; tauto.
Qed.

(** C7 (as amended).  A space with a non-empty description [d].  The
    single-space rendering has the line [- **Description**: d], with [d]
    in full.  In
    the list rendering the block of that space has the line
    [- **Description**: clipped d], where [clipped d] is [d] itself when
    [d] has at most 100 characters and otherwise the first 100 characters
    of [d] followed by ["..."]; the list text is the cut rule applied to
    the joined lines, so the line is in the returned text whenever the
    assembled text is within the ceiling. *)
Theorem description_clipping space details d :
  Space.spaceDetails space = Some details ->
  SpaceDetails.description details = Some d ->
  d <> "" ->
  hasLine ("- **Description**: " ++ d) (formatSpace space MARKDOWN) /\
  ((Z.of_nat (String.length d) <= 100)%Z -> clipped d = d) /\
  ((100 < Z.of_nat (String.length d))%Z ->
     clipped d = firstChars 100 d ++ "..." /\
     String.length (firstChars 100 d) = 100%nat) /\
  (forall spaces hasMore token, In space spaces ->
     In ("- **Description**: " ++ clipped d)
        (formatSpacesList_lines spaces hasMore token) /\
     formatSpacesList spaces MARKDOWN hasMore token =
       truncateResponse (JS.join LF (formatSpacesList_lines spaces hasMore token)) /\
     ((Z.of_nat (String.length
         (JS.join LF (formatSpacesList_lines spaces hasMore token))) <= 25000)%Z ->
      hasLine ("- **Description**: " ++ clipped d)
        (formatSpacesList spaces MARKDOWN hasMore token))).
Proof.
  intros Hdetails Hdesc Hne.
  refine (conj _ (conj _ (conj _ _))).
  - eapply formatSpace_description; eassumption.
  - intros Hshort. unfold clipped.
    destruct (100 <? Z.of_nat (String.length d))%Z eqn:E; [|reflexivity].
    apply Z.ltb_lt in E. lia.
  - intros Hlong. unfold clipped.
    destruct (100 <? Z.of_nat (String.length d))%Z eqn:E.
    + split; [reflexivity|]. rewrite length_firstChars. lia.
    + apply Z.ltb_ge in E. lia.
  - intros spaces hasMore token Hin.
    assert (Hline : In ("- **Description**: " ++ clipped d)
                       (formatSpacesList_lines spaces hasMore token)).
    { destruct (lines_extend_body _ _ _ (spaces_footer spaces) hasMore token)
        as (footer & ->).
      apply in_or_app. left. unfold spaces_body. right. right.
      apply in_flat_map. exists space. split; [exact Hin|].
      eapply description_in_block; eassumption. }
    assert (Hne' : spaces <> []) by (destruct spaces; [contradiction | discriminate]).
    refine (conj Hline (conj (formatSpacesList_markdown _ _ _ Hne') _)).
    intros Hfit. rewrite formatSpacesList_markdown by exact Hne'.
    rewrite (proj2 (truncateResponse_obeys _) Hfit).
    apply hasLine_join. exact Hline.
Qed.

End Clipping.

Lemma description_clipping_witness :
  In SampleSpaces.described SampleSpaces.three /\
  hasLine ("- **Description**: " ++ SampleSpaces.description150)
    (Formatters.formatSpace (platform := Reference.platform)
       SampleSpaces.described MARKDOWN) /\
  hasLine
    ("- **Description**: " ++ firstChars 100 SampleSpaces.description150 ++ "...")
    (Formatters.formatSpacesList (platform := Reference.platform)
       SampleSpaces.three MARKDOWN false None).
Proof.
  assert (Hin : In SampleSpaces.described SampleSpaces.three)
    by (right; left; reflexivity).
  assert (Hne : SampleSpaces.description150 <> "") by discriminate.
  destruct (description_clipping (platform := Reference.platform)
              SampleSpaces.described
              (SpaceDetails.mk (Some SampleSpaces.description150) None)
              SampleSpaces.description150 eq_refl eq_refl Hne)
    as (Hdetail & _ & _ & Hlist).
  refine (conj Hin (conj Hdetail _)).
  destruct (Hlist SampleSpaces.three false None Hin) as (_ & _ & Hshown).
  apply Hshown. vm_compute. discriminate.
Defined.

(** C7 (as stated) fails in the list view when the assembled text is cut:
    on a full page of 100 spaces with display names of 128 characters and
    descriptions of 150, the assembled text has more than 25,000
    characters and the clipped description of the last space is not in
    the returned text.  And a description that is the empty string gets no
    description line in either view. *)
Lemma clipped_description_cut_away :
  In SampleSpaces.described SampleSpaces.fullPage /\
  List.length SampleSpaces.fullPage = 100%nat /\
  (25000 < Z.of_nat (String.length
     (JS.join LF (Formatters.formatSpacesList_lines SampleSpaces.fullPage false None))))%Z /\
  ~ occursIn
      ("- **Description**: " ++ firstChars 100 SampleSpaces.description150 ++ "...")
      (Formatters.formatSpacesList (platform := Reference.platform)
         SampleSpaces.fullPage MARKDOWN false None) /\
  ~ occursIn "Description"
      (Formatters.formatSpace (platform := Reference.platform)
         SampleSpaces.blank MARKDOWN) /\
  ~ occursIn "Description"
      (Formatters.formatSpacesList (platform := Reference.platform)
         [SampleSpaces.blank] MARKDOWN false None).
Proof.
  refine (conj _ (conj eq_refl (conj _ (conj _ (conj _ _))))).
  - apply in_or_app. right. now left.
  - vm_compute. reflexivity.
  - intros H. apply occursIn_occursInb in H. vm_compute in H. discriminate.
  - intros H. apply occursIn_occursInb in H. vm_compute in H. discriminate.
  - intros H. apply occursIn_occursInb in H. vm_compute in H. discriminate.
Qed.

(* ================================================================== *)
(** * Grouping of reactions *)
(* ================================================================== *)

Section FirstOccurrences.

Lemma first_occurrences_In (y : string) (l : list string) :
  In y (first_occurrences l) <-> In y l.
Proof.
  induction l as [|x rest IH]; simpl; [tauto|].
  rewrite filter_In, IH, negb_true_iff, String.eqb_neq.
  destruct (string_dec x y) as [->|Hne]; [tauto|].
  split; [tauto|]. intros [H|H]; [contradiction|]. right. split; congruence.
Qed.

Lemma first_occurrences_NoDup (l : list string) : NoDup (first_occurrences l).
Proof.
  induction l as [|x rest IH]; simpl; constructor.
  - rewrite filter_In, negb_true_iff, String.eqb_neq. tauto.
  - now apply NoDup_filter.
Qed.

Lemma first_occurrences_snoc (k : string) (l : list string) :
  first_occurrences (l ++ [k])%list =
  if in_dec string_dec k l then first_occurrences l
  else (first_occurrences l ++ [k])%list.
Proof.
  induction l as [|x rest IH]; [reflexivity|].
  change (first_occurrences ((x :: rest) ++ [k]))
    with (x :: List.filter (fun y => negb (y =? x)) (first_occurrences (rest ++ [k]))).
  rewrite IH.
  destruct (in_dec string_dec k rest) as [Hrest|Hrest];
    destruct (in_dec string_dec k (x :: rest)) as [Hin|Hin]; simpl in Hin.
  - reflexivity.
  - tauto.
  - destruct Hin as [->|Hin]; [|contradiction].
    rewrite filter_app. simpl. rewrite String.eqb_refl. simpl.
    now rewrite app_nil_r.
  - rewrite filter_app. simpl.
    assert (Hk : (k =? x) = false) by (apply String.eqb_neq; intros ->; tauto).
    rewrite Hk. reflexivity.
Qed.

End FirstOccurrences.

Section Grouping.
Import Formatters.

Lemma Map_has_keyed {V} (G : string -> V) (L : list string) (k : string) :
  JS.Map_has (List.map (fun k' => (k', G k')) L) k = true <-> In k L.
Proof.
  induction L as [|x L IH]; simpl; [split; [discriminate | tauto]|].
  destruct (String.eqb_spec x k) as [->|Hne]; [tauto|].
  rewrite IH. split; [tauto|]. intros [H|H]; [contradiction | exact H].
Qed.

Lemma Map_set_fresh {V} (m : JS.Map V) (k : string) (v : V) :
  JS.Map_has m k = false -> JS.Map_set m k v = (m ++ [(k, v)])%list.
Proof.
  induction m as [|[k' v'] m IH]; simpl; [reflexivity|].
  destruct (k' =? k); [discriminate|]. intros H. now rewrite IH.
Qed.

Lemma Map_mutate_last {V} (m : JS.Map V) (k : string) (v : V) (f : V -> V) :
  JS.Map_has m k = false ->
  JS.Map_mutate (m ++ [(k, v)])%list k f = (m ++ [(k, f v)])%list.
Proof.
  induction m as [|[k' v'] m IH]; simpl.
  - now rewrite String.eqb_refl.
  - destruct (k' =? k); [discriminate|]. intros H. now rewrite IH.
Qed.

Lemma Map_mutate_keyed {V} (G : string -> V) (f : V -> V) (L : list string)
    (k : string) :
  NoDup L ->
  JS.Map_mutate (List.map (fun k' => (k', G k')) L) k f =
  List.map (fun k' => (k', if k' =? k then f (G k') else G k')) L.
Proof.
  induction 1 as [|x L Hx Hnd IH]; simpl; [reflexivity|].
  destruct (String.eqb_spec x k) as [->|Hne].
  - f_equal. apply map_ext_in. intros y Hy.
    destruct (String.eqb_spec y k) as [->|_]; [contradiction | reflexivity].
  - now rewrite IH.
Qed.

(** One step of the grouping loop, by cases on whether the key is known. *)
Lemma groupReactions_step_known grouped reaction :
  JS.Map_has grouped (reactionEmoji reaction) = true ->
  groupReactions_step grouped reaction =
  JS.Map_mutate grouped (reactionEmoji reaction)
    (fun g => EmojiGroup.mk (EmojiGroup.emoji g)
                (EmojiGroup.users g ++ [reactionUser reaction])%list).
Proof. intros H. unfold groupReactions_step. rewrite H. reflexivity. Qed.

Lemma groupReactions_step_fresh grouped reaction :
  JS.Map_has grouped (reactionEmoji reaction) = false ->
  groupReactions_step grouped reaction =
  (grouped ++ [(reactionEmoji reaction,
                EmojiGroup.mk (reactionEmoji reaction) [reactionUser reaction])])%list.
Proof.
  intros H. unfold groupReactions_step. rewrite H. simpl negb. cbv iota.
  rewrite (Map_set_fresh _ _ _ H). now rewrite (Map_mutate_last _ _ _ _ H).
Qed.

Lemma users_of_snoc k reactions reaction :
  users_of k (reactions ++ [reaction])%list =
  (users_of k reactions ++
   (if reactionEmoji reaction =? k then [reactionUser reaction] else []))%list.
Proof.
  unfold users_of. rewrite filter_app, map_app. simpl.
  now destruct (reactionEmoji reaction =? k).
Qed.

Lemma users_of_absent k reactions :
  ~ In k (List.map reactionEmoji reactions) -> users_of k reactions = [].
Proof.
  unfold users_of. induction reactions as [|r rs IH]; simpl; [reflexivity|].
  intros Hnot. destruct (String.eqb_spec (reactionEmoji r) k) as [Heq|Hne].
  - tauto.
  - apply IH. tauto.
Qed.

Lemma expected_groups_snoc reactions reaction :
  expected_groups (reactions ++ [reaction])%list =
  groupReactions_step (expected_groups reactions) reaction.
Proof.
  set (k := reactionEmoji reaction).
  set (ks := List.map reactionEmoji reactions).
  unfold expected_groups at 1. rewrite map_app.
  change (List.map reactionEmoji [reaction]) with [k].
  fold ks. rewrite first_occurrences_snoc.
  destruct (in_dec string_dec k ks) as [Hin|Hnot].
  - assert (Hhas : JS.Map_has (expected_groups reactions) k = true).
    { unfold expected_groups. apply Map_has_keyed.
      now apply first_occurrences_In. }
    rewrite (groupReactions_step_known _ _ Hhas). unfold expected_groups. fold ks.
    rewrite (Map_mutate_keyed
               (fun k' => EmojiGroup.mk k' (users_of k' reactions)))
      by apply first_occurrences_NoDup.
    apply map_ext. intros k'. rewrite users_of_snoc. fold k.
    rewrite (String.eqb_sym k k').
    destruct (k' =? k); [reflexivity|]. now rewrite app_nil_r.
  - assert (Hhas : JS.Map_has (expected_groups reactions) k = false).
    { apply not_true_is_false. intros H. apply Hnot.
      unfold expected_groups in H. apply Map_has_keyed in H.
      exact (proj1 (first_occurrences_In _ _) H). }
    rewrite (groupReactions_step_fresh _ _ Hhas). rewrite map_app. simpl List.map.
    unfold expected_groups. fold ks. f_equal.
    + apply map_ext_in. intros k' Hk'.
      apply (proj1 (first_occurrences_In _ _)) in Hk'.
      rewrite users_of_snoc. fold k.
      destruct (String.eqb_spec k k') as [<-|_]; [contradiction|].
      now rewrite app_nil_r.
    + rewrite users_of_snoc. fold k. rewrite String.eqb_refl.
      now rewrite (users_of_absent k reactions Hnot).
Qed.

Lemma groupReactions_expected reactions :
  groupReactions reactions = expected_groups reactions.
Proof.
  induction reactions as [|reaction reactions IH] using rev_ind; [reflexivity|].
  unfold groupReactions in *. rewrite fold_left_app. simpl fold_left.
  rewrite IH. symmetry. apply expected_groups_snoc.
Qed.

Lemma total_users_app (a b : JS.Map EmojiGroup.t) :
  total_users (a ++ b)%list = (total_users a + total_users b)%nat.
Proof. unfold total_users. now rewrite map_app, list_sum_app. Qed.

Lemma total_users_mutate grouped k user :
  JS.Map_has grouped k = true ->
  total_users
    (JS.Map_mutate grouped k
       (fun g => EmojiGroup.mk (EmojiGroup.emoji g) (EmojiGroup.users g ++ [user])%list))
  = S (total_users grouped).
Proof.
  induction grouped as [|[k' g] grouped IH]; simpl; [discriminate|].
  destruct (k' =? k).
  - intros _. unfold total_users. simpl. rewrite length_app. simpl. lia.
  - intros H. unfold total_users in *. simpl. rewrite (IH H). lia.
Qed.

Lemma total_users_step grouped reaction :
  total_users (groupReactions_step grouped reaction) = S (total_users grouped).
Proof.
  destruct (JS.Map_has grouped (reactionEmoji reaction)) eqn:Hhas.
  - rewrite (groupReactions_step_known _ _ Hhas).
    now apply total_users_mutate.
  - rewrite (groupReactions_step_fresh _ _ Hhas), total_users_app.
    unfold total_users at 2. simpl. lia.
Qed.

Lemma total_users_fold reactions grouped :
  total_users (fold_left groupReactions_step reactions grouped) =
  (total_users grouped + List.length reactions)%nat.
Proof.
  revert grouped. induction reactions as [|r rs IH]; intros grouped; simpl.
  - lia.
  - rewrite IH, total_users_step. lia.
Qed.

Lemma or_chain (o p : option string) (d : string) :
  JS.or_else (JS.or_opt o p) d =
  match JS.nonEmpty o, JS.nonEmpty p with
  | Some u, _ => u
  | None, Some c => c
  | None, None => d
  end.
Proof.
  unfold JS.or_else, JS.or_opt, JS.truthy, JS.nonEmpty.
  destruct o as [u|]; [destruct (u =? "") eqn:Eu|]; simpl; rewrite ?Eu;
    destruct p as [c|]; try destruct (c =? "") eqn:Ec; simpl;
    rewrite ?Eu, ?Ec; reflexivity.
Qed.

Lemma group_lines (groups : JS.Map EmojiGroup.t) :
  flat_map (formatReactionsList_step []) groups = List.map group_line groups.
Proof.
  induction groups as [|[k g] groups IH]; simpl; [reflexivity|].
  now rewrite IH.
Qed.

End Grouping.

Section GroupingTheorem.
Context {platform : Platform}.
Import Formatters.

(** C10.  For a non-empty reaction list rendered in text mode, the groups
    computed by [formatReactionsList] are: one group per distinct emoji key
    (the unicode emoji when non-empty, else the custom-emoji uid when
    non-empty, else ["?"]), in the
    order in which the keys first occur in the input, each holding the
    users of exactly the reactions with that key.  The per-group user
    counts add up to the number of reactions, and the rendering has one
    line per group, in that order, after the header. *)
Theorem reaction_grouping (reactions : list Reaction.t) :
  reactions <> [] ->
  (forall reaction unicode uid,
     unicode = match Reaction.emoji reaction with
               | Some e => Emoji.unicode e
               | None => None
               end ->
     uid = match Reaction.emoji reaction with
           | Some (Emoji.mk _ (Some custom)) => CustomEmoji.uid custom
           | _ => None
           end ->
     reactionEmoji reaction =
     match JS.nonEmpty unicode, JS.nonEmpty uid with
     | Some u, _ => u
     | None, Some c => c
     | None, None => "?"
     end) /\
  List.map fst (groupReactions reactions) =
    first_occurrences (List.map reactionEmoji reactions) /\
  NoDup (List.map fst (groupReactions reactions)) /\
  (forall k g, In (k, g) (groupReactions reactions) ->
     EmojiGroup.emoji g = k /\ EmojiGroup.users g = users_of k reactions) /\
  total_users (groupReactions reactions) = List.length reactions /\
  (forall hasMore,
     formatReactionsList reactions MARKDOWN hasMore None =
     JS.join LF
       (("# Reactions (" ++ JS.Number_toString (Z.of_nat (List.length reactions))
         ++ " results)")
        :: "" :: List.map group_line (groupReactions reactions))).
Proof.
  intros Hne.
  assert (Hkeys : List.map fst (groupReactions reactions) =
                  first_occurrences (List.map reactionEmoji reactions)).
  { rewrite groupReactions_expected. unfold expected_groups.
    rewrite map_map. simpl. apply map_id. }
  refine (conj _ (conj Hkeys (conj _ (conj _ (conj _ _))))).
  - intros reaction unicode uid -> ->. unfold reactionEmoji.
    rewrite or_chain.
    destruct (Reaction.emoji reaction) as [[u [custom|]]|]; reflexivity.
  - rewrite Hkeys. apply first_occurrences_NoDup.
  - intros k g Hin. rewrite groupReactions_expected in Hin.
    unfold expected_groups in Hin. apply in_map_iff in Hin as (k' & Heq & _).
    inversion Heq; subst. split; reflexivity.
  - unfold groupReactions. rewrite total_users_fold. reflexivity.
  - intros hasMore. rewrite formatReactionsList_markdown by exact Hne.
    destruct (reactions_footer reactions) as (Hnone & _).
    rewrite Hnone. unfold reactions_body. now rewrite group_lines.
Qed.

End GroupingTheorem.

Example grouping_run :
  Formatters.formatReactionsList (platform := Reference.platform)
    Sample.reactions MARKDOWN false None =
  "# Reactions (5 results)" ++ LF ++ LF ++
  "- +1 (2): Alice, users/3" ++ LF ++
  "- <3 (1): Bob" ++ LF ++
  "- uid-7 (1): Bob" ++ LF ++
  "- ? (1): Unknown".
Proof. reflexivity. Qed.

Lemma reaction_grouping_witness :
  Sample.reactions <> [] /\
  List.map fst (Formatters.groupReactions Sample.reactions) = ["+1"; "<3"; "uid-7"; "?"] /\
  total_users (Formatters.groupReactions Sample.reactions) = 5%nat.
Proof.
  assert (Hne : Sample.reactions <> []) by discriminate.
  destruct (reaction_grouping (platform := Reference.platform) Sample.reactions Hne)
    as (_ & Hkeys & _ & _ & Htotal & _).
  refine (conj Hne (conj _ _)).
  - rewrite Hkeys. reflexivity.
  - rewrite Htotal. reflexivity.
Defined.

(* ================================================================== *)
(** * The error classifier *)
(* ================================================================== *)

Section Classifier.
Context {platform : Platform}.
Import ApiClient.

Lemma table_default status m :
  status <> 400%Z -> status <> 401%Z -> status <> 403%Z -> status <> 404%Z ->
  status <> 409%Z -> status <> 429%Z -> status <> 500%Z -> status <> 503%Z ->
  http_error_table status m =
  "Error: API request failed (" ++ Number_text status ++ ") - " ++ m.
Proof.
  intros H400 H401 H403 H404 H409 H429 H500 H503. unfold http_error_table.
  destruct status as [|p|p]; try reflexivity.
  do 10 (try match goal with
             | q : positive |- _ =>
               destruct q; try reflexivity; try congruence
             end).
Qed.

Lemma carries_default status :
  status <> 401%Z -> status <> 429%Z -> status <> 500%Z -> status <> 503%Z ->
  carries_upstream status = true.
Proof.
  intros H401 H429 H500 H503. unfold carries_upstream.
  apply Z.eqb_neq in H401, H429, H500, H503.
  now rewrite H401, H429, H500, H503.
Qed.

(** The classifier on an HTTP response: the table applied to the converted
    upstream message; when the conversion throws, so does the classifier
    for the statuses whose text carries the message. *)
Lemma handleApiError_http message code status data :
  handleApiError (AxiosError message code (Some (status, data))) =
  match ToString (upstreamMessage data) with
  | inr m => inr (http_error_table status m)
  | inl thrown =>
    if carries_upstream status then inl thrown else inr (http_error_table status "")
  end.
Proof.
  unfold handleApiError, template.
  destruct (Z.eqb_spec status 400) as [->|H400];
    [destruct (ToString (upstreamMessage data)); reflexivity|].
  destruct (Z.eqb_spec status 401) as [->|H401];
    [destruct (ToString (upstreamMessage data)); reflexivity|].
  destruct (Z.eqb_spec status 403) as [->|H403];
    [destruct (ToString (upstreamMessage data)); reflexivity|].
  destruct (Z.eqb_spec status 404) as [->|H404];
    [destruct (ToString (upstreamMessage data)); reflexivity|].
  destruct (Z.eqb_spec status 409) as [->|H409];
    [destruct (ToString (upstreamMessage data)); reflexivity|].
  destruct (Z.eqb_spec status 429) as [->|H429];
    [destruct (ToString (upstreamMessage data)); reflexivity|].
  destruct (Z.eqb_spec status 500) as [->|H500];
    [destruct (ToString (upstreamMessage data)); reflexivity|].
  destruct (Z.eqb_spec status 503) as [->|H503];
    [destruct (ToString (upstreamMessage data)); reflexivity|].
  rewrite carries_default by assumption.
  destruct (ToString (upstreamMessage data)) as [thrown|m]; [reflexivity|].
  rewrite table_default by assumption. now rewrite append_nil_r, !append_assoc.
Qed.

Lemma table_carries status m :
  carries_upstream status = true -> occursIn m (http_error_table status m).
Proof.
  intros Hc.
  destruct (Z.eqb_spec status 400) as [->|H400]; [eexists _, _; reflexivity|].
  destruct (Z.eqb_spec status 401) as [->|H401]; [discriminate|].
  destruct (Z.eqb_spec status 403) as [->|H403]; [eexists _, _; reflexivity|].
  destruct (Z.eqb_spec status 404) as [->|H404]; [eexists _, _; reflexivity|].
  destruct (Z.eqb_spec status 409) as [->|H409]; [eexists _, _; reflexivity|].
  destruct (Z.eqb_spec status 429) as [->|H429]; [discriminate|].
  destruct (Z.eqb_spec status 500) as [->|H500]; [discriminate|].
  destruct (Z.eqb_spec status 503) as [->|H503]; [discriminate|].
  rewrite table_default by assumption.
  exists ("Error: API request failed (" ++ Number_text status ++ ") - "), "".
  rewrite append_nil_r, !append_assoc. reflexivity.
Qed.

Lemma table_omits status m m' :
  carries_upstream status = false ->
  http_error_table status m = http_error_table status m'.
Proof.
  unfold carries_upstream. rewrite negb_false_iff, !orb_true_iff, !Z.eqb_eq.
  intros [[[->| ->]| ->]| ->]; reflexivity.
Qed.

Lemma ToString_throws (v : JS.Value) (thrown : Thrown) :
  ToString v = inl thrown -> thrown = ToPrimitive_TypeError.
Proof.
  unfold ToString. destruct (JS.toString Number_toExponent v); congruence.
Qed.

(** The classifier throws only what a conversion throws, and only on the
    value that its text takes in. *)
Lemma handleApiError_throws (e thrown : Thrown) :
  handleApiError e = inl thrown ->
  thrown = ToPrimitive_TypeError /\
  exists v, shown_value e = Some v /\ ToString v = inl thrown.
Proof.
  destruct e as [message code [[status data]|]|message|v].
  - rewrite handleApiError_http. simpl shown_value.
    destruct (ToString (upstreamMessage data)) as [t|m] eqn:Hconv; [|discriminate].
    destruct (carries_upstream status); [|discriminate].
    intros [= <-]. split; [eapply ToString_throws; eassumption|].
    now exists (upstreamMessage data).
  - unfold handleApiError. destruct code as [c|]; [|discriminate].
    destruct (c =? "ECONNABORTED"); [discriminate|].
    destruct ((c =? "ENOTFOUND") || (c =? "ECONNREFUSED")); discriminate.
  - discriminate.
  - unfold handleApiError, template. simpl shown_value.
    destruct (ToString v) as [t|s] eqn:Hconv; [|discriminate].
    intros [= <-]. split; [eapply ToString_throws; eassumption|].
    now exists v.
Qed.

End Classifier.

Section ClassifierTheorem.
Context {platform : Platform}.
Import ApiClient.

(** C1 (as amended).  [handleApiError] returns a display string for every
    thrown value whose text takes in no value or one that converts to a
    string; a string converts to itself.  An HTTP response is classified
    by the decision table on its status: 400, 403, 404, 409 and every
    status outside the table carry the upstream message (the latter also
    the status code), while 401, 429, 500 and 503 do not depend on it.
    Without a response, the code [ECONNABORTED] gives the timeout message,
    [ENOTFOUND] and [ECONNREFUSED] give the network message, and
    everything else, whether an axios error, another error or a thrown
    non-error value, gives the unexpected-error message with the raw
    message.  The upstream message is the nested [error.message] field
    when that is truthy, else the top-level [message] field when that is
    truthy, else the literal ["Unknown error"]. *)
Theorem error_classification :
  (forall message code status data m,
     ToString (upstreamMessage data) = inr m ->
     handleApiError (AxiosError message code (Some (status, data))) =
     inr (http_error_table status m)) /\
  (forall status m,
     carries_upstream status = true -> occursIn m (http_error_table status m)) /\
  (forall status m m',
     carries_upstream status = false ->
     http_error_table status m = http_error_table status m') /\
  (forall message code status data m,
     carries_upstream status = false ->
     handleApiError (AxiosError message code (Some (status, data))) =
     inr (http_error_table status m)) /\
  (forall status m,
     ~ In status [400; 401; 403; 404; 409; 429; 500; 503]%Z ->
     http_error_table status m =
     "Error: API request failed (" ++ Number_text status ++ ") - " ++ m) /\
  (forall message,
     handleApiError (AxiosError message (Some "ECONNABORTED") None)
     = inr timeout_message) /\
  (forall message,
     handleApiError (AxiosError message (Some "ENOTFOUND") None)
     = inr network_message) /\
  (forall message,
     handleApiError (AxiosError message (Some "ECONNREFUSED") None)
     = inr network_message) /\
  (forall message code,
     known_transport_code code = false ->
     handleApiError (AxiosError message code None) = inr (unexpected_message message)) /\
  (forall message, handleApiError (Error message) = inr (unexpected_message message)) /\
  (forall v raw,
     ToString v = inr raw ->
     handleApiError (NonError v) = inr (unexpected_message raw)) /\
  (forall data,
     let nested := JS.prop (JS.prop data "error") "message" in
     let top := JS.prop data "message" in
     (JS.truthyV nested = true -> upstreamMessage data = nested) /\
     (JS.truthyV nested = false -> JS.truthyV top = true ->
      upstreamMessage data = top) /\
     (JS.truthyV nested = false -> JS.truthyV top = false ->
      upstreamMessage data = JS.VStr "Unknown error")) /\
  (forall s, ToString (JS.VStr s) = inr s) /\
  (forall e,
     (forall v, shown_value e = Some v -> exists s, ToString v = inr s) ->
     exists text, handleApiError e = inr text).
Proof.
  refine (conj _ (conj _ (conj _ (conj _ (conj _ (conj _ (conj _
            (conj _ (conj _ (conj _ (conj _ (conj _ (conj _ _)))))))))))));
    try reflexivity.
  - intros message code status data m Hconv.
    now rewrite handleApiError_http, Hconv.
  - apply table_carries.
  - apply table_omits.
  - intros message code status data m Hc. rewrite handleApiError_http, Hc.
    destruct (ToString (upstreamMessage data)) as [thrown|m'];
      f_equal; now apply table_omits.
  - intros status m Hnot. simpl in Hnot. apply table_default; intros ->; tauto.
  - intros message [c|] Hcode; [|reflexivity].
    unfold known_transport_code in Hcode.
    apply orb_false_iff in Hcode as [Hcode Hrefused].
    apply orb_false_iff in Hcode as [Haborted Hnotfound].
    unfold handleApiError. now rewrite Haborted, Hnotfound, Hrefused.
  - intros v raw Hconv. unfold handleApiError, template, unexpected_message.
    now rewrite Hconv, append_nil_r.
  - intros data nested top. unfold upstreamMessage, JS.orV. fold nested. fold top.
    refine (conj _ (conj _ _)).
    + intros ->. reflexivity.
    + intros -> ->. reflexivity.
    + intros -> ->. reflexivity.
  - intros e Hshown.
    destruct (handleApiError e) as [thrown|text] eqn:Hrun; [|now exists text].
    apply handleApiError_throws in Hrun as (_ & v & Hv & Hconv).
    destruct (Hshown v Hv) as (s & Hs). congruence.
Qed.

End ClassifierTheorem.

Lemma error_classification_witness :
  carries_upstream 404 = true /\
  occursIn "Space not found"
    (http_error_table (platform := Reference.platform) 404 "Space not found") /\
  ApiClient.handleApiError (platform := Reference.platform)
    (AxiosError "Request failed with status code 404" (Some "ERR_BAD_REQUEST")
       (Some (404%Z, JS.VObj [("error", JS.VObj [("message", JS.VStr "Space not found")])])))
  = inr "Error: Resource not found - Space not found. Check that the space/message/member ID is correct.".
Proof.
  destruct (error_classification (platform := Reference.platform))
    as (Hhttp & Hcarries & _).
  refine (conj eq_refl (conj (Hcarries 404%Z "Space not found" eq_refl) _)).
  exact (Hhttp "Request failed with status code 404" (Some "ERR_BAD_REQUEST") 404%Z
           (JS.VObj [("error", JS.VObj [("message", JS.VStr "Space not found")])])
           "Space not found" eq_refl).
Defined.

(** C1 (as stated) fails in three places.  A nested [error.message] field
    that is present but empty is passed over in favour of the top-level
    [message] field.  A timeout that the transport reports with the code
    [ETIMEDOUT] gets the unexpected-error text, not the timeout message,
    and so does a failed name lookup reported with [EAI_AGAIN], not the
    network message.  And the classifier is not total: on a response whose
    upstream message is an object with an own [toString] property it
    throws. *)
Lemma empty_nested_message_passed_over :
  JS.prop (JS.prop body_with_empty_nested_message "error") "message" = JS.VStr "" /\
  ApiClient.upstreamMessage body_with_empty_nested_message <>
    JS.prop (JS.prop body_with_empty_nested_message "error") "message" /\
  ApiClient.handleApiError (platform := Reference.platform)
    (AxiosError "Request failed with status code 403" (Some "ERR_BAD_REQUEST")
       (Some (403%Z, body_with_empty_nested_message)))
  = inr "Error: Permission denied - Quota exceeded. Ensure the app has the required Chat API scopes." /\
  ApiClient.handleApiError (platform := Reference.platform)
    (AxiosError "connect ETIMEDOUT 142.250.1.1:443" (Some "ETIMEDOUT") None)
  = inr "Error: Unexpected error - connect ETIMEDOUT 142.250.1.1:443" /\
  "Error: Unexpected error - connect ETIMEDOUT 142.250.1.1:443" <> timeout_message /\
  ApiClient.handleApiError (platform := Reference.platform)
    (AxiosError "getaddrinfo EAI_AGAIN chat.googleapis.com" (Some "EAI_AGAIN") None)
  = inr "Error: Unexpected error - getaddrinfo EAI_AGAIN chat.googleapis.com" /\
  "Error: Unexpected error - getaddrinfo EAI_AGAIN chat.googleapis.com"
    <> network_message /\
  ApiClient.handleApiError (platform := Reference.platform)
    (AxiosError "Request failed with status code 400" (Some "ERR_BAD_REQUEST")
       (Some (400%Z, body_with_unprintable_message)))
  = inl ToPrimitive_TypeError.
Proof.
  refine (conj eq_refl (conj _ (conj eq_refl (conj eq_refl (conj _
            (conj eq_refl (conj _ eq_refl))))))).
  - vm_compute. discriminate.
  - discriminate.
  - discriminate.
Qed.

(* ================================================================== *)
(** * Credential resolution *)
(* ================================================================== *)

Section Credentials.
Context {platform : Platform}.
Import ApiClient.

Lemma nonEmpty_truthy (o : option string) (s : string) :
  JS.nonEmpty o = Some s -> JS.truthy o = true.
Proof.
  destruct o as [x|]; simpl; [|discriminate].
  destruct (x =? ""); [discriminate | reflexivity].
Qed.

Lemma nonEmpty_falsy (o : option string) :
  JS.nonEmpty o = None <-> JS.truthy o = false.
Proof.
  destruct o as [x|]; simpl; [|tauto].
  destruct (x =? ""); simpl; split; congruence.
Qed.

(** C5 (as amended).  [initializeApiClient] by cases on the three sources,
    a source being present when it is set to a non-empty string.
    - An inline payload that parses selects service-account authentication
      with that payload as credentials, whether or not the path and the
      token are present.
    - An inline payload that does not parse makes initialization fail with
      the invalid-payload error, whether or not the path is present, and
      leaves the module state as it was.
    - With no inline payload, a path selects service-account
      authentication without explicit credentials.
    - With neither, a bearer token selects the OAuth client holding it.
    - With none of the three, initialization fails with the error that
      names all three options, which differs from the invalid-payload one,
      and leaves the module state as it was. *)
Theorem credential_resolution (host : Host) (st : State) :
  let path := GOOGLE_APPLICATION_CREDENTIALS (env host) in
  let payload := GOOGLE_SERVICE_ACCOUNT_JSON (env host) in
  let token := GOOGLE_OAUTH_TOKEN (env host) in
  (forall json parsed,
     JS.nonEmpty payload = Some json -> JSON_parse json = Some parsed ->
     initializeApiClient host st =
       (inr tt, initialized st (GoogleAuth (mkAuthOptions CHAT_SCOPES (Some parsed)))))
  /\
  (forall json,
     JS.nonEmpty payload = Some json -> JSON_parse json = None ->
     initializeApiClient host st = (inl (Error invalid_payload_message), st))
  /\
  (JS.truthy payload = false -> JS.truthy path = true ->
     initializeApiClient host st =
       (inr tt, initialized st (GoogleAuth (mkAuthOptions CHAT_SCOPES None))))
  /\
  (JS.truthy payload = false -> JS.truthy path = false -> JS.truthy token = true ->
     initializeApiClient host st = (inr tt, initialized st (OAuth2Client token)))
  /\
  (JS.truthy payload = false -> JS.truthy path = false -> JS.truthy token = false ->
     initializeApiClient host st = (inl (Error missing_credentials_message), st))
  /\
  (occursIn "GOOGLE_APPLICATION_CREDENTIALS" missing_credentials_message /\
   occursIn "GOOGLE_SERVICE_ACCOUNT_JSON" missing_credentials_message /\
   occursIn "GOOGLE_OAUTH_TOKEN" missing_credentials_message /\
   missing_credentials_message <> invalid_payload_message).
Proof.
  intros path payload token.
  refine (conj _ (conj _ (conj _ (conj _ (conj _ _))))).
  - intros json parsed Hjson Hparse.
    unfold initializeApiClient, bind. cbv zeta. fold path payload token.
    rewrite (nonEmpty_truthy _ _ Hjson), orb_true_r, Hjson, Hparse.
    destruct st; reflexivity.
  - intros json Hjson Hparse.
    unfold initializeApiClient, bind. cbv zeta. fold path payload token.
    rewrite (nonEmpty_truthy _ _ Hjson), orb_true_r, Hjson, Hparse.
    reflexivity.
  - intros Hpayload Hpath.
    unfold initializeApiClient, bind. cbv zeta. fold path payload token.
    rewrite Hpath, Hpayload. simpl orb. cbv iota.
    rewrite (proj2 (nonEmpty_falsy payload) Hpayload).
    destruct st; reflexivity.
  - intros Hpayload Hpath Htoken.
    unfold initializeApiClient, bind. cbv zeta. fold path payload token.
    rewrite Hpath, Hpayload, Htoken. destruct st; reflexivity.
  - intros Hpayload Hpath Htoken.
    unfold initializeApiClient, bind. cbv zeta. fold path payload token.
    rewrite Hpath, Hpayload, Htoken. reflexivity.
  - refine (conj _ (conj _ (conj _ _))).
    + exists ("Authentication required. Set one of:" ++ LF ++ "  - ").
      eexists. reflexivity.
    + exists ("Authentication required. Set one of:" ++ LF ++
              "  - GOOGLE_APPLICATION_CREDENTIALS: Path to service account JSON file"
              ++ LF ++ "  - ").
      eexists. reflexivity.
    + exists ("Authentication required. Set one of:" ++ LF ++
              "  - GOOGLE_APPLICATION_CREDENTIALS: Path to service account JSON file"
              ++ LF ++
              "  - GOOGLE_SERVICE_ACCOUNT_JSON: Service account JSON as a string"
              ++ LF ++ "  - ").
      eexists. reflexivity.
    + discriminate.
Qed.

End Credentials.

Lemma credential_resolution_witness :
  JS.truthy (ApiClient.GOOGLE_SERVICE_ACCOUNT_JSON (ApiClient.env SampleHosts.tokenOnly))
    = false /\
  JS.truthy (ApiClient.GOOGLE_APPLICATION_CREDENTIALS (ApiClient.env SampleHosts.tokenOnly))
    = false /\
  JS.truthy (ApiClient.GOOGLE_OAUTH_TOKEN (ApiClient.env SampleHosts.tokenOnly)) = true /\
  ApiClient.initializeApiClient (platform := Reference.platform)
    SampleHosts.tokenOnly SampleHosts.fresh =
  (inr tt, initialized SampleHosts.fresh (ApiClient.OAuth2Client (Some "ya29.token"))).
Proof.
  destruct (credential_resolution (platform := Reference.platform)
              SampleHosts.tokenOnly SampleHosts.fresh)
    as (_ & _ & _ & Htoken & _).
  refine (conj eq_refl (conj eq_refl (conj eq_refl _))).
  exact (Htoken eq_refl eq_refl eq_refl).
Defined.

(** C5 (as stated) fails on the order of the two service-account sources.
    With both the path and an inline payload present, the documented order
    gives the path, but the client is built from the inline payload; and
    with the path present and an inline payload that does not parse,
    initialization fails although the higher-priority source is there. *)
Lemma inline_payload_takes_precedence :
  documented_priority (ApiClient.env SampleHosts.pathAndPayload)
    = Some ServiceAccountPath /\
  option_map strategy_of
    (ApiClient.authClient
       (snd (ApiClient.initializeApiClient (platform := Reference.platform)
               SampleHosts.pathAndPayload SampleHosts.fresh)))
    <> documented_priority (ApiClient.env SampleHosts.pathAndPayload) /\
  documented_priority (ApiClient.env SampleHosts.pathAndBrokenPayload)
    = Some ServiceAccountPath /\
  fst (ApiClient.initializeApiClient (platform := Reference.platform)
         SampleHosts.pathAndBrokenPayload SampleHosts.fresh)
    = inl (Error invalid_payload_message).
Proof.
  refine (conj eq_refl (conj _ (conj eq_refl eq_refl))).
  vm_compute. discriminate.
Qed.

(** Resolution on the other sample hosts. *)
Example path_only_resolution :
  option_map strategy_of
    (ApiClient.authClient
       (snd (ApiClient.initializeApiClient (platform := Reference.platform)
               SampleHosts.pathOnly SampleHosts.fresh)))
  = Some ServiceAccountPath.
Proof. reflexivity. Qed.

Example no_source_resolution :
  ApiClient.initializeApiClient (platform := Reference.platform)
    SampleHosts.nothing SampleHosts.fresh
  = (inl (Error missing_credentials_message), SampleHosts.fresh).
Proof. reflexivity. Qed.

(* ================================================================== *)
(** * Failures at the tool boundary *)
(* ================================================================== *)

Section Boundary.
Context {platform : Platform} (host : ApiClient.Host).
Import ApiClient Tools.
Local Open Scope api_scope.

Lemma guarded_request {T} (http : WireRequest -> Completion T)
    endpoint method data params
    (text : T -> string) (structured : T -> Structured) st :
  boundary_converts host http
    (try_catch
       (bind (makeApiRequest host http endpoint method data params)
             (fun response => ret (okResult (text response) (structured response))))
       (fun error => text <- complete (handleApiError error) ;; ret (errorResult text)))
    st.
Proof.
  exists endpoint, method, data, params.
  unfold try_catch, bind, ret, complete, failure_outcome.
  destruct (makeApiRequest host http endpoint method data params st)
    as [[e|response] st'].
  - destruct (handleApiError e); reflexivity.
  - eexists _, _. reflexivity.
Qed.

Lemma updateSpace_mask_empty params :
  updateSpace_mask params = [] <->
  JS.truthy (UpdateSpaceInput.displayName params) = false /\
  UpdateSpaceInput.description params = None /\
  UpdateSpaceInput.guidelines params = None.
Proof.
  unfold updateSpace_mask, JS.push.
  destruct (JS.truthy (UpdateSpaceInput.displayName params));
    destruct (UpdateSpaceInput.description params);
    destruct (UpdateSpaceInput.guidelines params); simpl;
    split; try discriminate; try tauto;
    intros (H1 & H2 & H3); discriminate.
Qed.

Lemma update_space_without_fields (http : WireRequest -> Completion Space.t) params st :
  updateSpace_mask params = [] ->
  google_chat_update_space host http params st = (inr (errorResult no_field_message), st).
Proof.
  intros Hmask. unfold google_chat_update_space, try_catch. cbv zeta.
  rewrite Hmask. reflexivity.
Qed.

Lemma update_space_with_fields (http : WireRequest -> Completion Space.t) params st :
  updateSpace_mask params <> [] ->
  boundary_converts host http (google_chat_update_space host http params) st.
Proof.
  intros Hmask. unfold google_chat_update_space. cbv zeta.
  rewrite (nonempty_length_nonzero _ Hmask).
  eapply guarded_request.
Qed.

(** An invocation is the rejected update, or it converts the outcome of
    one dispatcher call. *)
Lemma invoke_shape (call : Call)
    (http : WireRequest -> Completion (ResponseOf call)) (st : State) :
  ((exists p, call = update_space p /\ updateSpace_mask p = []) /\
   invoke host call http st = (inr (errorResult no_field_message), st)) \/
  ((forall p, call = update_space p -> updateSpace_mask p <> []) /\
   boundary_converts host http (invoke host call http) st).
Proof.
  destruct call as [p|p|p|p|p|p|p|p|p|p|p|p|p|p|p|p|p|p|p|p|p]; simpl in http |- *;
    try (right; split; [intros q Hq; discriminate Hq | eapply guarded_request]).
  destruct (list_eq_dec string_dec (updateSpace_mask p) []) as [Hmask|Hmask].
  - left. split; [now exists p | now apply update_space_without_fields].
  - right. split; [|now apply update_space_with_fields].
    intros q Hq. injection Hq as <-. exact Hmask.
Qed.

(** C8.  What a tool invocation makes of a failure, with whatever module
    state and remote end it runs.  The update-space tool with an empty
    field mask returns the failure result with the fixed message.  Every
    other invocation goes through the dispatcher once; when that throws an
    error [e], the [catch] block returns the failure result made of the
    classified text of [e] alone, unless the classifier throws on [e].
    Every returned failure result is text only.  An invocation throws
    nothing but the [TypeError] of the classifier, and only when the
    dispatcher threw an error that the classifier cannot render. *)
Theorem failures_are_returned (call : Call)
    (http : WireRequest -> Completion (ResponseOf call)) (st : State) :
  (forall p, call = update_space p -> updateSpace_mask p = [] ->
     invoke host call http st = (inr (errorResult no_field_message), st)) /\
  ((forall p, call = update_space p -> updateSpace_mask p <> []) ->
     boundary_converts host http (invoke host call http) st) /\
  (forall result st',
     invoke host call http st = (inr result, st') -> text_only_failure result) /\
  (forall thrown st',
     invoke host call http st = (inl thrown, st') ->
     thrown = ToPrimitive_TypeError /\
     exists endpoint method data params e,
       makeApiRequest host http endpoint method data params st = (inl e, st') /\
       handleApiError e = inl thrown).
Proof.
  destruct (invoke_shape call http st)
    as [((p & Hcall & Hmask) & Hrun)
       |(Hfields & endpoint & method & data & params & Hrun)].
  - refine (conj (fun _ _ _ => Hrun) (conj _ (conj _ _))).
    + intros Hnot. destruct (Hnot p Hcall Hmask).
    + intros result st'. rewrite Hrun. intros [= <- <-] _.
      split; [reflexivity | eexists; reflexivity].
    + intros thrown st'. rewrite Hrun. discriminate.
  - refine (conj _ (conj _ (conj _ _))).
    + intros p Hcall Hmask. destruct (Hfields p Hcall Hmask).
    + intros _. now exists endpoint, method, data, params.
    + intros result st1 Hresult.
      destruct (makeApiRequest host http endpoint method data params st)
        as [[e|response] st'].
      * rewrite Hrun in Hresult. unfold failure_outcome in Hresult.
        destruct (handleApiError e) as [thrown|text]; [discriminate|].
        injection Hresult as <- <-. intros _.
        split; [reflexivity | eexists; reflexivity].
      * destruct Hrun as (text & structured & Hrun). rewrite Hrun in Hresult.
        injection Hresult as <- <-. intros Herr. discriminate.
    + intros thrown st1 Hthrown.
      destruct (makeApiRequest host http endpoint method data params st)
        as [[e|response] st'] eqn:Hrequest.
      * rewrite Hrun in Hthrown. unfold failure_outcome in Hthrown.
        destruct (handleApiError e) as [t|text] eqn:Hclass; [|discriminate].
        injection Hthrown as <- <-.
        split; [exact (proj1 (handleApiError_throws e t Hclass))|].
        exists endpoint, method, data, params, e. now split.
      * destruct Hrun as (text & structured & Hrun). rewrite Hrun in Hthrown.
        discriminate.
Qed.

(** C9.  When none of [displayName], [description] and [guidelines] is
    supplied the computed field mask is empty, and with an empty field
    mask the update-space handler returns the failure result with the
    message [Error: At least one field must be provided to update.] and
    leaves the module state, and with it the log of issued requests,
    untouched: no HTTP request goes out. *)
Theorem update_space_needs_a_field
    (http : WireRequest -> Completion Space.t) (params : UpdateSpaceInput.t)
    (st : State) :
  UpdateSpaceInput.displayName params = None ->
  UpdateSpaceInput.description params = None ->
  UpdateSpaceInput.guidelines params = None ->
  updateSpace_mask params = [] /\
  google_chat_update_space host http params st =
    (inr (errorResult no_field_message), st) /\
  outbound (snd (google_chat_update_space host http params st)) = outbound st.
Proof.
  intros Hname Hdesc Hguide.
  assert (Hmask : updateSpace_mask params = []).
  { apply updateSpace_mask_empty. rewrite Hname. auto. }
  rewrite (update_space_without_fields http params st Hmask).
  auto.
Qed.

End Boundary.

Lemma update_space_needs_a_field_witness :
  UpdateSpaceInput.displayName SampleHosts.emptyUpdate = None /\
  UpdateSpaceInput.description SampleHosts.emptyUpdate = None /\
  UpdateSpaceInput.guidelines SampleHosts.emptyUpdate = None /\
  Tools.google_chat_update_space (platform := Reference.platform)
    SampleHosts.tokenOnly notFound SampleHosts.emptyUpdate SampleHosts.fresh =
  (inr (Tools.errorResult no_field_message), SampleHosts.fresh).
Proof.
  refine (conj eq_refl (conj eq_refl (conj eq_refl _))).
  exact (proj1 (proj2
    (update_space_needs_a_field (platform := Reference.platform)
       SampleHosts.tokenOnly notFound SampleHosts.emptyUpdate SampleHosts.fresh
       eq_refl eq_refl eq_refl))).
Defined.

(** The failure that is not returned: the remote end answers 400 with a
    body whose message is an object with an own [toString] property, the
    classifier throws inside the [catch] block, and so does the handler. *)
Lemma failures_are_returned_witness :
  Tools.invoke (platform := Reference.platform) SampleHosts.tokenOnly
    (Tools.get_space (GetSpaceInput.mk "spaces/AAAA" MARKDOWN)) unprintable400
    SampleHosts.fresh =
  (inl ToPrimitive_TypeError,
   ApiClient.mkState (Some installed_client)
     (Some (ApiClient.OAuth2Client (Some "ya29.token")))
     [ApiClient.mkWire ApiClient.GET "spaces/AAAA" JS.VUndefined None
        "Bearer ya29.token"]) /\
  exists endpoint method data params e,
    ApiClient.makeApiRequest (platform := Reference.platform) SampleHosts.tokenOnly
      (@unprintable400 Space.t) endpoint method data params SampleHosts.fresh =
    (inl e,
     ApiClient.mkState (Some installed_client)
       (Some (ApiClient.OAuth2Client (Some "ya29.token")))
       [ApiClient.mkWire ApiClient.GET "spaces/AAAA" JS.VUndefined None
          "Bearer ya29.token"]) /\
    ApiClient.handleApiError (platform := Reference.platform) e
    = inl ToPrimitive_TypeError.
Proof.
  split; [reflexivity|].
  destruct (failures_are_returned (platform := Reference.platform)
              SampleHosts.tokenOnly
              (Tools.get_space (GetSpaceInput.mk "spaces/AAAA" MARKDOWN))
              unprintable400 SampleHosts.fresh) as (_ & _ & _ & Hthrown).
  exact (proj2 (Hthrown ToPrimitive_TypeError _ eq_refl)).
Defined.

(** A failing call on a fresh process: the client is initialized, the
    request goes out with the bearer token, the remote end answers 404 and
    the handler returns the classified text. *)
Example failing_get_space :
  Tools.invoke (platform := Reference.platform) SampleHosts.tokenOnly
    (Tools.get_space (GetSpaceInput.mk "spaces/AAAA" MARKDOWN)) notFound
    SampleHosts.fresh =
  (inr (Tools.errorResult
          "Error: Resource not found - Space not found. Check that the space/message/member ID is correct."),
   ApiClient.mkState (Some installed_client)
     (Some (ApiClient.OAuth2Client (Some "ya29.token")))
     [ApiClient.mkWire ApiClient.GET "spaces/AAAA" JS.VUndefined None
        "Bearer ya29.token"]).
Proof. reflexivity. Qed.

(** A failing call when no credential source is configured: nothing goes
    out and the handler returns the classified configuration error. *)
Example failing_without_credentials :
  Tools.invoke (platform := Reference.platform) SampleHosts.nothing
    (Tools.delete_space (DeleteSpaceInput.mk "spaces/AAAA")) notFound
    SampleHosts.fresh =
  (inr (Tools.errorResult ("Error: Unexpected error - " ++ missing_credentials_message)),
   SampleHosts.fresh).
Proof. reflexivity. Qed.

(* ================================================================== *)
(** * Further properties: the dispatcher *)
(* ================================================================== *)

Section Dispatcher.
Context {platform : Platform}.
Import ApiClient.

Lemma nonEmpty_not_empty (o : option string) (s : string) :
  JS.nonEmpty o = Some s -> s <> "".
Proof.
  destruct o as [x|]; simpl; [|discriminate].
  destruct (String.eqb_spec x ""); [discriminate|]. congruence.
Qed.

Lemma truthy_nonEmpty (o : option string) :
  JS.truthy o = true -> exists s, JS.nonEmpty o = Some s /\ o = Some s.
Proof.
  destruct o as [x|]; simpl; [|discriminate].
  destruct (x =? ""); [discriminate|]. intros _. now exists x.
Qed.

(** Initialization either throws one of its two errors and leaves the
    state alone, or installs the HTTP client together with a usable auth
    client. *)
Lemma initializeApiClient_outcome (host : Host) (st : State) :
  (exists e,
     initializeApiClient host st = (inl e, st) /\
     (e = Error invalid_payload_message \/ e = Error missing_credentials_message)) \/
  (exists client,
     initializeApiClient host st = (inr tt, initialized st client) /\ usable client).
Proof.
  unfold initializeApiClient, bind. cbv zeta.
  destruct (JS.truthy (GOOGLE_APPLICATION_CREDENTIALS (env host))) eqn:Hpath;
    destruct (JS.truthy (GOOGLE_SERVICE_ACCOUNT_JSON (env host))) eqn:Hjson;
    simpl orb; cbv iota.
  - apply truthy_nonEmpty in Hjson as (json & -> & _).
    destruct (JSON_parse json) as [parsed|].
    + right. eexists. split; [destruct st; reflexivity | reflexivity].
    + left. eexists. split; [reflexivity | now left].
  - rewrite (proj2 (nonEmpty_falsy _) Hjson).
    right. eexists. split; [destruct st; reflexivity | reflexivity].
  - apply truthy_nonEmpty in Hjson as (json & -> & _).
    destruct (JSON_parse json) as [parsed|].
    + right. eexists. split; [destruct st; reflexivity | reflexivity].
    + left. eexists. split; [reflexivity | now left].
  - destruct (JS.truthy (GOOGLE_OAUTH_TOKEN (env host))) eqn:Htoken.
    + right. eexists. split; [destruct st; reflexivity | exact Htoken].
    + left. eexists. split; [reflexivity | now right].
Qed.

(** Asking for a token never changes the state; it yields a non-empty
    token or throws. *)
Lemma getAccessToken_outcome (host : Host) (st : State) :
  (exists e, getAccessToken host st = (inl e, st)) \/
  (exists token, token <> "" /\ getAccessToken host st = (inr token, st)).
Proof.
  unfold getAccessToken, bind, get. cbv zeta.
  destruct (authClient st) as [[options|access_token]|].
  - destruct (exchange host options) as [e|tokenResponse].
    + left. eexists. reflexivity.
    + destruct (JS.nonEmpty tokenResponse) as [token|] eqn:E.
      * right. exists token. split; [eapply nonEmpty_not_empty; eassumption | reflexivity].
      * left. eexists. reflexivity.
  - destruct (JS.nonEmpty access_token) as [token|] eqn:E.
    + right. exists token. split; [eapply nonEmpty_not_empty; eassumption | reflexivity].
    + left. eexists. reflexivity.
  - left. eexists. reflexivity.
Qed.

(** The dispatcher, step by step. *)
Lemma makeApiRequest_unfold {T} (host : Host) (http : WireRequest -> Completion T)
    endpoint method data params (st : State) :
  makeApiRequest host http endpoint method data params st =
  let after st1 :=
    match getAccessToken host st1 with
    | (inr token, st2) =>
      send http (mkWire method endpoint data params ("Bearer " ++ token)) st2
    | (inl e, st2) => (inl e, st2)
    end in
  match apiClient st with
  | None =>
    match initializeApiClient host st with
    | (inr _, st1) => after st1
    | (inl e, st1) => (inl e, st1)
    end
  | Some _ => after st
  end.
Proof.
  unfold makeApiRequest, bind, get. cbv zeta.
  destruct (apiClient st); [reflexivity|].
  destruct (initializeApiClient host st) as [[e|[]] st1]; reflexivity.
Qed.

End Dispatcher.

Section DispatcherProperties.
Context {platform : Platform}.
Import ApiClient.

(** The log of issued requests after a dispatcher call. *)
Lemma makeApiRequest_log {T} (host : Host)
    (http : WireRequest -> Completion T) endpoint method data params (st : State) :
  (exists e,
     makeApiRequest host http endpoint method data params st =
       (inl e, snd (makeApiRequest host http endpoint method data params st)) /\
     outbound (snd (makeApiRequest host http endpoint method data params st))
       = outbound st) \/
  (exists token,
     token <> "" /\
     outbound (snd (makeApiRequest host http endpoint method data params st)) =
       (outbound st ++ [wire_of endpoint method data params token])%list /\
     fst (makeApiRequest host http endpoint method data params st) =
       http (wire_of endpoint method data params token)).
Proof.
  rewrite makeApiRequest_unfold. cbv zeta.
  assert (Hafter : forall st1, outbound st1 = outbound st ->
    let out := match getAccessToken host st1 with
               | (inr token, st2) =>
                 send http (mkWire method endpoint data params ("Bearer " ++ token)) st2
               | (inl e, st2) => (inl e, st2)
               end in
    (exists e, out = (inl e, snd out) /\ outbound (snd out) = outbound st) \/
    (exists token,
       token <> "" /\
       outbound (snd out) =
         (outbound st ++ [wire_of endpoint method data params token])%list /\
       fst out = http (wire_of endpoint method data params token))).
  { intros st1 Hlog. cbv zeta.
    destruct (getAccessToken_outcome host st1) as [(e & ->)|(token & Hne & ->)].
    - left. exists e. now split.
    - right. exists token. unfold send, JS.push, wire_of. simpl.
      rewrite Hlog. auto. }
  destruct (apiClient st).
  - now apply Hafter.
  - destruct (initializeApiClient_outcome host st) as [(e & -> & _)|(client & -> & _)].
    + left. exists e. now split.
    + now apply Hafter.
Qed.

(** X1.  A call of [makeApiRequest] puts at most one request on the wire.
    Either it throws and the log of issued requests is as before, or it
    issues exactly one request, which carries the arguments of the call
    unchanged and an [Authorization] header made of ["Bearer "] and a
    non-empty token, and its outcome is the answer of the remote end to
    that request. *)
Theorem single_authorised_request {T} (host : Host)
    (http : WireRequest -> Completion T) endpoint method data params (st : State) :
  let out := makeApiRequest host http endpoint method data params st in
  (exists e, fst out = inl e /\ outbound (snd out) = outbound st) \/
  (exists token,
     token <> "" /\
     Authorization (wire_of endpoint method data params token) = "Bearer " ++ token /\
     outbound (snd out) =
       (outbound st ++ [wire_of endpoint method data params token])%list /\
     fst out = http (wire_of endpoint method data params token)).
Proof.
  cbv zeta.
  destruct (makeApiRequest_log host http endpoint method data params st)
    as [(e & Hthrown & Hlog)|(token & Hne & Hlog & Hanswer)].
  - left. exists e. split; [|exact Hlog]. now rewrite Hthrown.
  - right. exists token. repeat split; assumption.
Qed.

(** Coherence is kept by the dispatcher. *)
Lemma makeApiRequest_coherent {T} (host : Host)
    (http : WireRequest -> Completion T) endpoint method data params (st : State) :
  coherent st ->
  coherent (snd (makeApiRequest host http endpoint method data params st)).
Proof.
  intros Hco. rewrite makeApiRequest_unfold. cbv zeta.
  assert (Hafter : forall st1, coherent st1 ->
    coherent (snd (match getAccessToken host st1 with
                   | (inr token, st2) =>
                     send http
                       (mkWire method endpoint data params ("Bearer " ++ token)) st2
                   | (inl e, st2) => (inl e, st2)
                   end))).
  { intros st1 Hco1.
    destruct (getAccessToken_outcome host st1) as [(e & ->)|(token & _ & ->)];
      exact Hco1. }
  destruct (apiClient st).
  - now apply Hafter.
  - destruct (initializeApiClient_outcome host st)
      as [(e & -> & _)|(client & -> & Huse)]; [exact Hco|].
    apply Hafter. exact Huse.
Qed.

Lemma coherent_token (host : Host) (st : State) :
  coherent st -> apiClient st <> None ->
  (exists e,
     getAccessToken host st = (inl e, st) /\
     (e = Error "Failed to obtain access token" \/
      exists credentials,
        exchange host (mkAuthOptions CHAT_SCOPES credentials) = inl e)) \/
  (exists token, token <> "" /\ getAccessToken host st = (inr token, st)).
Proof.
  unfold coherent. intros Hco Hclient.
  destruct (apiClient st); [|congruence].
  unfold getAccessToken, bind, get. cbv zeta.
  destruct (authClient st) as [[[scopes credentials]|access_token]|]; simpl in Hco.
  - subst scopes.
    destruct (exchange host (mkAuthOptions CHAT_SCOPES credentials))
      as [e|tokenResponse] eqn:Hex.
    + left. exists e. split; [reflexivity|]. right. now exists credentials.
    + destruct (JS.nonEmpty tokenResponse) as [token|] eqn:E.
      * right. exists token.
        split; [eapply nonEmpty_not_empty; eassumption | reflexivity].
      * left. eexists. split; [reflexivity | now left].
  - apply truthy_nonEmpty in Hco as (token & Hne & _). rewrite Hne.
    right. exists token. split; [eapply nonEmpty_not_empty; eassumption | reflexivity].
  - contradiction.
Qed.

Lemma coherent_initialized (st : State) (client : AuthClient) :
  usable client -> coherent (initialized st client).
Proof. intros H. exact H. Qed.

Lemma coherent_log (st : State) (log : list WireRequest) :
  coherent st -> coherent (mkState (apiClient st) (authClient st) log).
Proof. intros H. exact H. Qed.

(** X2.  Coherence of the module state (an installed HTTP client comes
    with an auth client from which a token can be asked) holds for every
    state without an installed client and is kept by [makeApiRequest].
    From a coherent state the dispatcher throws nothing but: the two
    initialization errors, the failed-token error, an error thrown by the
    identity provider when asked for the nine scopes, or an error with
    which the remote end answered; the dispatcher's own errors for an
    absent auth client and for an empty OAuth token are not among them. *)
Theorem dispatcher_errors {T} (host : Host)
    (http : WireRequest -> Completion T) endpoint method data params (st : State) :
  coherent st ->
  let out := makeApiRequest host http endpoint method data params st in
  coherent (snd out) /\
  (forall e, fst out = inl e -> dispatcher_error host http e).
Proof.
  intros Hco. cbv zeta. rewrite makeApiRequest_unfold. cbv zeta.
  assert (Hafter : forall st1, coherent st1 -> apiClient st1 <> None ->
    let out := match getAccessToken host st1 with
               | (inr token, st2) =>
                 send http (mkWire method endpoint data params ("Bearer " ++ token)) st2
               | (inl e, st2) => (inl e, st2)
               end in
    coherent (snd out) /\ (forall e, fst out = inl e -> dispatcher_error host http e)).
  { intros st1 Hco1 Hclient. cbv zeta.
    destruct (coherent_token host st1 Hco1 Hclient)
      as [(e & -> & Hwhy)|(token & Hne & ->)].
    - split; [exact Hco1|]. simpl. intros e' [= <-]. unfold dispatcher_error.
      destruct Hwhy as [->|Hex]; [now right; right; left | now right; right; right; left].
    - unfold send. split; [now apply coherent_log|]. simpl. intros e He.
      unfold dispatcher_error. right; right; right; right. eexists. exact He. }
  destruct (apiClient st) eqn:Hclient.
  - apply Hafter; [exact Hco | congruence].
  - destruct (initializeApiClient_outcome host st)
      as [(e & -> & Hwhy)|(client & -> & Huse)].
    + split; [exact Hco|]. simpl. intros e' [= <-]. unfold dispatcher_error.
      destruct Hwhy as [->| ->]; [now left | now right; left].
    + apply Hafter; [now apply coherent_initialized | discriminate].
Qed.

(** X3.  Once the HTTP client is installed the credential sources are not
    looked at again: two hosts with the same identity provider, whatever
    their environments, give the same outcome, and the call leaves the
    installed HTTP client and the auth client as they were. *)
Theorem resolution_is_memoized {T} (host host' : Host)
    (http : WireRequest -> Completion T) endpoint method data params (st : State) :
  isClientInitialized st = true ->
  (forall options, exchange host options = exchange host' options) ->
  makeApiRequest host http endpoint method data params st =
    makeApiRequest host' http endpoint method data params st /\
  apiClient (snd (makeApiRequest host http endpoint method data params st))
    = apiClient st /\
  authClient (snd (makeApiRequest host http endpoint method data params st))
    = authClient st.
Proof.
  unfold isClientInitialized. intros Hinit Hsame.
  rewrite !makeApiRequest_unfold. cbv zeta.
  destruct (apiClient st) eqn:Hclient; [|discriminate].
  assert (Htoken : getAccessToken host st = getAccessToken host' st).
  { unfold getAccessToken, bind, get. cbv zeta.
    destruct (authClient st) as [[options|access_token]|]; try reflexivity.
    now rewrite Hsame. }
  rewrite <- Htoken.
  destruct (getAccessToken_outcome host st) as [(e & ->)|(token & _ & ->)].
  - simpl. auto.
  - unfold send. simpl. auto.
Qed.

End DispatcherProperties.

Lemma dispatcher_errors_witness :
  coherent SampleHosts.fresh /\
  coherent
    (snd (ApiClient.makeApiRequest (platform := Reference.platform)
            SampleHosts.tokenOnly (@notFound Space.t) "spaces/AAAA" ApiClient.GET
            JS.VUndefined None SampleHosts.fresh)).
Proof.
  assert (Hfresh : coherent SampleHosts.fresh) by exact I.
  split; [exact Hfresh|].
  exact (proj1 (dispatcher_errors (platform := Reference.platform)
                  SampleHosts.tokenOnly (@notFound Space.t) "spaces/AAAA"
                  ApiClient.GET JS.VUndefined None SampleHosts.fresh Hfresh)).
Defined.

Lemma resolution_is_memoized_witness :
  ApiClient.isClientInitialized SampleCalls.oauthReady = true /\
  ApiClient.makeApiRequest (platform := Reference.platform)
    SampleHosts.nothing SampleCalls.serveSpace "spaces/AAAA" ApiClient.GET
    JS.VUndefined None SampleCalls.oauthReady =
  ApiClient.makeApiRequest (platform := Reference.platform)
    SampleHosts.pathAndBrokenPayload SampleCalls.serveSpace "spaces/AAAA" ApiClient.GET
    JS.VUndefined None SampleCalls.oauthReady.
Proof.
  split; [reflexivity|].
  exact (proj1 (resolution_is_memoized (platform := Reference.platform)
                  SampleHosts.nothing SampleHosts.pathAndBrokenPayload
                  SampleCalls.serveSpace "spaces/AAAA" ApiClient.GET JS.VUndefined None
                  SampleCalls.oauthReady eq_refl (fun _ => eq_refl))).
Defined.

Section TokenModes.
Context {platform : Platform}.
Import ApiClient.

Lemma initializeApiClient_bearer (host : Host) (st : State) (t : string) :
  JS.truthy (GOOGLE_APPLICATION_CREDENTIALS (env host)) = false ->
  JS.truthy (GOOGLE_SERVICE_ACCOUNT_JSON (env host)) = false ->
  GOOGLE_OAUTH_TOKEN (env host) = Some t ->
  t <> "" ->
  initializeApiClient host st = (inr tt, initialized st (OAuth2Client (Some t))).
Proof.
  intros Hpath Hjson Htoken Hne.
  assert (Htruthy : JS.truthy (GOOGLE_OAUTH_TOKEN (env host)) = true).
  { rewrite Htoken. simpl. now rewrite (token_test_false t Hne). }
  unfold initializeApiClient, bind. cbv zeta.
  rewrite Hpath, Hjson, Htruthy, Htoken. destruct st; reflexivity.
Qed.

Lemma getAccessToken_bearer (host : Host) (st : State) (t : string) :
  authClient st = Some (OAuth2Client (Some t)) ->
  t <> "" ->
  getAccessToken host st = (inr t, st).
Proof.
  intros Hauth Hne. unfold getAccessToken, bind, get. cbv zeta.
  rewrite Hauth. unfold JS.nonEmpty. now rewrite (token_test_false t Hne).
Qed.

(** X4.  Bearer-token mode from a state without an installed client: when
    neither service-account source is present and [GOOGLE_OAUTH_TOKEN] is
    the non-empty string [t], the first call installs the HTTP client and
    the OAuth client, issues its request with the header [Bearer t], the
    configured value verbatim, and returns the answer of the remote end.
    The identity provider is not involved. *)
Theorem bearer_token_is_verbatim {T} (host : Host)
    (http : WireRequest -> Completion T) endpoint method data params
    (st : State) (t : string) :
  apiClient st = None ->
  JS.truthy (GOOGLE_APPLICATION_CREDENTIALS (env host)) = false ->
  JS.truthy (GOOGLE_SERVICE_ACCOUNT_JSON (env host)) = false ->
  GOOGLE_OAUTH_TOKEN (env host) = Some t ->
  t <> "" ->
  makeApiRequest host http endpoint method data params st =
  (http (wire_of endpoint method data params t),
   mkState (Some installed_client) (Some (OAuth2Client (Some t)))
     (outbound st ++ [wire_of endpoint method data params t])).
Proof.
  intros Hclient Hpath Hjson Htoken Hne.
  rewrite makeApiRequest_unfold. cbv zeta. rewrite Hclient.
  rewrite (initializeApiClient_bearer host st t Hpath Hjson Htoken Hne).
  rewrite (getAccessToken_bearer host
             (initialized st (OAuth2Client (Some t))) t eq_refl Hne).
  reflexivity.
Qed.

(** X5.  Service-account mode on an installed client: every call asks the
    identity provider for a token with the options the client was built
    from.  If the provider throws, that error is what the call throws; if
    it yields no token or an empty one, the call throws the failed-token
    error; in both cases nothing is issued and the state is unchanged.  If
    it yields the non-empty token [t], the request is issued with the
    header [Bearer t]. *)
Theorem service_account_token (T : Type) (host : Host)
    (http : WireRequest -> Completion T) endpoint method data params
    (st : State) (client : AxiosInstance) (options : AuthOptions) :
  apiClient st = Some client ->
  authClient st = Some (GoogleAuth options) ->
  let call := makeApiRequest host http endpoint method data params st in
  (forall e, exchange host options = inl e -> call = (inl e, st)) /\
  (forall tokenResponse,
     exchange host options = inr tokenResponse ->
     JS.truthy tokenResponse = false ->
     call = (inl (Error "Failed to obtain access token"), st)) /\
  (forall t,
     exchange host options = inr (Some t) -> t <> "" ->
     call =
     (http (wire_of endpoint method data params t),
      mkState (apiClient st) (authClient st)
        (outbound st ++ [wire_of endpoint method data params t]))).
Proof.
  intros Hclient Hauth. cbv zeta. rewrite makeApiRequest_unfold. cbv zeta.
  rewrite Hclient. unfold getAccessToken, bind, get. cbv zeta. rewrite Hauth.
  refine (conj _ (conj _ _)).
  - intros e ->. reflexivity.
  - intros tokenResponse -> Hfalsy.
    now rewrite (proj2 (nonEmpty_falsy _) Hfalsy).
  - intros t -> Hne. unfold JS.nonEmpty. rewrite (token_test_false t Hne).
    unfold ret, send, JS.push, wire_of. cbv beta iota.
    now rewrite ?Hclient, ?Hauth.
Qed.

End TokenModes.

Lemma bearer_token_is_verbatim_witness :
  ApiClient.apiClient SampleHosts.fresh = None /\
  ApiClient.GOOGLE_OAUTH_TOKEN (ApiClient.env SampleHosts.tokenOnly) = Some "ya29.token" /\
  ApiClient.makeApiRequest (platform := Reference.platform) SampleHosts.tokenOnly
    SampleCalls.serveSpace "spaces/AAAA" ApiClient.GET JS.VUndefined None
    SampleHosts.fresh =
  (inr SampleSpaces.described,
   ApiClient.mkState (Some installed_client)
     (Some (ApiClient.OAuth2Client (Some "ya29.token")))
     [wire_of "spaces/AAAA" ApiClient.GET JS.VUndefined None "ya29.token"]).
Proof.
  refine (conj eq_refl (conj eq_refl _)).
  apply (bearer_token_is_verbatim (platform := Reference.platform)
           SampleHosts.tokenOnly SampleCalls.serveSpace "spaces/AAAA" ApiClient.GET
           JS.VUndefined None SampleHosts.fresh "ya29.token");
    [reflexivity | reflexivity | reflexivity | reflexivity | discriminate].
Defined.

(* ================================================================== *)
(** * Further properties: the tool handlers *)
(* ================================================================== *)

Section HandlerFacts.
Context {platform : Platform} (host : ApiClient.Host).
Import ApiClient Tools.
Local Open Scope api_scope.

(** A handler of the common form: one dispatcher call inside
    [try]/[catch]. *)
Lemma guarded_run {T} (http : WireRequest -> Completion T)
    endpoint method data params
    (text : T -> string) (structured : T -> Structured) (st : State) :
  try_catch
    (bind (makeApiRequest host http endpoint method data params)
          (fun response => ret (okResult (text response) (structured response))))
    (fun error => text <- complete (handleApiError error) ;; ret (errorResult text)) st =
  (match fst (makeApiRequest host http endpoint method data params st) with
   | inl e => failure_outcome e
   | inr response => inr (okResult (text response) (structured response))
   end,
   snd (makeApiRequest host http endpoint method data params st)).
Proof.
  unfold try_catch, bind, ret, complete, failure_outcome.
  destruct (makeApiRequest host http endpoint method data params st)
    as [[e|response] st']; [|reflexivity].
  simpl. destruct (handleApiError e); reflexivity.
Qed.

Lemma issued_satisfy_weaken (st st' : State) (P Q : WireRequest -> Prop) :
  issued_satisfy st st' P -> (forall request, P request -> Q request) ->
  issued_satisfy st st' Q.
Proof.
  intros HP HPQ request Hin. destruct (HP request Hin); [now left | right; auto].
Qed.

Lemma issued_satisfy_same (st : State) (P : WireRequest -> Prop) :
  issued_satisfy st st P.
Proof. intros request Hin. now left. Qed.

Lemma dispatch_issues {T} (http : WireRequest -> Completion T)
    endpoint method data params (st : State) :
  issued_satisfy st (snd (makeApiRequest host http endpoint method data params st))
    (fun request =>
       exists token, token <> "" /\
                     request = wire_of endpoint method data params token).
Proof.
  intros request Hin.
  destruct (makeApiRequest_log host http endpoint method data params st)
    as [(e & _ & Hlog)|(token & Hne & Hlog & _)]; rewrite Hlog in Hin.
  - now left.
  - apply in_app_or in Hin as [Hin|[<-|[]]]; [now left|].
    right. now exists token.
Qed.

Lemma guarded_issues {T} (http : WireRequest -> Completion T)
    endpoint method data params
    (text : T -> string) (structured : T -> Structured) (st : State) :
  issued_satisfy st
    (snd (try_catch
            (bind (makeApiRequest host http endpoint method data params)
                  (fun response => ret (okResult (text response) (structured response))))
            (fun error => text <- complete (handleApiError error) ;; ret (errorResult text)) st))
    (fun request =>
       exists token, token <> "" /\
                     request = wire_of endpoint method data params token).
Proof. rewrite guarded_run. apply dispatch_issues. Qed.

(** The update-space handler: nothing is issued with an empty mask,
    otherwise a [PATCH] of the space with the mask as query parameter. *)
Lemma update_space_issues (http : WireRequest -> Completion Space.t)
    (params : UpdateSpaceInput.t) (st : State) :
  issued_satisfy st (snd (google_chat_update_space host http params st))
    (fun request =>
       updateSpace_mask params <> [] /\
       exists token,
         token <> "" /\
         request =
         wire_of (UpdateSpaceInput.spaceName params) PATCH
           (JS.VObj (updateSpace_data params))
           (Some [("updateMask", JS.VStr (JS.join "," (updateSpace_mask params)))])
           token).
Proof.
  destruct (list_eq_dec string_dec (updateSpace_mask params) []) as [Hmask|Hmask].
  - rewrite (update_space_without_fields host http params st Hmask).
    apply issued_satisfy_same.
  - unfold google_chat_update_space. cbv zeta.
    rewrite (nonempty_length_nonzero _ Hmask).
    eapply issued_satisfy_weaken; [apply guarded_issues|].
    intros request (token & Hne & ->). split; [exact Hmask|]. now exists token.
Qed.

(** Every invocation either is the rejected update or runs the dispatcher
    once, with some arguments, and converts its outcome. *)
Lemma invoke_run (call : Call)
    (http : WireRequest -> Completion (ResponseOf call)) (st : State) :
  invoke host call http st = (inr (errorResult no_field_message), st) \/
  exists endpoint method data params text structured,
    invoke host call http st =
    (match fst (makeApiRequest host http endpoint method data params st) with
     | inl e => failure_outcome e
     | inr response => inr (okResult (text response) (structured response))
     end,
     snd (makeApiRequest host http endpoint method data params st)).
Proof.
  destruct call as [p|p|p|p|p|p|p|p|p|p|p|p|p|p|p|p|p|p|p|p|p]; simpl in http |- *;
    try (right; do 6 eexists; apply guarded_run).
  destruct (list_eq_dec string_dec (updateSpace_mask p) []) as [Hmask|Hmask].
  - left. now apply update_space_without_fields.
  - right. unfold google_chat_update_space. cbv zeta.
    rewrite (nonempty_length_nonzero _ Hmask). do 6 eexists. apply guarded_run.
Qed.

End HandlerFacts.

Section HandlerProperties.
Context {platform : Platform} (host : ApiClient.Host).
Import ApiClient Tools.

(** X6.  No tool invocation issues more than one HTTP request: there is no
    retry.  A success result means that exactly one request went out, with
    a non-empty bearer token; the log of earlier requests is never
    touched; and a coherent module state stays coherent. *)
Theorem one_request_per_invocation (call : Call)
    (http : WireRequest -> Completion (ResponseOf call)) (st : State) :
  let out := invoke host call http st in
  (outbound (snd out) = outbound st \/
   exists request token,
     token <> "" /\ Authorization request = "Bearer " ++ token /\
     outbound (snd out) = (outbound st ++ [request])%list) /\
  (forall result,
     fst out = inr result -> isError result = false ->
     exists request, outbound (snd out) = (outbound st ++ [request])%list) /\
  (coherent st -> coherent (snd out)).
Proof.
  cbv zeta.
  destruct (invoke_run host call http st)
    as [Hrejected|(endpoint & method & data & params & text & structured & Hrun)];
    rewrite ?Hrejected, ?Hrun.
  - simpl. refine (conj (or_introl eq_refl) (conj _ (fun H => H))).
    intros result [= <-]. discriminate.
  - cbn [fst snd].
    destruct (makeApiRequest_log host http endpoint method data params st)
      as [(e & Hthrown & Hlog)|(token & Hne & Hlog & _)].
    + refine (conj (or_introl Hlog) (conj _ _)).
      * rewrite Hthrown. simpl. unfold failure_outcome.
        destruct (handleApiError e); [discriminate|].
        intros result [= <-]. discriminate.
      * apply makeApiRequest_coherent.
    + refine (conj _ (conj _ _)).
      * right. exists (wire_of endpoint method data params token), token.
        repeat split; assumption.
      * intros _ _ _. eexists. exact Hlog.
      * apply makeApiRequest_coherent.
Qed.

(** X7.  The registered hints agree with what the tools do.  A request
    issued by a tool is a [GET] exactly when the tool is registered with
    [readOnlyHint: true], and a [DELETE] exactly when it is registered
    with [destructiveHint: true]; in both cases it has no body. *)
Theorem hints_match_requests (call : Call)
    (http : WireRequest -> Completion (ResponseOf call)) (st : State) :
  issued_satisfy st (snd (invoke host call http st))
    (fun request =>
       (Registry.readOnlyHint (Registry.annotations call) = true <->
        method request = GET) /\
       (Registry.destructiveHint (Registry.annotations call) = true <->
        method request = DELETE) /\
       (method request = GET \/ method request = DELETE ->
        data request = JS.VUndefined)).
Proof.
  destruct call as [p|p|p|p|p|p|p|p|p|p|p|p|p|p|p|p|p|p|p|p|p]; simpl in http |- *;
    (eapply issued_satisfy_weaken;
     [ first [ apply update_space_issues | eapply guarded_issues ]
     | try (intros request (_ & token & _ & ->));
       try (intros request (token & _ & ->));
       simpl; repeat split; try reflexivity; try discriminate;
       try (intros [H|H]; discriminate) ]).
Qed.

End HandlerProperties.

Section RequestShaping.
Context {platform : Platform} (host : ApiClient.Host).
Import ApiClient Tools.

Lemma conforms_displayName (params : UpdateSpaceInput.t) :
  UpdateSpaceInput_conforms params = true ->
  JS.truthy (UpdateSpaceInput.displayName params) = false ->
  UpdateSpaceInput.displayName params = None.
Proof.
  unfold UpdateSpaceInput_conforms, JS.truthy, JS.length.
  destruct (UpdateSpaceInput.displayName params) as [d|]; [|reflexivity].
  intros Hconf Hfalsy. apply negb_false_iff, String.eqb_eq in Hfalsy. subst d.
  rewrite !andb_true_iff in Hconf. destruct Hconf as [[[_ [Hname _]] _] _].
  vm_compute in Hname. discriminate.
Qed.

(** X8.  The update-space handler keeps the field mask and the request
    body in step: a field path is in the mask exactly when the body sets
    that field, and the body carries the supplied values unchanged (an
    empty description or guidelines text included).  For an input that
    meets the schema the mask is empty exactly when none of the three
    fields is supplied.  A request, when one is issued, is a [PATCH] of
    the named space whose [updateMask] parameter is the comma-separated
    mask. *)
Theorem update_mask_matches_body (http : WireRequest -> Completion Space.t)
    (params : UpdateSpaceInput.t) (st : State) :
  let mask := updateSpace_mask params in
  let body := updateSpace_data params in
  let details := JS.lookup "spaceDetails" body in
  (In "displayName" mask <-> JS.lookup "displayName" body <> JS.VUndefined) /\
  (In "spaceDetails.description" mask <->
   JS.prop details "description" <> JS.VUndefined) /\
  (In "spaceDetails.guidelines" mask <->
   JS.prop details "guidelines" <> JS.VUndefined) /\
  JS.lookup "displayName" body
    = JS.ofOption (JS.nonEmpty (UpdateSpaceInput.displayName params)) /\
  JS.prop details "description" = JS.ofOption (UpdateSpaceInput.description params) /\
  JS.prop details "guidelines" = JS.ofOption (UpdateSpaceInput.guidelines params) /\
  (UpdateSpaceInput_conforms params = true ->
   (mask = [] <->
    UpdateSpaceInput.displayName params = None /\
    UpdateSpaceInput.description params = None /\
    UpdateSpaceInput.guidelines params = None)) /\
  issued_satisfy st (snd (google_chat_update_space host http params st))
    (fun request =>
       mask <> [] /\
       method request = PATCH /\
       url request = UpdateSpaceInput.spaceName params /\
       data request = JS.VObj body /\
       ApiClient.params request = Some [("updateMask", JS.VStr (JS.join "," mask))]).
Proof.
  cbv zeta.
  refine (conj _ (conj _ (conj _ (conj _ (conj _ (conj _ (conj _ _))))))).
  1-6: unfold updateSpace_mask, updateSpace_data, assignIfString, JS.push,
         JS.truthy, JS.nonEmpty;
       destruct (UpdateSpaceInput.displayName params) as [d|];
       try destruct (d =? "");
       destruct (UpdateSpaceInput.description params) as [desc|];
       destruct (UpdateSpaceInput.guidelines params) as [guide|];
       simpl; try reflexivity;
       (split; [intros _; discriminate | intros _; tauto])
       || (split; [intros H; repeat destruct H as [H|H]; try discriminate H;
                   contradiction
                  | intros H; exfalso; now apply H]).
  - intros Hconf. rewrite updateSpace_mask_empty. split.
    + intros (Hname & Hdesc & Hguide).
      split; [now apply conforms_displayName | now split].
    + intros (Hname & Hdesc & Hguide). rewrite Hname. now split.
  - eapply issued_satisfy_weaken; [apply update_space_issues|].
    intros request (Hmask & token & _ & ->). now repeat split.
Qed.

(** X9.  The create-message handler shapes its request from what is
    supplied.  The body always has the text; it has a [thread] object
    exactly when a thread key or a thread name is supplied (non-empty),
    and that object holds just the supplied ones.  The request is a
    [POST] to the messages of the space; it has query parameters exactly
    when a reply option or a message id is supplied, and then just
    those. *)
Theorem create_message_shaping (http : WireRequest -> Completion Message.t)
    (params : CreateMessageInput.t) (st : State) :
  let body := createMessage_data params in
  let thread := JS.lookup "thread" body in
  JS.lookup "text" body = JS.VStr (CreateMessageInput.text params) /\
  (thread = JS.VUndefined <->
   JS.truthy (CreateMessageInput.threadKey params) = false /\
   JS.truthy (CreateMessageInput.threadName params) = false) /\
  JS.prop thread "threadKey"
    = JS.ofOption (JS.nonEmpty (CreateMessageInput.threadKey params)) /\
  JS.prop thread "name"
    = JS.ofOption (JS.nonEmpty (CreateMessageInput.threadName params)) /\
  issued_satisfy st (snd (google_chat_create_message host http params st))
    (fun request =>
       method request = POST /\
       url request = CreateMessageInput.spaceName params ++ "/messages" /\
       data request = JS.VObj body /\
       match ApiClient.params request with
       | None =>
         JS.truthy (CreateMessageInput.messageReplyOption params) = false /\
         JS.truthy (CreateMessageInput.messageId params) = false
       | Some query =>
         (JS.truthy (CreateMessageInput.messageReplyOption params) = true \/
          JS.truthy (CreateMessageInput.messageId params) = true) /\
         JS.lookup "messageReplyOption" query
           = JS.ofOption (JS.nonEmpty (CreateMessageInput.messageReplyOption params)) /\
         JS.lookup "messageId" query
           = JS.ofOption (JS.nonEmpty (CreateMessageInput.messageId params))
       end).
Proof.
  cbv zeta.
  refine (conj _ (conj _ (conj _ (conj _ _)))).
  1-4: unfold createMessage_data, assignIfString, JS.push, JS.truthy, JS.nonEmpty;
       destruct (CreateMessageInput.threadKey params) as [key|];
       try destruct (key =? "");
       destruct (CreateMessageInput.threadName params) as [name|];
       try destruct (name =? "");
       simpl; try reflexivity;
       (split; [intros H; discriminate H | intros (H1 & H2); discriminate])
       || (split; [intros _; split; reflexivity | reflexivity]).
  - unfold google_chat_create_message. cbv zeta.
    eapply issued_satisfy_weaken; [apply guarded_issues|].
    intros request (token & _ & ->).
    unfold wire_of, nonEmptyObject, assignIfString, JS.push, JS.truthy, JS.nonEmpty.
    simpl method. simpl url. simpl data. simpl ApiClient.params.
    refine (conj eq_refl (conj eq_refl (conj eq_refl _))).
    destruct (CreateMessageInput.messageReplyOption params) as [option|];
      try destruct (option =? "");
      destruct (CreateMessageInput.messageId params) as [id|];
      try destruct (id =? "");
      simpl; auto.
Qed.

(** X10.  Every list tool forwards its paging inputs: a request it issues
    is a [GET] without body whose query parameters hold the page size as
    given, and the page token as given when it is non-empty and no page
    token otherwise. *)
Theorem paging_is_forwarded (call : Call) (pageSize : Z) (pageToken : option string)
    (http : WireRequest -> Completion (ResponseOf call)) (st : State) :
  paging_of call = Some (pageSize, pageToken) ->
  issued_satisfy st (snd (invoke host call http st))
    (fun request =>
       method request = GET /\
       data request = JS.VUndefined /\
       exists query,
         ApiClient.params request = Some query /\
         JS.lookup "pageSize" query = JS.VNum pageSize /\
         JS.lookup "pageToken" query = JS.ofOption (JS.nonEmpty pageToken)).
Proof.
  destruct call as [p|p|p|p|p|p|p|p|p|p|p|p|p|p|p|p|p|p|p|p|p]; simpl in http |- *;
    intros Hpaging; try discriminate Hpaging;
    injection Hpaging as <- <-;
    (eapply issued_satisfy_weaken; [eapply guarded_issues|]);
    intros request (token & _ & ->);
    (refine (conj eq_refl (conj eq_refl _)));
    eexists; (split; [reflexivity|]);
    unfold assignIfString, assignIfBool, JS.push, JS.nonEmpty.
  - destruct (ListSpacesInput.pageToken p) as [t|]; try destruct (t =? "");
      destruct (ListSpacesInput.filter p) as [f|]; try destruct (f =? "");
      split; reflexivity.
  - destruct (SearchSpacesInput.pageToken p) as [t|]; try destruct (t =? "");
      split; reflexivity.
  - destruct (ListMessagesInput.pageToken p) as [t|]; try destruct (t =? "");
      destruct (ListMessagesInput.filter p) as [f|]; try destruct (f =? "");
      destruct (ListMessagesInput.orderBy p) as [o|]; try destruct (o =? "");
      destruct (ListMessagesInput.showDeleted p);
      split; reflexivity.
  - destruct (ListMembersInput.pageToken p) as [t|]; try destruct (t =? "");
      destruct (ListMembersInput.filter p) as [f|]; try destruct (f =? "");
      destruct (ListMembersInput.showGroups p);
      destruct (ListMembersInput.showInvited p);
      split; reflexivity.
  - destruct (ListReactionsInput.pageToken p) as [t|]; try destruct (t =? "");
      destruct (ListReactionsInput.filter p) as [f|]; try destruct (f =? "");
      split; reflexivity.
Qed.

End RequestShaping.

(* ================================================================== *)
(** * Further properties: texts *)
(* ================================================================== *)

Section Texts.
Context {platform : Platform}.
Import Formatters.

(** X11.  Cutting is idempotent: a text that went through
    [truncateResponse] is returned unchanged when it goes through again,
    so the notice is never stacked and a cut text is never cut further. *)
Theorem truncateResponse_idempotent (text : string) :
  truncateResponse (truncateResponse text) = truncateResponse text /\
  (forall spaces hasMore token,
     truncateResponse (formatSpacesList spaces MARKDOWN hasMore token)
     = formatSpacesList spaces MARKDOWN hasMore token).
Proof.
  assert (Hfix : forall t, truncateResponse (truncateResponse t) = truncateResponse t).
  { intros t. pose proof (truncateResponse_bound t) as Hbound.
    unfold truncateResponse at 1. unfold JS.length, CHARACTER_LIMIT.
    apply Z.leb_le in Hbound. now rewrite Hbound. }
  split; [apply Hfix|].
  intros [|s spaces] hasMore token; [reflexivity|].
  rewrite formatSpacesList_markdown by discriminate. apply Hfix.
Qed.

Lemma formatMessagesList_block message :
  formatMessagesList_step [] message =
  [ "### " ++ userLabel (Message.sender message) ++ " - " ++
      match JS.nonEmpty (Message.createTime message) with
      | Some createTime => formatTimestamp createTime
      | None => ""
      end;
    "- **ID**: `" ++ Message.name message ++ "`";
    "- **Content**: " ++
      match JS.nonEmpty (Message.text message) with
      | Some text => clipped text
      | None => "[No text content]"
      end;
    "" ].
Proof.
  unfold formatMessagesList_step, JS.push, JS.nonEmpty. cbv zeta.
  destruct (Message.createTime message) as [t|]; try destruct (t =? "");
    destruct (Message.text message) as [text|];
    try destruct (String.eqb_spec text "");
    simpl; rewrite ?clipped_source; reflexivity.
Qed.

Lemma formatMessage_text message text :
  JS.nonEmpty (Message.text message) = Some text ->
  hasLine text (formatMessage message MARKDOWN).
Proof.
  unfold JS.nonEmpty. intros Htext.
  destruct (Message.text message) as [body|] eqn:Hbody; [|discriminate].
  destruct (body =? "") eqn:Hempty; [discriminate|]. injection Htext as ->.
  unfold formatMessage. rewrite Hbody, Hempty. cbv zeta. simpl negb. cbv iota.
  apply hasLine_join. unfold JS.push.
  destruct (Message.sender message) as [sender|];
    destruct (Message.createTime message) as [created|];
    try destruct (negb (created =? ""));
    destruct (Message.thread message) as [thread|];
    try destruct (negb (Thread.name thread =? ""));
    destruct (Message.emojiReactionSummaries message) as [[|summary summaries]|];
    try destruct (Z.of_nat (List.length (summary :: summaries)) >? 0)%Z;
    rewrite ?in_app_iff; simpl; tauto.
Qed.

(** X12.  The content preview of a message.  In the list rendering the
    block of every message of the list has the line [- **Content**: ]
    followed by the text itself when it has at most 100 characters, by its
    first 100 characters and ["..."] when it is longer, and by
    [[No text content]] when the text is absent or empty; the line is in
    the returned text whenever the assembled text is within the ceiling.
    The single-message rendering has the whole text as a line. *)
Theorem message_preview (messages : list Message.t) (message : Message.t)
    (hasMore : bool) (token : option string) :
  In message messages ->
  let preview :=
    match JS.nonEmpty (Message.text message) with
    | Some text => clipped text
    | None => "[No text content]"
    end in
  In ("- **Content**: " ++ preview) (formatMessagesList_lines messages hasMore token) /\
  ((Z.of_nat (String.length
      (JS.join LF (formatMessagesList_lines messages hasMore token))) <= 25000)%Z ->
   hasLine ("- **Content**: " ++ preview)
     (formatMessagesList messages MARKDOWN hasMore token)) /\
  (forall text,
     JS.nonEmpty (Message.text message) = Some text ->
     hasLine text (formatMessage message MARKDOWN) /\
     ((Z.of_nat (String.length text) <= 100)%Z -> preview = text) /\
     ((100 < Z.of_nat (String.length text))%Z ->
      preview = firstChars 100 text ++ "...")).
Proof.
  intros Hin. cbv zeta.
  assert (Hline :
    In ("- **Content**: " ++
        match JS.nonEmpty (Message.text message) with
        | Some text => clipped text
        | None => "[No text content]"
        end) (formatMessagesList_lines messages hasMore token)).
  { destruct (lines_extend_body _ _ _ (messages_footer messages) hasMore token)
      as (footer & ->).
    apply in_or_app. left. unfold messages_body. right. right.
    apply in_flat_map. exists message. split; [exact Hin|].
    rewrite formatMessagesList_block. simpl. tauto. }
  assert (Hne : messages <> []) by (destruct messages; [contradiction | discriminate]).
  refine (conj Hline (conj _ _)).
  - intros Hfit. rewrite formatMessagesList_markdown by exact Hne.
    rewrite (proj2 (truncateResponse_obeys _) Hfit).
    now apply hasLine_join.
  - intros text Htext. rewrite Htext.
    refine (conj (formatMessage_text _ _ Htext) (conj _ _)); unfold clipped.
    + intros Hshort.
      destruct (100 <? Z.of_nat (String.length text))%Z eqn:E; [|reflexivity].
      apply Z.ltb_lt in E. lia.
    + intros Hlong.
      destruct (100 <? Z.of_nat (String.length text))%Z eqn:E; [reflexivity|].
      apply Z.ltb_ge in E. lia.
Qed.

Lemma users_of_present k reactions :
  In k (List.map reactionEmoji reactions) -> users_of k reactions <> [].
Proof.
  unfold users_of. induction reactions as [|r rs IH]; simpl; [tauto|].
  intros [Hk|Hk].
  - rewrite Hk, String.eqb_refl. discriminate.
  - destruct (reactionEmoji r =? k); [discriminate | now apply IH].
Qed.

Lemma or_else_not_empty (o : option string) (d : string) :
  d <> "" -> JS.or_else o d <> "".
Proof.
  intros Hd. unfold JS.or_else. destruct o as [s|]; [|exact Hd].
  destruct (String.eqb_spec s ""); [exact Hd | assumption].
Qed.

(** X13.  Labels are never empty.  The label of a user (display name, else
    resource name, else [Unknown]) and the emoji key of a reaction
    (unicode, else custom uid, else [?]) are non-empty strings, whatever
    fields are missing or empty.  Hence in the grouping of a reaction list
    every group has a non-empty key and at least one user, and every
    listed user is a non-empty label. *)
Theorem labels_are_never_empty :
  (forall user, userLabel user <> "") /\
  (forall reaction, reactionEmoji reaction <> "" /\ reactionUser reaction <> "") /\
  (forall reactions k g,
     In (k, g) (groupReactions reactions) ->
     k <> "" /\
     EmojiGroup.users g <> [] /\
     (forall user, In user (EmojiGroup.users g) -> user <> "")).
Proof.
  assert (Huser : forall user, userLabel user <> "").
  { intros user. apply or_else_not_empty. discriminate. }
  assert (Hemoji : forall reaction, reactionEmoji reaction <> "").
  { intros reaction. apply or_else_not_empty. discriminate. }
  refine (conj Huser (conj (fun r => conj (Hemoji r) (Huser _)) _)).
  intros reactions k g Hin. rewrite groupReactions_expected in Hin.
  unfold expected_groups in Hin. apply in_map_iff in Hin as (k' & Heq & Hk).
  injection Heq as <- <-. apply (proj1 (first_occurrences_In _ _)) in Hk.
  refine (conj _ (conj (users_of_present _ _ Hk) _)).
  - apply in_map_iff in Hk as (r & <- & _). apply Hemoji.
  - simpl. unfold users_of. intros user Huin.
    apply in_map_iff in Huin as (r & <- & _). apply Huser.
Qed.

End Texts.

Section ErrorTexts.
Context {platform : Platform} (host : ApiClient.Host).
Import ApiClient Tools.

Lemma table_prefix (status : Z) (m : string) :
  exists rest, http_error_table status m = "Error: " ++ rest.
Proof.
  destruct (Z.eqb_spec status 400) as [->|H400]; [eexists; reflexivity|].
  destruct (Z.eqb_spec status 401) as [->|H401]; [eexists; reflexivity|].
  destruct (Z.eqb_spec status 403) as [->|H403]; [eexists; reflexivity|].
  destruct (Z.eqb_spec status 404) as [->|H404]; [eexists; reflexivity|].
  destruct (Z.eqb_spec status 409) as [->|H409]; [eexists; reflexivity|].
  destruct (Z.eqb_spec status 429) as [->|H429]; [eexists; reflexivity|].
  destruct (Z.eqb_spec status 500) as [->|H500]; [eexists; reflexivity|].
  destruct (Z.eqb_spec status 503) as [->|H503]; [eexists; reflexivity|].
  rewrite table_default by assumption. eexists. reflexivity.
Qed.

Lemma handleApiError_prefix (e : Thrown) (text : string) :
  handleApiError e = inr text -> exists rest, text = "Error: " ++ rest.
Proof.
  destruct e as [message code [[status data]|]|message|v].
  - rewrite handleApiError_http.
    destruct (ToString (upstreamMessage data)) as [thrown|m].
    + destruct (carries_upstream status); [discriminate|].
      intros [= <-]. apply table_prefix.
    + intros [= <-]. apply table_prefix.
  - unfold handleApiError. destruct code as [c|]; [|intros [= <-]; eexists; reflexivity].
    destruct (c =? "ECONNABORTED"); [intros [= <-]; eexists; reflexivity|].
    destruct ((c =? "ENOTFOUND") || (c =? "ECONNREFUSED"));
      intros [= <-]; eexists; reflexivity.
  - intros [= <-]. eexists. reflexivity.
  - unfold handleApiError, template.
    destruct (ToString v) as [thrown|raw]; [discriminate|].
    intros [= <-]. eexists. reflexivity.
Qed.

(** X14.  Every failure text begins with [Error: ].  This holds for the
    text that the classifier returns for a thrown value, whichever it is,
    and so for the single text item of every failure result that a tool
    invocation returns, the rejected update included. *)
Theorem failure_texts_begin_with_Error (call : Call)
    (http : WireRequest -> Completion (ResponseOf call)) (st : State) :
  (forall e text,
     handleApiError e = inr text -> exists rest, text = "Error: " ++ rest) /\
  (forall result,
     fst (invoke host call http st) = inr result ->
     isError result = true ->
     exists rest, content result = [TextContent ("Error: " ++ rest)]).
Proof.
  split; [exact handleApiError_prefix|].
  intros result Hresult Hfailure.
  destruct (invoke_run host call http st)
    as [Hrejected|(endpoint & method & data & params & text & structured & Hrun)].
  - rewrite Hrejected in Hresult. injection Hresult as <-.
    eexists. reflexivity.
  - rewrite Hrun in Hresult. cbn [fst] in Hresult.
    destruct (fst (makeApiRequest host http endpoint method data params st))
      as [e|response].
    + unfold failure_outcome in Hresult.
      destruct (handleApiError e) as [thrown|classified] eqn:Hclass; [discriminate|].
      injection Hresult as <-.
      destruct (handleApiError_prefix e classified Hclass) as (rest & ->).
      now exists rest.
    + injection Hresult as <-. discriminate Hfailure.
Qed.

End ErrorTexts.

(* ================================================================== *)
(** * Further properties: start-up *)
(* ================================================================== *)

Section Startup.
Context {platform : Platform} (host : ApiClient.Host).
Import ApiClient Server.

Lemma selects_stdio (TRANSPORT : option string) :
  TRANSPORT <> Some "http" -> (JS.or_else TRANSPORT "stdio" =? "http") = false.
Proof.
  intros Hnot. unfold JS.or_else. destruct TRANSPORT as [t|]; [|reflexivity].
  destruct (t =? ""); [reflexivity|].
  apply String.eqb_neq. congruence.
Qed.

(** X15.  Start-up in stdio mode, which is selected for every value of
    [TRANSPORT] other than exactly [http] (unset and empty included).  If
    the credentials cannot be resolved, the process writes the error
    message followed by the three remediation options to the standard
    error stream and exits with code 1 without connecting the transport;
    the error is one of the two initialization errors.  If they can, the
    transport is connected: the process then reports that it is running,
    or, when connecting throws, reports the error and exits with code 1.
    Whatever the mode, a rejection never escapes the entry point. *)
Theorem startup_outcomes (TRANSPORT : option string) (runHTTP : State -> Run)
    (connect : Completion unit) (st : State) :
  (forall e, outcome (main host TRANSPORT runHTTP connect st) <> Threw e) /\
  (TRANSPORT <> Some "http" ->
   (forall e st',
      initializeApiClient host st = (inl e, st') ->
      exists message,
        e = Error message /\
        (message = invalid_payload_message \/ message = missing_credentials_message) /\
        errorText e = inr message /\
        main host TRANSPORT runHTTP connect st =
        mkRun st
          [ [Text "Failed to initialize Google Chat API client:"];
            [Text message];
            [Text ""];
            [Text "Please configure authentication by setting one of:"];
            [Text "  - GOOGLE_APPLICATION_CREDENTIALS: Path to service account JSON file"];
            [Text "  - GOOGLE_SERVICE_ACCOUNT_JSON: Service account JSON as a string"];
            [Text "  - GOOGLE_OAUTH_TOKEN: OAuth2 access token"] ]
          (Exited 1)) /\
   (forall st',
      initializeApiClient host st = (inr tt, st') ->
      main host TRANSPORT runHTTP connect st =
      match connect with
      | inr _ => mkRun st' [[Text "Google Chat MCP server running via stdio"]] Returned
      | inl e => mkRun st' [[Text "Server error:"; Caught e]] (Exited 1)
      end)).
Proof.
  split.
  - intros e. unfold main. cbv zeta.
    destruct (outcome (if JS.or_else TRANSPORT "stdio" =? "http"
                       then runHTTP st else runStdio host connect st)) eqn:E;
      [rewrite E | discriminate | rewrite E]; discriminate.
  - intros Hstdio. unfold main. cbv zeta. rewrite (selects_stdio _ Hstdio).
    unfold runStdio. split.
    + intros e st' Hinit.
      destruct (initializeApiClient_outcome host st)
        as [(e' & Hfail & Hwhy)|(client & Hok & _)]; rewrite Hinit in *.
      * injection Hfail as <- <-.
        destruct Hwhy as [-> | ->]; eexists;
          (split; [reflexivity|]); (split; [auto|]); split; reflexivity.
      * discriminate.
    + intros st' ->. destruct connect as [e|[]]; reflexivity.
Qed.

End Startup.

Lemma startup_outcomes_witness :
  Some "HTTP" <> Some "http" /\
  Server.main (platform := Reference.platform) SampleHosts.nothing (Some "HTTP")
    SampleCalls.idleHTTP (inr tt) SampleHosts.fresh =
  Server.mkRun SampleHosts.fresh
    [ [Server.Text "Failed to initialize Google Chat API client:"];
      [Server.Text missing_credentials_message];
      [Server.Text ""];
      [Server.Text "Please configure authentication by setting one of:"];
      [Server.Text "  - GOOGLE_APPLICATION_CREDENTIALS: Path to service account JSON file"];
      [Server.Text "  - GOOGLE_SERVICE_ACCOUNT_JSON: Service account JSON as a string"];
      [Server.Text "  - GOOGLE_OAUTH_TOKEN: OAuth2 access token"] ]
    (Server.Exited 1).
Proof.
  assert (Hmode : Some "HTTP" <> Some "http") by discriminate.
  split; [exact Hmode|].
  destruct (startup_outcomes (platform := Reference.platform) SampleHosts.nothing
              (Some "HTTP") SampleCalls.idleHTTP (inr tt) SampleHosts.fresh)
    as (_ & Hstdio).
  destruct (Hstdio Hmode) as (Hfail & _).
  destruct (Hfail (Error missing_credentials_message) SampleHosts.fresh eq_refl)
    as (message & Herror & _ & _ & Hrun).
  injection Herror as <-. exact Hrun.
Defined.

(* ================================================================== *)
(** * The further properties at sample data *)
(* ================================================================== *)

Lemma service_account_token_witness :
  ApiClient.apiClient SampleCalls.serviceReady = Some installed_client /\
  ApiClient.exchange SampleCalls.brokenProvider
    (ApiClient.mkAuthOptions ApiClient.CHAT_SCOPES None) = inl (Error "invalid_grant") /\
  ApiClient.makeApiRequest (platform := Reference.platform) SampleCalls.brokenProvider
    SampleCalls.serveSpace "spaces/AAAA" ApiClient.GET JS.VUndefined None
    SampleCalls.serviceReady =
  (inl (Error "invalid_grant"), SampleCalls.serviceReady).
Proof.
  refine (conj eq_refl (conj eq_refl _)).
  destruct (service_account_token (platform := Reference.platform) Space.t
              SampleCalls.brokenProvider SampleCalls.serveSpace "spaces/AAAA"
              ApiClient.GET JS.VUndefined None SampleCalls.serviceReady
              installed_client (ApiClient.mkAuthOptions ApiClient.CHAT_SCOPES None)
              eq_refl eq_refl) as (Hthrows & _).
  exact (Hthrows (Error "invalid_grant") eq_refl).
Defined.

Lemma one_request_per_invocation_witness :
  coherent SampleCalls.oauthReady /\
  coherent
    (snd (Tools.invoke (platform := Reference.platform) SampleHosts.nothing
            (Tools.update_space SampleCalls.rename) SampleCalls.serveSpace
            SampleCalls.oauthReady)).
Proof.
  assert (Hready : coherent SampleCalls.oauthReady) by reflexivity.
  split; [exact Hready|].
  exact (proj2 (proj2 (one_request_per_invocation (platform := Reference.platform)
                         SampleHosts.nothing (Tools.update_space SampleCalls.rename)
                         SampleCalls.serveSpace SampleCalls.oauthReady)) Hready).
Defined.

Lemma update_mask_matches_body_witness :
  UpdateSpaceInput_conforms SampleCalls.rename = true /\
  Tools.updateSpace_mask SampleCalls.rename <> [].
Proof.
  assert (Hconf : UpdateSpaceInput_conforms SampleCalls.rename = true) by reflexivity.
  split; [exact Hconf|].
  destruct (update_mask_matches_body (platform := Reference.platform)
              SampleHosts.nothing SampleCalls.serveSpace SampleCalls.rename
              SampleCalls.oauthReady) as (_ & _ & _ & _ & _ & _ & Hempty & _).
  intros Hmask. apply (proj1 (Hempty Hconf)) in Hmask as (Hname & _).
  discriminate Hname.
Defined.

Lemma paging_is_forwarded_witness :
  paging_of (Tools.list_spaces SampleCalls.listPage2) = Some (50%Z, Some "TOK123") /\
  issued_satisfy SampleCalls.oauthReady
    (snd (Tools.invoke (platform := Reference.platform) SampleHosts.nothing
            (Tools.list_spaces SampleCalls.listPage2)
            (fun _ => inr (ListSpacesResponse.mk None None)) SampleCalls.oauthReady))
    (fun request =>
       ApiClient.method request = ApiClient.GET /\
       ApiClient.data request = JS.VUndefined /\
       exists query,
         ApiClient.params request = Some query /\
         JS.lookup "pageSize" query = JS.VNum 50 /\
         JS.lookup "pageToken" query = JS.ofOption (JS.nonEmpty (Some "TOK123"))).
Proof.
  split; [reflexivity|].
  exact (paging_is_forwarded (platform := Reference.platform) SampleHosts.nothing
           (Tools.list_spaces SampleCalls.listPage2) 50 (Some "TOK123")
           (fun _ => inr (ListSpacesResponse.mk None None)) SampleCalls.oauthReady
           eq_refl).
Defined.

Lemma message_preview_witness :
  In SampleCalls.longMessage [SampleCalls.longMessage] /\
  In ("- **Content**: " ++ Reference.replicate 100 "m"%char ++ "...")
     (Formatters.formatMessagesList_lines (platform := Reference.platform)
        [SampleCalls.longMessage] false None).
Proof.
  assert (Hin : In SampleCalls.longMessage [SampleCalls.longMessage]) by now left.
  split; [exact Hin|].
  exact (proj1 (message_preview (platform := Reference.platform)
                  [SampleCalls.longMessage] SampleCalls.longMessage false None Hin)).
Defined.

Lemma labels_are_never_empty_witness :
  In ("?", Formatters.EmojiGroup.mk "?" ["Unknown"])
     (Formatters.groupReactions Sample.reactions) /\
  ["Unknown"] <> [].
Proof.
  assert (Hin : In ("?", Formatters.EmojiGroup.mk "?" ["Unknown"])
                   (Formatters.groupReactions Sample.reactions))
    by (vm_compute; tauto).
  split; [exact Hin|].
  exact (proj1 (proj2 (proj2 (proj2 labels_are_never_empty) Sample.reactions _ _ Hin))).
Defined.

(* ================================================================== *)
(** * Further properties: the JSON format *)
(* ================================================================== *)

Section JsonFormat.
Context {platform : Platform} (host : ApiClient.Host).
Import ApiClient Tools.

Ltac json_case Hformat :=
  right; do 6 eexists;
  split; [apply guarded_run|];
  refine (conj _ (conj _ _));
  [ intros response; cbv beta; injection Hformat as ->; reflexivity
  | intros Hother response; cbv beta;
    first [ reflexivity | exfalso; eapply Hother; reflexivity ]
  | intros q Hq response; cbv beta;
    first [ discriminate Hq | do 5 eexists; reflexivity ] ].

(** With the JSON format every invocation either is the rejected update
    or converts the outcome of one dispatcher call, and the success text is
    the banner of the tool followed by the serialized object. *)
Lemma invoke_json (call : Call)
    (http : WireRequest -> Completion (ResponseOf call)) (st : State) :
  format_of call = Some JSON ->
  invoke host call http st = (inr (errorResult no_field_message), st) \/
  exists endpoint method data params text structured,
    invoke host call http st =
    (match fst (makeApiRequest host http endpoint method data params st) with
     | inl e => failure_outcome e
     | inr response => inr (okResult (text response) (structured response))
     end,
     snd (makeApiRequest host http endpoint method data params st)) /\
    (forall response,
       text response =
       banner_of call ++ JSON_stringify (rendered_object (structured response))) /\
    ((forall p, call <> search_spaces p) ->
     forall response, rendered_object (structured response) = structured response) /\
    (forall p, call = search_spaces p ->
     forall response,
     exists count totalSize spaces hasMore nextPageToken,
       structured response = SearchPage count totalSize spaces hasMore nextPageToken).
Proof.
  destruct call as [p|p|p|p|p|p|p|p|p|p|p|p|p|p|p|p|p|p|p|p|p];
    simpl in http |- *; intros Hformat; try discriminate Hformat.
  4: { destruct (list_eq_dec string_dec (updateSpace_mask p) []) as [Hmask|Hmask].
       - left. now apply update_space_without_fields.
       - unfold google_chat_update_space. cbv zeta.
         rewrite (nonempty_length_nonzero _ Hmask). json_case Hformat. }
  all: json_case Hformat.
Qed.

(** X16.  In the JSON format the text of a success result is the
    serialization of the structured content of the same result: alone for
    the reading tools, after the success sentence and an empty line for
    the writing tools.  It is neither cut nor given a footer.  The search
    tool is the exception: its text serializes the page without
    [totalSize], which its structured content has. *)
Theorem json_text_serializes_structured (call : Call)
    (http : WireRequest -> Completion (ResponseOf call)) (st : State)
    (result : ToolResult) :
  format_of call = Some JSON ->
  fst (invoke host call http st) = inr result ->
  isError result = false ->
  exists s,
    structuredContent result = Some s /\
    content result =
      [TextContent (banner_of call ++ JSON_stringify (rendered_object s))] /\
    ((forall p, call <> search_spaces p) -> rendered_object s = s) /\
    (forall p, call = search_spaces p ->
     exists count totalSize spaces hasMore nextPageToken,
       s = SearchPage count totalSize spaces hasMore nextPageToken).
Proof.
  intros Hformat Hresult Hok.
  destruct (invoke_json call http st Hformat)
    as [Hrejected
       |(endpoint & method & data & params & text & structured & Hrun & Htext
         & Hsame & Hsearch)].
  - rewrite Hrejected in Hresult. injection Hresult as <-. discriminate Hok.
  - rewrite Hrun in Hresult. cbn [fst] in Hresult.
    destruct (fst (makeApiRequest host http endpoint method data params st))
      as [e|response] eqn:Hanswer.
    + unfold failure_outcome in Hresult.
      destruct (handleApiError e) as [thrown|classified]; [discriminate|].
      injection Hresult as <-. discriminate Hok.
    + injection Hresult as <-. exists (structured response).
      refine (conj eq_refl (conj _ (conj (fun H => Hsame H response) _))).
      * simpl. now rewrite Htext.
      * intros p Hcall. exact (Hsearch p Hcall response).
Qed.

End JsonFormat.

Lemma json_text_serializes_structured_witness :
  format_of (Tools.get_space SampleCalls.getJson) = Some JSON /\
  Tools.content
    (Tools.okResult
       (JSON_stringify (Platform := Reference.platform)
          (OfSpace SampleSpaces.described))
       (OfSpace SampleSpaces.described)) =
  [Tools.TextContent
     (JSON_stringify (Platform := Reference.platform)
        (rendered_object (OfSpace SampleSpaces.described)))].
Proof.
  split; [reflexivity|].
  destruct (json_text_serializes_structured (platform := Reference.platform)
              SampleHosts.nothing (Tools.get_space SampleCalls.getJson)
              SampleCalls.serveSpace SampleCalls.oauthReady
              (Tools.okResult
                 (JSON_stringify (Platform := Reference.platform)
                    (OfSpace SampleSpaces.described))
                 (OfSpace SampleSpaces.described))
              eq_refl eq_refl eq_refl) as (s & Hs & Htext & _).
  injection Hs as <-. exact Htext.
Defined.

(* ================================================================== *)
(** * Further properties: the size of the list renderings *)
(* ================================================================== *)

Section RenderingSizes.
Context {platform : Platform}.
Import Formatters.

Lemma footer_behaviour_length lines body separator :
  footer_behaviour lines body separator ->
  forall hasMore token,
    List.length (lines hasMore token)
    = (List.length body + footer_size hasMore token)%nat.
Proof.
  intros (Hnone & Hempty & Hfalse & Htrue) hasMore [token|]; unfold footer_size.
  - destruct hasMore; simpl.
    + destruct (String.eqb_spec token "") as [->|Hne]; simpl.
      * rewrite Hempty. lia.
      * rewrite (Htrue token Hne), length_app. reflexivity.
    + rewrite Hfalse. lia.
  - rewrite Hnone, andb_false_r. lia.
Qed.

Lemma flat_map_length_between {A} (f : A -> list string) (lo hi : nat) (l : list A) :
  (forall x, lo <= List.length (f x) <= hi)%nat ->
  (lo * List.length l <= List.length (flat_map f l) <= hi * List.length l)%nat.
Proof.
  intros Hf. induction l as [|x l IH]; simpl; [lia|].
  rewrite length_app. specialize (Hf x). lia.
Qed.

Lemma space_block_size space :
  (4 <= List.length (formatSpacesList_step [] space) <= 5)%nat.
Proof.
  unfold formatSpacesList_step, JS.push. cbv zeta.
  destruct (Space.spaceDetails space) as [details|]; [|simpl; lia].
  destruct (SpaceDetails.description details) as [description|]; [|simpl; lia].
  destruct (negb (description =? "")); simpl; lia.
Qed.

Lemma groups_at_most_reactions reactions :
  (List.length (groupReactions reactions) <= List.length reactions)%nat.
Proof.
  rewrite groupReactions_expected. unfold expected_groups. rewrite length_map.
  rewrite <- (length_map reactionEmoji reactions).
  generalize (List.map reactionEmoji reactions) as keys.
  induction keys as [|k keys IH]; simpl; [lia|].
  pose proof (filter_length_le (fun y => negb (y =? k)) (first_occurrences keys)).
  lia.
Qed.

(** X17.  The size of a list rendering before the cut, counted in
    entries of the [lines] array that the renderer joins with line feeds.
    After the two header entries every message takes exactly four
    entries, every member exactly five, every space four or five (five
    with a non-empty description), and the reactions take one entry per
    emoji group, of which there are no more than reactions and, for a
    non-empty list, at least one.  The pagination data add two entries
    when [hasMore] holds and the token is non-empty, and none otherwise. *)
Theorem list_rendering_sizes (hasMore : bool) (token : option string) :
  (forall messages,
     List.length (formatMessagesList_lines messages hasMore token)
     = (2 + 4 * List.length messages + footer_size hasMore token)%nat) /\
  (forall members,
     List.length (formatMembersList_lines members hasMore token)
     = (2 + 5 * List.length members + footer_size hasMore token)%nat) /\
  (forall spaces,
     (2 + 4 * List.length spaces + footer_size hasMore token
      <= List.length (formatSpacesList_lines spaces hasMore token)
      <= 2 + 5 * List.length spaces + footer_size hasMore token)%nat) /\
  (forall reactions,
     List.length (formatReactionsList_lines reactions hasMore token)
     = (2 + List.length (groupReactions reactions) + footer_size hasMore token)%nat /\
     (List.length (groupReactions reactions) <= List.length reactions)%nat /\
     (reactions <> [] -> groupReactions reactions <> [])).
Proof.
  refine (conj _ (conj _ (conj _ _))).
  - intros messages.
    rewrite (footer_behaviour_length _ _ _ (messages_footer messages)).
    unfold messages_body. simpl List.length.
    pose proof (flat_map_length_between (formatMessagesList_step []) 4 4 messages) as H.
    assert (Hblock : forall m, (4 <= List.length (formatMessagesList_step [] m) <= 4)%nat)
      by (intros m; rewrite formatMessagesList_block; simpl; lia).
    specialize (H Hblock). lia.
  - intros members.
    rewrite (footer_behaviour_length _ _ _ (members_footer members)).
    unfold members_body. simpl List.length.
    pose proof (flat_map_length_between (formatMembersList_step []) 5 5 members) as H.
    assert (Hblock : forall m, (5 <= List.length (formatMembersList_step [] m) <= 5)%nat)
      by (intros m; simpl; lia).
    specialize (H Hblock). lia.
  - intros spaces.
    rewrite (footer_behaviour_length _ _ _ (spaces_footer spaces)).
    unfold spaces_body. simpl List.length.
    pose proof (flat_map_length_between (formatSpacesList_step []) 4 5 spaces
                  space_block_size) as H.
    lia.
  - intros reactions. refine (conj _ (conj (groups_at_most_reactions reactions) _)).
    + rewrite (footer_behaviour_length _ _ _ (reactions_footer reactions)).
      unfold reactions_body. simpl List.length.
      pose proof (flat_map_length_between (formatReactionsList_step []) 1 1
                    (groupReactions reactions)) as H.
      assert (Hblock : forall g, (1 <= List.length (formatReactionsList_step [] g) <= 1)%nat)
        by (intros [k g]; simpl; lia).
      specialize (H Hblock). lia.
    + intros Hne. rewrite groupReactions_expected. unfold expected_groups.
      destruct reactions as [|r rs]; [contradiction | discriminate].
Qed.

End RenderingSizes.

Lemma list_rendering_sizes_witness :
  Sample.reactions <> [] /\
  Formatters.groupReactions Sample.reactions <> [].
Proof.
  assert (Hne : Sample.reactions <> []) by discriminate.
  split; [exact Hne|].
  destruct (list_rendering_sizes (platform := Reference.platform) true (Some "TOK123"))
    as (_ & _ & _ & Hreactions).
  exact (proj2 (proj2 (Hreactions Sample.reactions)) Hne).
Defined.

(* ================================================================== *)
(** * Further properties: the upload tool *)
(* ================================================================== *)

Section Upload.
Context {platform : Platform} (host : ApiClient.Host).
Import ApiClient Tools.

Lemma upload_issues (http : WireRequest -> Completion UploadResponse.t)
    (params : UploadAttachmentInput.t) (st : State) :
  issued_satisfy st (snd (google_chat_upload_attachment host http params st))
    (fun request =>
       exists token,
         token <> "" /\
         request =
         upload_request (UploadAttachmentInput.spaceName params)
           (UploadAttachmentInput.filename params)
           (UploadAttachmentInput.contentType params)
           (base64_byteLength (UploadAttachmentInput.contentBase64 params)) token).
Proof.
  unfold google_chat_upload_attachment. cbv zeta.
  eapply issued_satisfy_weaken; [apply guarded_issues|].
  intros request (token & Hne & ->). now exists token.
Qed.

(** X18.  The upload tool does not send the file.  The one request it can
    issue is a [POST] to [<space>/attachments:upload] without query
    parameters whose body has three fields, the file name, the content
    type and the number of decoded bytes.  Of the content nothing but that
    number reaches the request: an upload that differs only in content of
    the same decoded size is bound to the same method, address, body and
    parameters. *)
Theorem upload_sends_no_content (http : WireRequest -> Completion UploadResponse.t)
    (params other : UploadAttachmentInput.t) (st : State) :
  UploadAttachmentInput.spaceName other = UploadAttachmentInput.spaceName params ->
  UploadAttachmentInput.filename other = UploadAttachmentInput.filename params ->
  UploadAttachmentInput.contentType other = UploadAttachmentInput.contentType params ->
  base64_byteLength (UploadAttachmentInput.contentBase64 other)
    = base64_byteLength (UploadAttachmentInput.contentBase64 params) ->
  let sent request :=
    method request = POST /\
    url request = UploadAttachmentInput.spaceName params ++ "/attachments:upload" /\
    ApiClient.params request = None /\
    data request =
      JS.VObj [("filename", JS.VStr (UploadAttachmentInput.filename params));
               ("contentType", JS.VStr (UploadAttachmentInput.contentType params));
               ("contentLength",
                JS.VNum (base64_byteLength (UploadAttachmentInput.contentBase64 params)))]
  in
  issued_satisfy st (snd (invoke host (upload_attachment params) http st)) sent /\
  issued_satisfy st (snd (invoke host (upload_attachment other) http st)) sent.
Proof.
  intros Hspace Hname Htype Hsize. cbv zeta.
  assert (Hparams := upload_issues http params st).
  assert (Hother := upload_issues http other st).
  rewrite Hspace, Hname, Htype, Hsize in Hother.
  split.
  - eapply issued_satisfy_weaken; [exact Hparams|].
    intros request (token & _ & ->). now repeat split.
  - eapply issued_satisfy_weaken; [exact Hother|].
    intros request (token & _ & ->). now repeat split.
Qed.

End Upload.

Lemma upload_sends_no_content_witness :
  base64_byteLength (Platform := Reference.platform)
    (UploadAttachmentInput.contentBase64 SampleCalls.uploadOther)
  = base64_byteLength (Platform := Reference.platform)
      (UploadAttachmentInput.contentBase64 SampleCalls.upload) /\
  issued_satisfy SampleCalls.oauthReady
    (snd (Tools.invoke (platform := Reference.platform) SampleHosts.nothing
            (Tools.upload_attachment SampleCalls.uploadOther)
            (fun _ => inr (UploadResponse.mk None)) SampleCalls.oauthReady))
    (fun request =>
       ApiClient.method request = ApiClient.POST /\
       ApiClient.url request = "spaces/AAAA/attachments:upload" /\
       ApiClient.params request = None /\
       ApiClient.data request =
         JS.VObj [("filename", JS.VStr "notes.txt");
                  ("contentType", JS.VStr "text/plain");
                  ("contentLength", JS.VNum 5)]).
Proof.
  split; [reflexivity|].
  exact (proj2 (upload_sends_no_content (platform := Reference.platform)
                  SampleHosts.nothing (fun _ => inr (UploadResponse.mk None))
                  SampleCalls.upload SampleCalls.uploadOther SampleCalls.oauthReady
                  eq_refl eq_refl eq_refl eq_refl)).
Defined.

Lemma failure_texts_begin_with_Error_witness :
  fst (Tools.invoke (platform := Reference.platform) SampleHosts.tokenOnly
         (Tools.get_space (GetSpaceInput.mk "spaces/AAAA" MARKDOWN)) notFound
         SampleHosts.fresh) =
  inr (Tools.errorResult
         "Error: Resource not found - Space not found. Check that the space/message/member ID is correct.") /\
  exists rest,
    Tools.content
      (Tools.errorResult
         "Error: Resource not found - Space not found. Check that the space/message/member ID is correct.")
    = [Tools.TextContent ("Error: " ++ rest)].
Proof.
  split; [reflexivity|].
  exact (proj2 (failure_texts_begin_with_Error (platform := Reference.platform)
                  SampleHosts.tokenOnly
                  (Tools.get_space (GetSpaceInput.mk "spaces/AAAA" MARKDOWN))
                  notFound SampleHosts.fresh)
           _ eq_refl eq_refl).
Defined.
